(** * HighPass gateway: the integrity-verifying proxy pipeline

    A shallow embedding of the TypeScript sources

      - [src/lib/openseal-verifier/index.ts]  (OpensealVerifier)
      - [src/services/ProxyService.ts]        (ProxyService)
      - the domain resolver middleware        (domainResolver, serviceResolver)
      - [src/routes/services.ts]              (the two probing route handlers
                                               and the update handler)

    followed by the properties of the written specification that were checked
    against them.

    Conventions.  A JavaScript string is held as the text it denotes, in its
    UTF-8 encoding, so [TextEncoder.encode] is [list_byte_of_string]; the
    [length] property, which counts UTF-16 code units, is [JS.length].  The
    value [undefined] of an optional field or parameter is [None].  A [try]
    block is a computation in an exception monad and [catch] its handler.  The
    external libraries (\@noble/hashes, \@noble/ed25519, the built-in JSON
    codec, node:crypto) are operations of type classes: every theorem holds for
    any implementation of them. *)

From Stdlib Require Import ZArith List String Ascii Bool Lia Floats.
From Stdlib Require Import Strings.Byte.
From stdpp Require Import base option list strings pretty gmap.

Local Open Scope string_scope.
Set Warnings "-register-all".

(* ===================================================================== *)
(** ** JavaScript values, exceptions and string primitives                *)
(* ===================================================================== *)

Module JS.

(** A thrown [Error]; only its [message] is ever read by the code. *)
Record Error := mkError { error_message : string }.

(** The outcome of evaluating an expression that may throw. *)
Inductive Exc (A : Type) : Type :=
| Ok (a : A)
| Throw (e : Error).
Arguments Ok {A} a.
Arguments Throw {A} e.

(** A value produced by [JSON.parse] (the type [any] of the sources). *)
Inductive JSON : Type :=
| JNull
| JBool (b : bool)
| JNum (x : float)
| JStr (s : string)
| JArr (xs : list JSON)
| JObj (fields : list (string * JSON)).

(** ToBoolean: what [!v] and [if (v)] test. *)
Definition truthy (v : JSON) : bool :=
  match v with
  | JNull => false
  | JBool b => b
  | JNum x => negb (PrimFloat.eqb x 0%float || PrimFloat.is_nan x)
  | JStr s => negb (String.eqb s "")
  | JArr _ => true
  | JObj _ => true
  end.

(** ToBoolean of a possibly [undefined] value. *)
Definition truthy_opt (v : option JSON) : bool :=
  match v with Some v => truthy v | None => false end.

(** ToBoolean of a possibly [undefined] string: [undefined] and [""] are falsy. *)
Definition truthy_str (s : option string) : bool :=
  match s with Some s => negb (String.eqb s "") | None => false end.

(** ToBoolean of a possibly [undefined] object: every object is truthy. *)
Definition truthy_obj {A : Type} (o : option A) : bool :=
  match o with Some _ => true | None => false end.

(** Property access [v.key]; [undefined] on anything but an object that has
    the key (array indices and string lengths are never asked for). *)
Fixpoint assoc (key : string) (fields : list (string * JSON)) : option JSON :=
  match fields with
  | [] => None
  | (k, v) :: rest => if String.eqb k key then Some v else assoc key rest
  end.

Definition get (key : string) (v : JSON) : option JSON :=
  match v with
  | JObj fields => assoc key fields
  | _ => None
  end.

(** [s.startsWith(p)] *)
Definition startsWith (p s : string) : bool := String.prefix p s.

(** [s.includes(p)] *)
Fixpoint includes (p s : string) : bool :=
  String.prefix p s ||
  match s with
  | EmptyString => false
  | String _ s' => includes p s'
  end.

(** [s.endsWith(p)] *)
Definition endsWith (p s : string) : bool :=
  let n := String.length s in
  let m := String.length p in
  (m <=? n)%nat && String.eqb (String.substring (n - m) m s) p.

(** [s.split(sep)] for a one-character separator. *)
Fixpoint split (sep : ascii) (s : string) : list string :=
  match s with
  | EmptyString => [EmptyString]
  | String c s' =>
      if Ascii.eqb c sep then EmptyString :: split sep s'
      else match split sep s' with
           | [] => [String c EmptyString]
           | w :: ws => String c w :: ws
           end
  end.

(** [s.toLowerCase()] on header names, which HTTP restricts to ASCII. *)
Definition lower_ascii (c : ascii) : ascii :=
  let n := nat_of_ascii c in
  if ((65 <=? n) && (n <=? 90))%nat then ascii_of_nat (n + 32) else c.

Fixpoint toLowerCase (s : string) : string :=
  match s with
  | EmptyString => EmptyString
  | String c s' => String (lower_ascii c) (toLowerCase s')
  end.

(** [new TextEncoder().encode(s)] *)
Definition encode (s : string) : list byte := list_byte_of_string s.

(** The number of UTF-16 code units of one UTF-8 byte: a continuation byte
    (10xxxxxx) adds nothing, the lead byte of a four-byte sequence
    (11110xxx, a code point beyond the basic plane) counts for a surrogate
    pair, every other lead byte for one unit. *)
Definition utf16_units (c : ascii) : nat :=
  let n := nat_of_ascii c in
  if (n <? 128)%nat then 1
  else if (n <? 192)%nat then 0
  else if (n <? 240)%nat then 1
  else 2.

(** [s.length] *)
Fixpoint length (s : string) : nat :=
  match s with
  | EmptyString => 0
  | String c s' => utf16_units c + length s'
  end.

(** The number of bytes of the text. *)
Definition byteLength (s : string) : nat := List.length (encode s).

(** [buffer.toString('hex')]: two lower-case hex digits per byte. *)
Definition hex_digit (n : N) : ascii :=
  ascii_of_N (if (n <? 10)%N then 48 + n else 87 + n).

Fixpoint hex (bs : list byte) : string :=
  match bs with
  | [] => ""
  | b :: bs' =>
      let n := Byte.to_N b in
      String (hex_digit (n / 16)) (String (hex_digit (n mod 16)) (hex bs'))
  end.

(** [s.replace(/\/$/, '')]: [s] without one trailing slash. *)
Fixpoint strip_trailing_slash (s : string) : string :=
  match s with
  | EmptyString => EmptyString
  | String c EmptyString => if Ascii.eqb c "/" then EmptyString else s
  | String c s' => String c (strip_trailing_slash s')
  end.

End JS.

Export JS(Error, mkError, error_message, Exc, Ok, Throw, JSON, JNull, JBool, JNum, JStr, JArr, JObj).

(** The built-in JSON codec.  [JSON.stringify] is total on parsed values;
    [JSON.parse] throws a [SyntaxError] on text that is not JSON. *)
Class JSONCodec := {
  JSON_stringify : JSON -> string;
  JSON_parse : string -> Exc JSON;
}.

(** \@noble/hashes and \@noble/ed25519, as imported by the verifier. *)
Class Noble := {
  (** [blake3(bytes)]: the 32-byte digest *)
  blake3 : list byte -> list byte;
  (** [ed.verifyAsync(signature, message, publicKey)]; throws on operands of
      the wrong length *)
  ed_verifyAsync : list byte -> list byte -> list byte -> Exc bool;
  (** [hexToBytes(hex)]; throws on text that is not an even number of hex digits *)
  hexToBytes : string -> Exc (list byte);
  (** [bytesToHex(bytes)] *)
  bytesToHex : list byte -> string;
}.

(* ===================================================================== *)
(** ** Computations that throw and leave a trace of cryptographic calls    *)
(* ===================================================================== *)

Module Eff.

(** One call into the hashing or signature library. *)
Inductive CryptoCall : Type :=
| Blake3Call (input : list byte)
| Ed25519Call (sig msg pub : list byte).

(** A computation: the calls it made, in order, and how it ended. *)
Definition M (A : Type) : Type := (list CryptoCall * Exc A)%type.

Definition ret {A} (a : A) : M A := ([], Ok a).

Definition bind {A B} (m : M A) (k : A -> M B) : M B :=
  match m with
  | (t, Ok a) => let '(t', r) := k a in ((t ++ t')%list, r)
  | (t, Throw e) => (t, Throw e)
  end.

(** [try { body } catch (e) { handler }] *)
Definition try_catch {A} (body : M A) (handler : Error -> M A) : M A :=
  match body with
  | (t, Ok a) => (t, Ok a)
  | (t, Throw e) => let '(t', r) := handler e in ((t ++ t')%list, r)
  end.

(** Lifting of an expression that may throw but calls no cryptography. *)
Definition lift {A} (x : Exc A) : M A := ([], x).

Definition trace {A} (m : M A) : list CryptoCall := fst m.
Definition outcome {A} (m : M A) : Exc A := snd m.

End Eff.

Export Eff(CryptoCall, Blake3Call, Ed25519Call, M, trace, outcome).

Declare Scope eff_scope.
Delimit Scope eff_scope with eff.
Notation "'let!' x ':=' m 'in' k" := (Eff.bind m (fun x => k))
  (at level 10, x name, m at level 100, k at level 200) : eff_scope.

(* ===================================================================== *)
(** ** src/lib/openseal-verifier/index.ts                                  *)
(* ===================================================================== *)

(** The native verifier and the blinded-hash helper.  [verify], which hands
    the envelope to the CLI binary when one is installed and to
    [verifyNative] otherwise, is met again below as an operation of the
    forwarder's platform. *)
Module OpensealVerifier.

(** [OpenSealResponse['openseal']]; a field the sender left out is [None]. *)
Record OpenSeal := mkOpenSeal {
  signature : option string;
  pub_key : option string;
  a_hash : option string;
  b_hash : option string;
}.

Record OpenSealResponse := mkResponse {
  result : option JSON;
  openseal : option OpenSeal;
}.

Record VerificationResult := mkResult {
  valid : bool;
  signatureVerified : bool;
  identityVerified : bool;
  message : string;
}.

Section Native.
Context {noble : Noble} {codec : JSONCodec}.
Local Open Scope eff_scope.

(** The instrumented library calls. *)
Definition call_blake3 (input : list byte) : M (list byte) :=
  ([Blake3Call input], Ok (blake3 input)).

Definition call_verifyAsync (sig msg pub : list byte) : M bool :=
  ([Ed25519Call sig msg pub], ed_verifyAsync sig msg pub).

(** The incremental hasher of \@noble/hashes: [blake3.create({})] starts
    with nothing absorbed, [update] absorbs, [digest] hashes what was
    absorbed. *)
Record Hasher := mkHasher { absorbed : list byte }.
Definition blake3_create : Hasher := mkHasher [].
Definition update (h : Hasher) (data : list byte) : Hasher :=
  mkHasher (absorbed h ++ data)%list.
Definition digest (h : Hasher) : M (list byte) := call_blake3 (absorbed h).

(** [static computeAHash(rootHashHex, wax)] *)
Definition computeAHash (rootHashHex wax : string) : M string :=
  let! rootHashBytes := Eff.lift (hexToBytes rootHashHex) in
  let waxBytes := JS.encode wax in
  let prefixBytes := JS.encode "OPENSEAL_BLINDED_IDENTITY" in
  let hasher := blake3_create in
  let hasher := update hasher prefixBytes in
  let hasher := update hasher rootHashBytes in
  let hasher := update hasher waxBytes in
  let! d := digest hasher in
  Eff.ret (bytesToHex d).

(** The body of the [try] block of [verifyNative].  Past the two guards
    every destructured field is a non-empty string and [result] is
    defined, so the [default]s below are never taken. *)
Definition verifyNative_try (response : OpenSealResponse) (wax : string)
    (expectedRootHash : option string) : M VerificationResult :=
  let openseal := openseal response in
  let result := result response in
  if negb (JS.truthy_obj openseal) || negb (JS.truthy_opt result) then
    Eff.ret (mkResult false false false "Missing openseal or result fields")
  else
  let signature := openseal ≫= signature in
  let pub_key := openseal ≫= pub_key in
  let a_hash := openseal ≫= a_hash in
  let b_hash := openseal ≫= b_hash in
  if negb (JS.truthy_str signature) || negb (JS.truthy_str pub_key)
     || negb (JS.truthy_str a_hash) || negb (JS.truthy_str b_hash) then
    Eff.ret (mkResult false false false "Incomplete openseal metadata")
  else
  let signature := default "" signature in
  let pub_key := default "" pub_key in
  let a_hash := default "" a_hash in
  let b_hash := default "" b_hash in
  (* 1. Reconstruct Result Hash (Blake3Hex) *)
  let resultStr :=
    match result with
    | Some (JStr s) => s
    | Some v => JSON_stringify v
    | None => ""
    end in
  let resultBytes := JS.encode resultStr in
  let! resultHashBytes := call_blake3 resultBytes in
  let resultHashHex := bytesToHex resultHashBytes in
  (* 2. Reconstruct Payload *)
  let payloadString := wax ++ a_hash ++ b_hash ++ resultHashHex in
  let payloadBytes := JS.encode payloadString in
  (* 3. Verify Signature *)
  let! signatureBytes := Eff.lift (hexToBytes signature) in
  let! pubKeyBytes := Eff.lift (hexToBytes pub_key) in
  let! isValidSignature := call_verifyAsync signatureBytes payloadBytes pubKeyBytes in
  if negb isValidSignature then
    Eff.ret (mkResult false false false "Signature verification failed")
  else
  (* 4. Verify Identity (A-Hash) *)
  let! isIdentityValid :=
    (if JS.truthy_str expectedRootHash then
       let! calculatedAHash := computeAHash (default "" expectedRootHash) wax in
       Eff.ret (String.eqb calculatedAHash a_hash)
     else Eff.ret true) in
  if JS.truthy_str expectedRootHash && negb isIdentityValid then
    Eff.ret (mkResult false true false
      "Identity Mismatch: Code execution identity does not match expected root hash (Native).")
  else
    Eff.ret (mkResult true true true "✅ SEAL VALID (Native)").

(** [static async verifyNative(response, wax, expectedRootHash?)] *)
Definition verifyNative (response : OpenSealResponse) (wax : string)
    (expectedRootHash : option string) : M VerificationResult :=
  Eff.try_catch
    (verifyNative_try response wax expectedRootHash)
    (fun e => Eff.ret (mkResult false false false
                ("Native Verification Error: " ++ error_message e))).

End Native.

End OpensealVerifier.

(* ===================================================================== *)
(** ** The domain resolver middleware                                      *)
(* ===================================================================== *)

Module DomainResolver.

(** A row of the [services] table (the columns the middleware reads). *)
Record Service := mkService {
  id : string;
  name : string;
  slug : string;
  upstream_url : string;
  custom_domain : option string;
  status : string;
}.

(** The registry behind [query]: its rows, and whether it answers at all. *)
Record Database := mkDatabase {
  reachable : bool;
  rows : list Service;
}.

Definition run_query (db : Database) (matching : Service -> bool) : Exc (list Service) :=
  if reachable db then Ok (take 1 (List.filter matching (rows db)))
  else Throw (mkError "connection terminated").

(** [SELECT * FROM services WHERE custom_domain = $1 AND status = $2 LIMIT 1] *)
Definition select_by_custom_domain (db : Database) (domain status_ : string) :=
  run_query db (fun s =>
    match custom_domain s with
    | Some d => String.eqb d domain
    | None => false
    end && String.eqb (status s) status_).

(** [SELECT * FROM services WHERE slug = $1 AND status = $2 LIMIT 1] *)
Definition select_by_slug_and_status (db : Database) (slug_ status_ : string) :=
  run_query db (fun s => String.eqb (slug s) slug_ && String.eqb (status s) status_).

(** [SELECT * FROM services WHERE slug = $1 LIMIT 1] *)
Definition select_by_slug (db : Database) (slug_ : string) :=
  run_query db (fun s => String.eqb (slug s) slug_).

(** [req]: the path and the Host header, and the route parameters. *)
Record Request := mkRequest {
  path : string;
  host : option string;
  params_serviceSlug : option string;
  params_0 : option string;
}.

(** [res.locals] *)
Record Locals := mkLocals {
  serviceConfig : option Service;
  serviceSource : option string;
  strippedPath : option string;
}.

(** What a middleware does with the request: hand it on with [next()], or
    answer it. *)
Inductive Handled : Type :=
| Next (locals : Locals)
| Respond (code : Z) (error : string).

(** The longest prefix of [s] free of ["/"] (the regex class [[^\/]+]) and
    what follows it. *)
Fixpoint segment (s : string) : string :=
  match s with
  | EmptyString => EmptyString
  | String c s' => if Ascii.eqb c "/" then EmptyString else String c (segment s')
  end.

Fixpoint after_segment (s : string) : string :=
  match s with
  | EmptyString => EmptyString
  | String c s' => if Ascii.eqb c "/" then s else after_segment s'
  end.

(** [s] without the prefix [p], when it has it. *)
Fixpoint strip_prefix (p s : string) : option string :=
  match p, s with
  | EmptyString, _ => Some s
  | String a p', String b s' => if Ascii.eqb a b then strip_prefix p' s' else None
  | String _ _, EmptyString => None
  end.

(** [path.match(/^\/gatekeeper\/([^\/]+)/)]: the captured slug. *)
Definition legacyMatch (path : string) : option string :=
  match strip_prefix "/gatekeeper/" path with
  | Some rest => if String.eqb (segment rest) "" then None else Some (segment rest)
  | None => None
  end.

(** [path.replace(/^\/gatekeeper\/[^\/]+/, '')] *)
Definition replace_legacy (path : string) : string :=
  match strip_prefix "/gatekeeper/" path with
  | Some rest => if String.eqb (segment rest) "" then path else after_segment rest
  | None => path
  end.

(** [a || b] on strings *)
Definition or_else (a b : string) : string := if String.eqb a "" then b else a.

(** [hostname]: the Host header without its port. *)
Definition hostname_of (req : Request) : string :=
  let host := default "" (host req) in
  hd "" (JS.split ":" host).

(** [isHighStationDomain] *)
Definition isHighStationDomain (hostname : string) : bool :=
  JS.endsWith ".highstation.net" hostname || JS.endsWith ".highstation.localhost" hostname.

(** The body of the [try] block of [domainResolver], past the check for
    internal routes. *)
Definition domainResolver_try (db : Database) (req : Request) (locals : Locals)
    : Exc Handled :=
  let hostname := hostname_of req in
  (* Priority 1: Custom Domain Lookup *)
  match select_by_custom_domain db hostname "verified" with
  | Throw e => Throw e
  | Ok (row :: _) =>
      Ok (Next (mkLocals (Some row) (Some "custom_domain") (strippedPath locals)))
  | Ok [] =>
  (* Priority 2: Subdomain Lookup (slug.highstation.net) *)
  let parts := JS.split "." hostname in
  let subdomain := hd "" parts in
  match
    (if (2 <=? List.length parts)%nat && isHighStationDomain hostname
        && negb (String.eqb subdomain "www")
     then select_by_slug_and_status db subdomain "verified"
     else Ok [])
  with
  | Throw e => Throw e
  | Ok (row :: _) =>
      Ok (Next (mkLocals (Some row) (Some "subdomain") (strippedPath locals)))
  | Ok [] =>
  (* Priority 3: Legacy Path Support (/gatekeeper/:slug/...) *)
  match legacyMatch (path req) with
  | Some slug =>
      (* Skip if it's just the info endpoint (handled separately) *)
      if String.eqb slug "resource" || JS.includes "/info" (path req) then
        Ok (Next locals)
      else
        match select_by_slug_and_status db slug "verified" with
        | Throw e => Throw e
        | Ok (row :: _) =>
            (* Strip /gatekeeper/:slug from path for upstream forwarding *)
            let pathWithoutGatekeeper := or_else (replace_legacy (path req)) "/" in
            Ok (Next (mkLocals (Some row) (Some "legacy_path") (Some pathWithoutGatekeeper)))
        | Ok [] =>
            (* No service found - let it pass to next handler *)
            Ok (Next locals)
        end
  | None => Ok (Next locals)
  end
  end
  end.

(** [export async function domainResolver(req, res, next)] *)
Definition domainResolver (db : Database) (req : Request) (locals : Locals) : Handled :=
  (* Skip internal routes (API, MCP, Health, etc.) *)
  if JS.startsWith "/api" (path req) || JS.startsWith "/mcp" (path req)
     || JS.startsWith "/health" (path req) || JS.startsWith "/debug" (path req)
  then Next locals
  else
    match domainResolver_try db req locals with
    | Ok handled => handled
    | Throw _ =>
        (* Don't block the request, just pass to next handler *)
        Next locals
    end.

(** [export async function serviceResolver(req, res, next)] *)
Definition serviceResolver (db : Database) (req : Request) (locals : Locals) : Handled :=
  (* If already resolved by domainResolver, skip *)
  if JS.truthy_obj (serviceConfig locals) then Next locals
  else
    (* Try to resolve from path parameters (legacy support) *)
    let serviceSlug :=
      if JS.truthy_str (params_serviceSlug req) then params_serviceSlug req
      else params_0 req in
    if negb (JS.truthy_str serviceSlug) then Respond 400 "Service identifier missing"
    else
      match select_by_slug db (default "" serviceSlug) with
      | Ok [] => Respond 404 "Service not found"
      | Ok (row :: _) =>
          Next (mkLocals (Some row) (Some "param") (strippedPath locals))
      | Throw _ => Respond 500 "Service resolution failed"
      end.

End DomainResolver.

(* ===================================================================== *)
(** ** src/services/ProxyService.ts                                        *)
(* ===================================================================== *)

Module ProxyService.

Record Telemetry := mkTelemetry {
  latencyMs : Z;
  responseSizeBytes : nat;
  contentType : string;
  integrityCheck : bool;
}.

(** The [openseal] member attached to a [ProxyResult]. *)
Record SealReport := mkSealReport {
  verified : bool;
  message : string;
}.

Record ProxyResult := mkProxyResult {
  status : Z;
  data : option JSON;
  telemetry : Telemetry;
  openseal : option SealReport;
}.

(** The inbound Express request, as far as it is read. *)
Record Request := mkRequest {
  method : string;
  headers : gmap string string;
  body : option JSON;
  originalUrl : string;
}.

(** The second argument of [fetch]. *)
Record RequestInit := mkRequestInit {
  init_method : string;
  init_headers : gmap string string;
  init_body : option string;
}.

(** The upstream's answer, its body already read with [response.text()].
    A [Headers] object keeps its names in lower case. *)
Record Response := mkResponse {
  response_status : Z;
  response_headers : gmap string string;
  responseText : string;
}.

(** [response.headers.get(name)] *)
Definition headers_get (name : string) (response : Response) : option string :=
  response_headers response !! JS.toLowerCase name.

(** What the call reads from its surroundings. *)
Record Ambient := mkAmbient {
  (** [Math.floor(Date.now() / 1000).toString()] *)
  timestamp : string;
  (** [randomBytes(16)] *)
  entropy : list byte;
  (** [Math.round(endTime - startTime)] *)
  elapsedMs : Z;
}.

(** node:crypto, the global [fetch], and the imported verifier (which runs
    the CLI binary when there is one and [verifyNative] otherwise). *)
Class Platform := {
  (** [createHmac('sha256', secret).update(payload).digest('hex')] *)
  createHmac_sha256_hex : string -> string -> string;
  fetch : string -> RequestInit -> Exc Response;
  (** [OpensealVerifier.verify(response, wax, expectedRootHash)] *)
  OpensealVerifier_verify :
    JSON -> string -> string -> Exc OpensealVerifier.VerificationResult;
}.

(** strict header allowlist *)
Definition SAFE_HEADERS : gset string :=
  list_to_set
    ["accept"; "accept-encoding"; "accept-language"; "content-type";
     "content-length"; "user-agent"; "cache-control"].

(** Block dangerous headers *)
Definition dangerous (lowerKey : string) : bool :=
  JS.startsWith "x-forwarded" lowerKey
  || JS.startsWith "x-real-ip" lowerKey
  || JS.startsWith "x-original" lowerKey
  || JS.startsWith "x-rewrite" lowerKey
  || String.eqb lowerKey "host"
  || String.eqb lowerKey "connection".

(** The callback of [Object.keys(req.headers).forEach]: whether [key] is
    copied into [forwardHeaders]. *)
Definition copied (key : string) : bool :=
  let lowerKey := JS.toLowerCase key in
  if dangerous lowerKey then false
  else bool_decide (lowerKey ∈ SAFE_HEADERS).


Section Forward.
Context {platform : Platform} {codec : JSONCodec}.

(** [requestBody]: the serialised body of a POST, PUT or PATCH. *)
Definition requestBody (req : Request) : option string :=
  if bool_decide (method req ∈ ["POST"; "PUT"; "PATCH"])
  then JSON_stringify <$> body req else None.

(** [wax]: drawn only when a root hash is configured. *)
Definition wax (opensealRootHash : option string) (amb : Ambient) : option string :=
  if JS.truthy_str opensealRootHash then Some (JS.hex (entropy amb)) else None.

(** [forwardHeaders], as handed to [fetch].  The [forEach] over the keys
    of [req.headers] copies the entries it keeps under their own keys,
    which is the map filtered by the callback's test. *)
Definition forwardHeaders (req : Request) (serviceName : string)
    (signingSecret opensealRootHash : option string) (amb : Ambient)
    : gmap string string :=
  (* Header filtering logic *)
  let forwardHeaders := filter (λ kv, copied kv.1 = true) (headers req) in
  (* Add gatekeeper metadata *)
  let forwardHeaders := <["x-forwarded-by" := "highstation"]> forwardHeaders in
  let forwardHeaders := <["x-service-name" := serviceName]> forwardHeaders in
  (* V-1.8.1: HMAC Signature for Provider Verification *)
  let timestamp := timestamp amb in
  let forwardHeaders := <["x-highstation-time" := timestamp]> forwardHeaders in
  let requestBody := requestBody req in
  let forwardHeaders :=
    if JS.truthy_str signingSecret then
      (* Construct payload: timestamp.body (or just timestamp if no body) *)
      let payload :=
        if JS.truthy_str requestBody
        then timestamp ++ "." ++ default "" requestBody
        else timestamp in
      let signature := createHmac_sha256_hex (default "" signingSecret) payload in
      <["x-highstation-signature" := "t=" ++ timestamp ++ ",v1=" ++ signature]>
        forwardHeaders
    else forwardHeaders in
  (* [OpenSeal] V-2.0.0 Integrity Challenge *)
  match wax opensealRootHash amb with
  | Some wax => <["X-OpenSeal-Wax" := wax]> forwardHeaders
  | None => forwardHeaders
  end.

Definition targetUrl (req : Request) (upstreamUrl subPath : string) : string :=
  let queryString := JS.split "?" (originalUrl req) !! 1%nat in
  let finalPath :=
    match queryString with
    | Some q => if JS.truthy_str queryString then subPath ++ "?" ++ q else subPath
    | None => subPath
    end in
  let baseUrl := JS.strip_trailing_slash upstreamUrl in
  let relativePath := if JS.startsWith "/" finalPath then finalPath else "/" ++ finalPath in
  baseUrl ++ relativePath.

(** The variables the response is interpreted into. *)
Record Vars := mkVars {
  v_data : option JSON;
  v_integrityCheck : bool;
  v_openSealVerified : bool;
  v_openSealMessage : string;
}.

Definition set_data (d : option JSON) (v : Vars) : Vars :=
  mkVars d (v_integrityCheck v) (v_openSealVerified v) (v_openSealMessage v).
Definition set_integrityCheck (b : bool) (v : Vars) : Vars :=
  mkVars (v_data v) b (v_openSealVerified v) (v_openSealMessage v).
Definition set_openSealVerified (b : bool) (v : Vars) : Vars :=
  mkVars (v_data v) (v_integrityCheck v) b (v_openSealMessage v).
Definition set_openSealMessage (m : string) (v : Vars) : Vars :=
  mkVars (v_data v) (v_integrityCheck v) (v_openSealVerified v) m.

(** [try { const sealJson = JSON.parse(seal); const resultVerify = await
    OpensealVerifier.verify({ result, openseal: sealJson }, wax, root); ... }
    catch (e) { openSealMessage = `Header Parse Error: ${e.message}` }] *)
Definition verifySealHeader (seal : string) (result : JSON) (wax root : string)
    (v : Vars) : Vars :=
  match JSON_parse seal with
  | Ok sealJson =>
      match OpensealVerifier_verify
              (JObj [("result", result); ("openseal", sealJson)]) wax root with
      | Ok resultVerify =>
          set_openSealMessage (OpensealVerifier.message resultVerify)
            (set_openSealVerified (OpensealVerifier.valid resultVerify) v)
      | Throw e => set_openSealMessage ("Header Parse Error: " ++ error_message e) v
      end
  | Throw e => set_openSealMessage ("Header Parse Error: " ++ error_message e) v
  end.

(** [parsedBody && parsedBody.openseal && parsedBody.result !== undefined] *)
Definition isBodyWrapper (parsedBody : JSON) : bool :=
  JS.truthy parsedBody && JS.truthy_opt (JS.get "openseal" parsedBody)
  && bool_decide (is_Some (JS.get "result" parsedBody)).

(** The inner [try] block: the body parsed as JSON.  The variables are
    returned as they stand when the block ends or throws. *)
Definition interpret_try (response : Response) (opensealRootHash wax : option string)
    (v : Vars) : Vars * Exc unit :=
  match JSON_parse (responseText response) with
  | Throw e => (v, Throw e)
  | Ok parsedBody =>
    let v := set_integrityCheck true v in
    (* Case A: Body Wrapper (Preferred in v2.0) *)
    if isBodyWrapper parsedBody then
      if JS.truthy_str opensealRootHash && JS.truthy_str wax then
        match OpensealVerifier_verify parsedBody (default "" wax)
                (default "" opensealRootHash) with
        | Throw e => (v, Throw e)
        | Ok resultVerify =>
            let v := set_openSealVerified (OpensealVerifier.valid resultVerify) v in
            let v := set_openSealMessage (OpensealVerifier.message resultVerify) v in
            (* Unwrap the actual result for the user *)
            (set_data (JS.get "result" parsedBody) v, Ok tt)
        end
      else (set_data (JS.get "result" parsedBody) v, Ok tt)
    (* Case B: Header-based (Legacy Fallback) *)
    else
      let v := set_data (Some parsedBody) v in
      if JS.truthy_str opensealRootHash && JS.truthy_str wax then
        let seal := headers_get "X-OpenSeal-Seal" response in
        if JS.truthy_str seal then
          (verifySealHeader (default "" seal) parsedBody (default "" wax)
             (default "" opensealRootHash) v, Ok tt)
        else (set_openSealMessage "Missing Seal (Header/Body)" v, Ok tt)
      else (v, Ok tt)
  end.

(** The [catch] of that block: the body taken as plain text. *)
Definition interpret_catch (response : Response) (opensealRootHash wax : option string)
    (v : Vars) : Vars :=
  let v := set_data (Some (JObj [("message", JStr (responseText response))])) v in
  let v := set_integrityCheck false v in
  if JS.truthy_str opensealRootHash && JS.truthy_str wax then
    let seal := headers_get "X-OpenSeal-Seal" response in
    if JS.truthy_str seal then
      verifySealHeader (default "" seal) (JStr (responseText response)) (default "" wax)
        (default "" opensealRootHash) v
    else
      set_openSealMessage "Integrity Compromised: Non-JSON response without Seal header" v
  else v.

Definition interpret (response : Response) (opensealRootHash wax : option string) : Vars :=
  let v := mkVars None false false "" in
  match interpret_try response opensealRootHash wax v with
  | (v, Ok _) => v
  | (v, Throw _) => interpret_catch response opensealRootHash wax v
  end.

(** The part of [forwardRequest] that follows the upstream call: the
    [ProxyResult] built from the upstream's answer. *)
Definition respond (response : Response) (opensealRootHash wax : option string)
    (amb : Ambient) : ProxyResult :=
  let v := interpret response opensealRootHash wax in
  let latencyMs := elapsedMs amb in
  let contentType :=
    let c := headers_get "content-type" response in
    if JS.truthy_str c then default "" c else "unknown" in
  let responseSizeBytes := JS.length (responseText response) in
  mkProxyResult
    (response_status response)
    (v_data v)
    (mkTelemetry latencyMs responseSizeBytes contentType (v_integrityCheck v))
    (* Attach Verification Metadata *)
    (if JS.truthy_str opensealRootHash
     then Some (mkSealReport (v_openSealVerified v) (v_openSealMessage v))
     else None).

(** [static async forwardRequest(req, upstreamUrl, serviceName, subPath,
    signingSecret?, opensealRootHash?)].  A rejected [fetch] is rethrown;
    the latency report to the reputation feed is fire-and-forget and has no
    part in the result. *)
Definition forwardRequest (req : Request) (upstreamUrl serviceName subPath : string)
    (signingSecret opensealRootHash : option string) (amb : Ambient) : Exc ProxyResult :=
  let forwardHeaders := forwardHeaders req serviceName signingSecret opensealRootHash amb in
  let wax := wax opensealRootHash amb in
  let targetUrl := targetUrl req upstreamUrl subPath in
  match fetch targetUrl (mkRequestInit (method req) forwardHeaders (requestBody req)) with
  | Throw error => Throw error
  | Ok response => Ok (respond response opensealRootHash wax amb)
  end.

End Forward.

End ProxyService.

(* ===================================================================== *)
(** ** src/routes/services.ts: the two handlers that call a provider's URL  *)
(* ===================================================================== *)

Module ServicesRoutes.

(** A parsed URL ([new URL(...)]), as far as the handlers read it. *)
Record URL := mkURL {
  protocol : string;
  hostname : string;
  port : string;
  pathname : string;
  search : string;
}.

(** [url.origin] and [url.toString()] of an http(s) URL. *)
Definition origin (u : URL) : string :=
  protocol u ++ "//" ++ hostname u ++ (if String.eqb (port u) "" then "" else ":" ++ port u).
Definition toString (u : URL) : string := origin u ++ pathname u ++ search u.

(** [new URL(path, u.origin)] of an http(s) URL, for one of the fixed
    absolute paths. *)
Definition at_path (path : string) (u : URL) : URL :=
  mkURL (protocol u) (hostname u) (port u) path "".

(** One call of [fetch]: the text handed to it, the URL that text denotes
    (whose [hostname] the HTTP client resolves, unless it is an address
    literal, and connects to), and the request headers. *)
Record FetchCall := mkFetchCall {
  href : string;
  target : URL;
  fetch_method : string;
  fetch_headers : list (string * string);
  timeout_ms : Z;
}.

(** The answer to a probe, with [Date.now()] at its arrival. *)
Record FetchResponse := mkFetchResponse {
  fetch_status : Z;
  fetch_response_headers : gmap string string;
  fetch_text : string;
  arrived : Z;
}.

Definition ok (r : FetchResponse) : bool :=
  (200 <=? fetch_status r)%Z && (fetch_status r <=? 299)%Z.

Definition response_header (name : string) (r : FetchResponse) : option string :=
  fetch_response_headers r !! JS.toLowerCase name.

(** The validators of [../utils/validators], the resolver and the network. *)
Class Network := {
  URL_parse : string -> Exc URL;
  (** [new URL(path, origin)] for a caller-supplied path *)
  URL_resolve : string -> URL -> Exc URL;
  isSafeUrlSyntax : string -> bool;
  isBlockedIP : string -> bool;
  (** [dns.resolve4(hostname)]: the first A record and the others; it rejects
      (ENODATA, ENOTFOUND) rather than resolve to no record *)
  dns_resolve4 : string -> Exc (string * list string);
  net_isIP : string -> bool;
  fetch : FetchCall -> Exc FetchResponse;
}.

(** The identity a successful probe reports, for display. *)
Record Identity := mkIdentity {
  identity_a_hash : JSON;
  identity_source : string;
}.

Inductive Reply : Type :=
| Failure (code : Z) (error : string)
| ProbeSuccess (status latency : Z) (ip : string) (openseal : option Identity)
    (probe_path : string)
| ProbeFailure (status : Z) (error : string) (ip : string)
| Verified.

Section Handlers.
Context {network : Network} {codec : JSONCodec}.

(** [resolvedIP], the address both handlers pin: [addresses[0]], or the
    hostname itself when the lookup fails and it is an address literal. *)
Definition resolve (hostname : string) : option string :=
  match dns_resolve4 hostname with
  | Ok (address, _) => Some address
  | Throw _ => if net_isIP hostname then Some hostname else None
  end.

(** [[...new Set(endpointsToTry)]]: the first occurrence of each text. *)
Fixpoint unique (seen : list string) (endpoints : list (string * URL))
    : list (string * URL) :=
  match endpoints with
  | [] => []
  | e :: rest =>
      if existsb (String.eqb (fst e)) seen then unique seen rest
      else e :: unique (fst e :: seen) rest
  end.

Definition probeRequest (endpoint : string * URL) : FetchCall :=
  mkFetchCall (fst endpoint) (snd endpoint) "GET"
    [("Accept", "application/json"); ("User-Agent", "highstation-probe/1.0")] 5000.

(** Peek for OpenSeal in headers, then in a JSON body. *)
Definition peek (probeRes : FetchResponse) : option Identity :=
  let fromHeader :=
    let sealHeader := response_header "X-OpenSeal-Seal" probeRes in
    if JS.truthy_str sealHeader then
      match JSON_parse (default "" sealHeader) with
      | Ok parsed =>
          if JS.truthy_opt (JS.get "a_hash" parsed)
          then (λ h, mkIdentity h "header") <$> JS.get "a_hash" parsed
          else None
      | Throw _ => None
      end
    else None in
  let contentType := default "" (response_header "content-type" probeRes) in
  if negb (JS.truthy_obj fromHeader) && JS.includes "application/json" contentType then
    match JSON_parse (fetch_text probeRes) with
    | Ok body =>
        let deep a b := JS.get a body ≫= JS.get b in
        if JS.truthy body && JS.truthy_opt (JS.get "identity" body)
           && JS.truthy_opt (deep "identity" "a_hash") then
          (λ h, mkIdentity h "openseal-identity") <$> deep "identity" "a_hash"
        else if JS.truthy body && JS.truthy_opt (JS.get "openseal" body)
           && JS.truthy_opt (deep "openseal" "a_hash") then
          (λ h, mkIdentity h "body") <$> deep "openseal" "a_hash"
        else if JS.truthy body
           && (JS.truthy_opt (JS.get "a_hash" body) || JS.truthy_opt (JS.get "root_hash" body)) then
          (λ h, mkIdentity h "body-root")
            <$> (if JS.truthy_opt (JS.get "a_hash" body)
                 then JS.get "a_hash" body else JS.get "root_hash" body)
        else None
    | Throw _ => None
    end
  else fromHeader.

(** The probing loop: the calls made, the first success if any, and the
    last status seen. *)
Fixpoint probeLoop (start : Z) (resolvedIP : string) (endpoints : list (string * URL))
    (lastStatus : Z) : list FetchCall * option Reply * Z :=
  match endpoints with
  | [] => ([], None, lastStatus)
  | probeUrl :: rest =>
      let call := probeRequest probeUrl in
      match fetch call with
      | Ok probeRes =>
          let lastStatus := fetch_status probeRes in
          let latency := (arrived probeRes - start)%Z in
          if ok probeRes then
            ([call],
             Some (ProbeSuccess (fetch_status probeRes) latency resolvedIP
                     (peek probeRes) (pathname (snd probeUrl))),
             lastStatus)
          else
            let '(calls, found, last) := probeLoop start resolvedIP rest lastStatus in
            (call :: calls, found, last)
      | Throw _ =>
          let '(calls, found, last) := probeLoop start resolvedIP rest lastStatus in
          (call :: calls, found, last)
      end
  end.

(** [router.post('/utils/test-connection', ...)]: the calls of [fetch] it
    makes and its reply.  [start] is [Date.now()] before the first probe. *)
Definition testConnection (url testPath : option string) (start : Z)
    : list FetchCall * Reply :=
  if negb (JS.truthy_str url) then ([], Failure 400 "URL required") else
  let url := default "" url in
  (* 1. Syntax Check *)
  if negb (isSafeUrlSyntax url) then ([], Failure 400 "Invalid or unsafe URL format") else
  match URL_parse url with
  | Throw _ => ([], Failure 500 "Probing failed")
  | Ok urlObj =>
  let hostname := hostname urlObj in
  (* 2. DNS Resolution & SSRF Check *)
  match resolve hostname with
  | None => ([], Failure 400 "DNS resolution failed")
  | Some resolvedIP =>
  if isBlockedIP resolvedIP then ([], Failure 400 "Access to private network blocked") else
  (* 3. Real Probing (Latency measurement) *)
  (* PRIORITY 1: OpenSeal Standard Identity Endpoint *)
  let identity := at_path "/.openseal/identity" urlObj in
  (* PRIORITY 2: User-defined test path *)
  let custom : Exc (list (string * URL)) :=
    if JS.truthy_str testPath then
      let testPath := default "" testPath in
      let normalizedPath :=
        if JS.startsWith "/" testPath then testPath else "/" ++ testPath in
      match URL_resolve normalizedPath urlObj with
      | Ok u => Ok [(toString u, u)]
      | Throw e => Throw e
      end
    else Ok [] in
  match custom with
  | Throw _ => ([], Failure 500 "Probing failed")
  | Ok custom =>
  (* PRIORITY 3: Fallback to common health check paths *)
  let endpointsToTry :=
    ([(toString identity, identity)] ++ custom
       ++ [(url, urlObj);
           (toString (at_path "/health" urlObj), at_path "/health" urlObj);
           (toString (at_path "/api/health" urlObj), at_path "/api/health" urlObj)])%list in
  (* De-duplicate while preserving order *)
  let uniqueEndpoints := unique [] endpointsToTry in
  match probeLoop start resolvedIP uniqueEndpoints 0 with
  | (calls, Some successResult, _) => (calls, successResult)
  | (calls, None, lastStatus) =>
      (calls,
       ProbeFailure (if (lastStatus =? 0)%Z then 500 else lastStatus)
         (if (lastStatus =? 404)%Z then "Target path not found (404)"
          else "Connection failed (Status: " ++ pretty lastStatus ++ ")")
         resolvedIP)
  end
  end
  end
  end.

(** The service row read by [router.post('/:id/verify', ...)]. *)
Record ServiceRow := mkServiceRow {
  service_upstream_url : string;
  verification_token : option string;
}.

Definition verificationUrl (urlObj : URL) (resolvedIP : string) : URL :=
  mkURL (protocol urlObj) resolvedIP (port urlObj) "/.well-known/x402-verify.txt" "".

(** [router.post('/:id/verify', ...)]: the calls of [fetch] it makes and
    its reply.  [service] is the row found for the id and the caller, if
    any. *)
Definition verify (userId : option string) (service : option ServiceRow)
    : list FetchCall * Reply :=
  if negb (JS.truthy_str userId) then ([], Failure 401 "Unauthorized") else
  match service with
  | None => ([], Failure 404 "Service not found")
  | Some service =>
  if negb (JS.truthy_str (verification_token service)) then
    ([], Failure 400 "No verification token. Generate one first.")
  else
  (* SSRF PROTECTION (V-03-FIXED): Prevent TOCTOU by pinning DNS resolution *)
  (* 1. Parse URL *)
  match URL_parse (service_upstream_url service) with
  | Throw _ => ([], Failure 400 "Invalid URL format")
  | Ok urlObj =>
  let hostname := hostname urlObj in
  (* 2. Resolve DNS (IPv4 first) to get specific IP "Pin" *)
  match resolve hostname with
  | None => ([], Failure 400 "Verification failed")
  | Some resolvedIP =>
  (* 3. Validate the Resolved IP (Not the hostname) *)
  if isBlockedIP resolvedIP then ([], Failure 400 "Invalid Upstream") else
  (* 4. Construct Safe URL using IP *)
  let verificationUrl := verificationUrl urlObj resolvedIP in
  let call :=
    mkFetchCall (toString verificationUrl) verificationUrl "GET"
      [("User-Agent", "highstation-bot/1.0");
       ("Host", hostname) (* CRITICAL: Preserve original Host header for virtual hosts *)]
      5000 in
  match fetch call with
  | Throw _ => ([call], Failure 400 "Could not verify domain")
  | Ok response =>
      if negb (ok response) then
        ([call], Failure 400 "Verification file not found or inaccessible")
      else if negb (JS.includes (default "" (verification_token service))
                      (fetch_text response)) then
        ([call], Failure 400 "Verification failed")
      else ([call], Verified)
  end
  end
  end
  end.

(** The pin-then-connect discipline on one call: it connects to the
    pinned address and names the original host in a [Host] header. *)
Definition pinned_to (resolvedIP hostname : string) (call : FetchCall) : Prop :=
  ServicesRoutes.hostname (target call) = resolvedIP
  /\ In ("Host", hostname) (fetch_headers call).

End Handlers.

End ServicesRoutes.

(* ===================================================================== *)
(** ** The protocol of the written specification (section 4.4)             *)
(* ===================================================================== *)

(** These definitions follow the words of the specification, not the code;
    the properties below compare the code with them. *)
Module Spec.
Section Protocol.
Context {noble : Noble} {codec : JSONCodec}.

(** "serialize is the identity function for string results and canonical
    JSON stringification otherwise" *)
Definition serialize (result : JSON) : string :=
  match result with
  | JStr s => s
  | _ => JSON_stringify result
  end.

(** "resultHash = Hash(serialize(result))", in hex *)
Definition resultHashHex (result : JSON) : string :=
  bytesToHex (blake3 (JS.encode (serialize result))).

(** "the byte concatenation nonce || a_hash || b_hash || hex(resultHash)" *)
Definition signedPayload (nonce a_hash b_hash : string) (result : JSON) : list byte :=
  (JS.encode nonce ++ JS.encode a_hash ++ JS.encode b_hash
     ++ JS.encode (resultHashHex result))%list.

(** "a_hash' = Hash("OPENSEAL_BLINDED_IDENTITY" || expectedRootHash_bytes
    || nonce_bytes)", in hex *)
Definition computeBlindedHash (rootHashBytes : list byte) (nonce : string) : string :=
  bytesToHex (blake3 (JS.encode "OPENSEAL_BLINDED_IDENTITY" ++ rootHashBytes
                        ++ JS.encode nonce)%list).

End Protocol.
End Spec.

(* ===================================================================== *)
(** ** Executable stand-ins for the external libraries                     *)
(* ===================================================================== *)

(** The model runs on concrete inputs once the library operations are given.
    [hexToBytes] and [bytesToHex] are the hex codec itself.  The digest and the
    signature check are small stand-ins with the interface of BLAKE3 and
    Ed25519 (32-byte digests; 64-byte signatures and 32-byte keys, anything
    else throws); they make no claim to the security of the real ones. *)
Module Standin.

Definition bytesToHex (bs : list byte) : string := JS.hex bs.

Definition hex_value (c : ascii) : option N :=
  let n := N_of_ascii c in
  if ((48 <=? n) && (n <=? 57))%N then Some (n - 48)%N
  else if ((65 <=? n) && (n <=? 70))%N then Some (n - 55)%N
  else if ((97 <=? n) && (n <=? 102))%N then Some (n - 87)%N
  else None.

Fixpoint hex_pairs (s : string) : option (list byte) :=
  match s with
  | EmptyString => Some []
  | String _ EmptyString => None
  | String c1 (String c2 s') =>
      match hex_value c1, hex_value c2, hex_pairs s' with
      | Some h, Some l, Some bs =>
          match Byte.of_N (16 * h + l) with
          | Some b => Some (b :: bs)
          | None => None
          end
      | _, _, _ => None
      end
  end.

Definition hexToBytes (s : string) : Exc (list byte) :=
  match hex_pairs s with
  | Some bs => Ok bs
  | None => Throw (mkError "hex string expected")
  end.

(** A 16-bit rolling checksum, spread over 32 bytes. *)
Definition absorb (acc : N) (b : byte) : N :=
  ((acc * 31 + Byte.to_N b + 1) mod 65521)%N.

Definition spread (h : N) (i : nat) : byte :=
  default "000"%byte (Byte.of_N ((h * (2 * N.of_nat i + 1) + N.of_nat i) mod 256)%N).

Definition digest32 (bs : list byte) : list byte :=
  List.map (spread (fold_left absorb bs 7%N)) (List.seq 0 32).

(** The signature of [msg] under the key [pub]: two digests, 64 bytes. *)
Definition sign (pub msg : list byte) : list byte :=
  (digest32 (pub ++ msg) ++ digest32 (msg ++ pub))%list.

Fixpoint bytes_eqb (x y : list byte) : bool :=
  match x, y with
  | [], [] => true
  | a :: x', b :: y' => Byte.eqb a b && bytes_eqb x' y'
  | _, _ => false
  end.

Definition verify (sig msg pub : list byte) : Exc bool :=
  if negb (List.length sig =? 64)%nat then
    Throw (mkError "signature of 64 bytes expected")
  else if negb (List.length pub =? 32)%nat then
    Throw (mkError "publicKey of 32 bytes expected")
  else Ok (bytes_eqb sig (sign pub msg)).

#[export] Instance noble : Noble := {
  blake3 := digest32;
  ed_verifyAsync := verify;
  hexToBytes := hexToBytes;
  bytesToHex := bytesToHex;
}.

(** A codec that prints scalars and strings and parses nothing but the
    literals [null], [true] and [false]; enough to drive the branches of the
    callers. *)
Definition stringify (v : JSON) : string :=
  match v with
  | JNull => "null"
  | JBool true => "true"
  | JBool false => "false"
  | JNum _ => "0"
  | JStr s => String "034" (s ++ String "034" "")
  | JArr _ => "[]"
  | JObj _ => "{}"
  end.

Definition parse (s : string) : Exc JSON :=
  if String.eqb s "null" then Ok JNull
  else if String.eqb s "true" then Ok (JBool true)
  else if String.eqb s "false" then Ok (JBool false)
  else if String.eqb s "{}" then Ok (JObj [])
  else Throw (mkError "Unexpected token").

#[export] Instance codec : JSONCodec := {
  JSON_stringify := stringify;
  JSON_parse := parse;
}.

(** An upstream that answers every call with one fixed response, and a
    verifier that accepts nothing. *)
Definition platform (response : ProxyService.Response) : ProxyService.Platform := {|
  ProxyService.createHmac_sha256_hex secret payload :=
    bytesToHex (digest32 (JS.encode (secret ++ payload)));
  ProxyService.fetch _ _ := Ok response;
  ProxyService.OpensealVerifier_verify _ _ _ :=
    Ok (OpensealVerifier.mkResult false false false "Signature verification failed");
|}.

(** A network with one provider, [example.com] at 93.184.216.34, whose every
    path answers 200 with an empty JSON object.  Its [URL_resolve] is that of
    a path on the same host; a reference that names a host of its own
    (//host/path) is not among the sample inputs. *)
Definition example_com : ServicesRoutes.URL :=
  ServicesRoutes.mkURL "http:" "example.com" "" "/" "".

#[export] Instance network : ServicesRoutes.Network := {
  ServicesRoutes.URL_parse url :=
    if String.eqb url "http://example.com/" then Ok example_com
    else Throw (mkError "Invalid URL");
  ServicesRoutes.URL_resolve path u := Ok (ServicesRoutes.at_path path u);
  ServicesRoutes.isSafeUrlSyntax url := JS.startsWith "http" url;
  ServicesRoutes.isBlockedIP ip :=
    JS.startsWith "127." ip || JS.startsWith "10." ip || JS.startsWith "169.254." ip;
  ServicesRoutes.dns_resolve4 hostname :=
    if String.eqb hostname "example.com" then Ok ("93.184.216.34", [])
    else Throw (mkError "ENOTFOUND");
  ServicesRoutes.net_isIP hostname := false;
  ServicesRoutes.fetch call :=
    Ok (ServicesRoutes.mkFetchResponse 200 {[ "content-type" := "application/json" ]} "{}" 12);
}.

End Standin.



(* ===================================================================== *)
(** ** Sample protocol runs under the stand-ins                            *)
(* ===================================================================== *)

Module Sample.
Import (hints) Standin.

(** A provider key, a committed root hash and a challenge. *)
Definition pub_key : string :=
  "0101010101010101010101010101010101010101010101010101010101010101".
Definition root : string := "ab12cd".
Definition other_root : string := "ab12ce".
Definition wax : string := "00112233445566778899aabbccddeeff".
Definition b_hash : string := "b0b0".

Definition bytes_of (hex : string) : list byte :=
  match Standin.hexToBytes hex with Ok bs => bs | Throw _ => [] end.

(** The blinded identity an honest provider of [root] reports for [wax]. *)
Definition a_hash : string := Spec.computeBlindedHash (bytes_of root) wax.

(** The provider's side of the protocol under the stand-in scheme: the
    signature over the payload for [result] and a build digest [b], and the
    seal that carries it. *)
Definition signature_with (b : string) (result : JSON) : string :=
  Standin.bytesToHex
    (Standin.sign (bytes_of pub_key) (Spec.signedPayload wax a_hash b result)).

Definition seal_with (b : string) (result : JSON) : OpensealVerifier.OpenSeal :=
  OpensealVerifier.mkOpenSeal
    (Some (signature_with b result)) (Some pub_key) (Some a_hash) (Some b).

(** The sealed envelope an honest provider returns for [result]. *)
Definition sealed_with (b : string) (result : JSON) : OpensealVerifier.OpenSealResponse :=
  OpensealVerifier.mkResponse (Some result) (Some (seal_with b result)).

Definition signature_for : JSON -> string := signature_with b_hash.
Definition sealed : JSON -> OpensealVerifier.OpenSealResponse := sealed_with b_hash.

(** The same envelope with its [result] member left out. *)
Definition without_result : OpensealVerifier.OpenSealResponse :=
  OpensealVerifier.mkResponse None (Some (seal_with b_hash (JStr "42"))).

(** A registry with a weather service, pending or verified, and a verified
    shop on its own domain; a request on the legacy path of the former. *)
Definition weather (status : string) : DomainResolver.Service :=
  DomainResolver.mkService "1" "Weather" "weather" "https://weather.example" None status.
Definition shop : DomainResolver.Service :=
  DomainResolver.mkService "2" "Shop" "shop" "https://shop.example"
    (Some "api.shop.example") "verified".
Definition legacy_request (host : string) : DomainResolver.Request :=
  DomainResolver.mkRequest "/gatekeeper/weather/v1/today" (Some host) None None.
Definition no_locals : DomainResolver.Locals :=
  DomainResolver.mkLocals None None None.

(** An inbound request carrying forwarding headers, the surroundings of one
    call, and an upstream answer that is plain JSON with no seal. *)
Definition inbound : ProxyService.Request :=
  ProxyService.mkRequest "GET"
    (<["Accept" := "application/json"]>
       (<["Host" := "gateway.example"]>
          (<["X-Forwarded-For" := "203.0.113.9"]> ∅)))
    None "/gatekeeper/weather/v1/today?units=si".
Definition ambient : ProxyService.Ambient :=
  ProxyService.mkAmbient "1700000000" (bytes_of wax) 12.
Definition unsealed : ProxyService.Response :=
  ProxyService.mkResponse 200 {[ "content-type" := "application/json" ]} "{}".

End Sample.

(* ===================================================================== *)
(** ** src/lib/openseal-verifier/index.ts: [verify] and [verifyWithCli]    *)
(* ===================================================================== *)

(** The entry point of the verifier and its primary path, which writes the
    envelope to a temporary file and runs the OpenSeal CLI binary on it. *)
Module OpensealCli.
Import OpensealVerifier.

(** What [spawnSync] returns, as far as it is read.  [stdout] is absent
    ([None]) when the process could not be started; [stderr] is a string or
    [null]; [status] is [null] when the process could not be started or a
    signal ended it. *)
Record SpawnResult := mkSpawnResult {
  stdout : option string;
  stderr : option string;
  exit_status : option Z;
}.

(** The disk as node:fs shows it to the verifier: the files by path, and
    the paths on which writing, respectively removal, fails. *)
Record Disk := mkDisk {
  files : gmap string string;
  unwritable : gset string;
  unremovable : gset string;
}.

(** The process and what it runs on. *)
Class Host := {
  (** [process.cwd()] *)
  cwd : string;
  (** [path.join(...segments)] *)
  path_join : list string -> string;
  (** [JSON.stringify(response)] *)
  stringify_response : OpenSealResponse -> string;
  (** [spawnSync(command, args, { encoding: 'utf-8' })]: the child runs on
      the disk and may change it *)
  spawnSync : string -> list string -> Disk -> Exc SpawnResult * Disk;
  (** the error thrown by a failed system call on a path *)
  fs_error : string -> string -> Error;
  (** the [TypeError] thrown on reading a property of an absent value *)
  null_property_error : string -> Error;
}.

(** The line terminators, which [.] does not match: LF, CR, U+2028 and
    U+2029 (the last two in UTF-8). *)
Definition line_terminators : list string :=
  [String "010" ""; String "013" "";
   String "226" (String "128" (String "168" ""));
   String "226" (String "128" (String "169" ""))].

(** The longest prefix of [s] free of line terminators: what a greedy
    group of [.] matches at the start of [s]. *)
Fixpoint up_to_line_end (s : string) : string :=
  match s with
  | EmptyString => EmptyString
  | String c s' =>
      if existsb (fun t => String.prefix t s) line_terminators then EmptyString
      else String c (up_to_line_end s')
  end.

(** What follows the first occurrence of [needle] in [s]. *)
Fixpoint after_first (needle s : string) : option string :=
  match DomainResolver.strip_prefix needle s with
  | Some rest => Some rest
  | None =>
      match s with
      | EmptyString => None
      | String _ s' => after_first needle s'
      end
  end.

(** [output.match(re)] for the pattern "Result: " followed by a greedy
    group of [.]: the capture group of the leftmost match. *)
Definition resultMatch (output : string) : option string :=
  up_to_line_end <$> after_first "Result: " output.

(** [output + error], a string and a string or [null]. *)
Definition concat_null (output : string) (error : option string) : string :=
  output ++ default "null" error.

Section Cli.
Context {host : Host} {noble : Noble} {codec : JSONCodec}.

(** [fs.existsSync(path)] *)
Definition existsSync (path : string) (disk : Disk) : bool :=
  bool_decide (is_Some (files disk !! path)).

(** [fs.writeFileSync(path, data)] *)
Definition writeFileSync (path data : string) (disk : Disk) : Exc unit * Disk :=
  if bool_decide (path ∈ unwritable disk) then (Throw (fs_error "open" path), disk)
  else (Ok tt, mkDisk (<[path := data]> (files disk)) (unwritable disk) (unremovable disk)).

(** [fs.unlinkSync(path)] *)
Definition unlinkSync (path : string) (disk : Disk) : Exc unit * Disk :=
  if bool_decide (path ∈ unremovable disk) || negb (existsSync path disk)
  then (Throw (fs_error "unlink" path), disk)
  else (Ok tt, mkDisk (delete path (files disk)) (unwritable disk) (unremovable disk)).

(** [if (fs.existsSync(tempFilePath)) fs.unlinkSync(tempFilePath);] *)
Definition cleanup (tempFilePath : string) (disk : Disk) : Exc unit * Disk :=
  if existsSync tempFilePath disk then unlinkSync tempFilePath disk else (Ok tt, disk).

(** The [try] block of [verifyWithCli]. *)
Definition verifyWithCli_try (binaryPath : string) (response : OpenSealResponse)
    (wax : string) (expectedRootHash : option string) (tempFilePath : string)
    (disk : Disk) : Exc VerificationResult * Disk :=
  let inputJson := stringify_response response in
  match writeFileSync tempFilePath inputJson disk with
  | (Throw e, disk) => (Throw e, disk)
  | (Ok _, disk) =>
  let args := ["verify"; "--response"; tempFilePath; "--wax"; wax] in
  let args :=
    if JS.truthy_str expectedRootHash
    then (args ++ ["--root-hash"; default "" expectedRootHash])%list
    else args in
  match spawnSync binaryPath args disk with
  | (Throw e, disk) => (Throw e, disk)
  | (Ok result, disk) =>
  let output := stdout result in
  let error := stderr result in
  let success := bool_decide (exit_status result = Some 0%Z) in
  (* Cleanup *)
  match cleanup tempFilePath disk with
  | (Throw e, disk) => (Throw e, disk)
  | (Ok _, disk) =>
  if success then
    (Ok (mkResult true true true "✅ SEAL VALID (CLI Verified)"), disk)
  else
    (* Extract result message from output *)
    match output with
    | None => (Throw (null_property_error "match"), disk)
    | Some output =>
        let message :=
          match resultMatch output with
          | Some captured => captured
          | None =>
              DomainResolver.or_else (concat_null output error) "Verification failed (CLI)"
          end in
        (Ok (mkResult false
               (JS.includes "Signature Valid: ✅" output)
               (JS.includes "Identity Valid:  ✅" output)
               ("CLI Error: " ++ message)),
         disk)
    end
  end
  end
  end.

(** [private static verifyWithCli(binaryPath, response, wax,
    expectedRootHash?)], with [now] for [Date.now()].  An error thrown by
    the cleanup of the [catch] block leaves the function. *)
Definition verifyWithCli (now : Z) (binaryPath : string) (response : OpenSealResponse)
    (wax : string) (expectedRootHash : option string) (disk : Disk)
    : Exc VerificationResult * Disk :=
  let tempFilePath := path_join [cwd; "temp_response_" ++ pretty now ++ ".json"] in
  match verifyWithCli_try binaryPath response wax expectedRootHash tempFilePath disk with
  | (Ok result, disk) => (Ok result, disk)
  | (Throw e, disk) =>
      match cleanup tempFilePath disk with
      | (Throw e', disk) => (Throw e', disk)
      | (Ok _, disk) =>
          (Ok (mkResult false false false ("CLI Spawn Error: " ++ error_message e)), disk)
      end
  end.

(** [static async verify(response, wax, expectedRootHash?)] *)
Definition verify (now : Z) (response : OpenSealResponse) (wax : string)
    (expectedRootHash : option string) (disk : Disk) : Exc VerificationResult * Disk :=
  (* Use CLI Binary if available (The Latest Truth) *)
  let binaryPath := path_join [cwd; "bin"; "openseal"] in
  if existsSync binaryPath disk then
    verifyWithCli now binaryPath response wax expectedRootHash disk
  else
    (outcome (verifyNative response wax expectedRootHash), disk).

End Cli.

End OpensealCli.

(* ===================================================================== *)
(** ** src/routes/services.ts: the handler that updates a service          *)
(* ===================================================================== *)

Module ServiceUpdate.

(** A statement handed to [query]: its text and its parameters, a
    parameter being a value or [undefined]. *)
Record Query := mkQuery {
  sql : string;
  values : list (option JSON);
}.

(** The registry and the identity service behind the handler. *)
Class Backend := {
  (** [query(sql, values)]: the rows returned *)
  query : Query -> Exc (list JSON);
  (** [OpenSealService.registerIdentity(id, userId, repoUrl)] *)
  registerIdentity : string -> string -> JSON -> Exc JSON;
  (** the [TypeError] thrown on using [undefined] or [null] as an object,
      by what was attempted *)
  type_error : string -> Error;
}.

(** What the handler answers: an error with its status and, for some, a
    message; or the updated row. *)
Inductive Reply : Type :=
| Refused (code : Z) (error : string) (message : option string)
| Updated (data : JSON).

(** An object under construction: its own properties in the order of
    their creation, a value being [undefined] at times. *)
Definition Object := list (string * option JSON).

(** The decimal indices below [n], the keys of an array or a string. *)
Definition indices (n : nat) : list string := (λ i : nat, pretty i) <$> seq 0 n.

(** [o.key] on an object under construction, and [o.key = value]. *)
Fixpoint own (key : string) (o : Object) : option JSON :=
  match o with
  | [] => None
  | (k, v) :: rest => if String.eqb k key then v else own key rest
  end.

Fixpoint assign (key : string) (value : option JSON) (o : Object) : Object :=
  match o with
  | [] => [(key, value)]
  | (k, v) :: rest =>
      if String.eqb k key then (k, value) :: rest else (k, v) :: assign key value rest
  end.

Definition allowedKeys : list string :=
  ["name"; "slug"; "upstream_url"; "price_wei"; "access_requirements"; "status";
   "category"; "tags"; "description"; "capabilities"; "trust_seed_enabled";
   "openseal_repo_url"; "custom_domain"].

(** [allowedKeys.includes(k)] *)
Definition allowed (k : string) : bool := existsb (String.eqb k) allowedKeys.

(** [finalKeys.map((key, index) => `${key} = $${index + 3}`)] from [index] on *)
Fixpoint assignments (index : nat) (finalKeys : list string) : list string :=
  match finalKeys with
  | [] => []
  | key :: rest => (key ++ " = $" ++ pretty (index + 3)%nat) :: assignments (S index) rest
  end.

(** The text of the statement, line by line as in the template. *)
Definition update_sql (setClause : string) : string :=
  let nl := String "010" "" in
  let indent := "            " in
  nl ++ indent ++ "UPDATE services " ++ nl
     ++ indent ++ "SET " ++ setClause ++ nl
     ++ indent ++ "WHERE id = $1 AND provider_id = $2" ++ nl
     ++ indent ++ "RETURNING *" ++ nl
     ++ "        ".

Section Handler.
Context {backend : Backend}.

(** [Object.keys(v)].  The fields of a parsed object are held in the order
    in which its keys are enumerated, each key once. *)
Definition Object_keys (v : JSON) : Exc (list string) :=
  match v with
  | JNull => Throw (type_error "Object.keys of null")
  | JBool _ | JNum _ => Ok []
  | JStr s => Ok (indices (JS.length s))
  | JArr xs => Ok (indices (List.length xs))
  | JObj fields => Ok (fst <$> fields)
  end.

(** [osResult.service.openseal_root_hash] *)
Definition service_root_hash (osResult : JSON) : Exc (option JSON) :=
  match osResult with
  | JNull => Throw (type_error "service of null")
  | _ =>
      match JS.get "service" osResult with
      | None => Throw (type_error "openseal_root_hash of undefined")
      | Some JNull => Throw (type_error "openseal_root_hash of null")
      | Some service => Ok (JS.get "openseal_root_hash" service)
      end
  end.

(** The handler past its two first checks, inside the outer [try]. *)
Definition patch_try (id userId : string) (updates : JSON) (keys : list string)
    : list Query * Reply :=
  (* SECURITY FIX (V-12): Strict key filtering for dynamic UPDATE *)
  let sanitizedUpdates : Object :=
    omap (λ k, if allowed k then Some (k, JS.get k updates) else None) keys in
  if (List.length sanitizedUpdates =? 0)%nat then
    ([], Refused 400 "No valid updates provided" None)
  else
  (* OpenSeal Identity Update Logic *)
  let reverified : Exc Object :=
    if JS.truthy_opt (own "openseal_repo_url" sanitizedUpdates) then
      match
        registerIdentity id userId (default JNull (own "openseal_repo_url" sanitizedUpdates))
      with
      | Throw osErr => Throw osErr
      | Ok osResult =>
          match service_root_hash osResult with
          | Throw osErr => Throw osErr
          | Ok rootHash => Ok (assign "openseal_root_hash" rootHash sanitizedUpdates)
          end
      end
    else Ok sanitizedUpdates in
  match reverified with
  | Throw osErr =>
      ([], Refused 400 "OpenSeal Verification Failed" (Some (error_message osErr)))
  | Ok sanitizedUpdates =>
  (* [STANDARD HYBRID SYNC] Update min_grade column if access_requirements changes *)
  let sanitizedUpdates :=
    if JS.truthy_opt (own "access_requirements" sanitizedUpdates) then
      let reqs := own "access_requirements" sanitizedUpdates in
      match reqs ≫= JS.get "min_grade" with
      | Some (JStr min_grade) => assign "min_grade" (Some (JStr min_grade)) sanitizedUpdates
      | _ => sanitizedUpdates
      end
    else sanitizedUpdates in
  let finalKeys := fst <$> sanitizedUpdates in
  if (List.length finalKeys =? 0)%nat then
    ([], Refused 400 "No valid updates provided" None)
  else
  let setClause := String.concat ", " (assignments 0 finalKeys) in
  let sql := update_sql setClause in
  let values := Some (JStr id) :: Some (JStr userId) :: (snd <$> sanitizedUpdates) in
  let statement := mkQuery sql values in
  match query statement with
  | Throw _ => ([statement], Refused 500 "Database error during update" None)
  | Ok rows =>
      match rows with
      | [] => ([statement], Refused 404 "Service not found or unauthorized" None)
      | data :: _ => ([statement], Updated data)
      end
  end
  end.

(** [router.patch('/:id', ...)]: the statements it hands to [query] and
    its reply.  [id] is the route parameter, [userId] the id of the user
    object that authentication left in [res.locals], [updates] the request
    body. *)
Definition patch (id : string) (userId : option string) (updates : JSON)
    : list Query * Reply :=
  if negb (JS.truthy_str userId) then ([], Refused 401 "Unauthorized" None) else
  match Object_keys updates with
  | Throw _ => ([], Refused 500 "Failed to update service" None)
  | Ok keys =>
      if (List.length keys =? 0)%nat then ([], Refused 400 "No updates provided" None)
      else patch_try id (default "" userId) updates keys
  end.

End Handler.

End ServiceUpdate.

(* ===================================================================== *)
(** ** Further stand-ins and sample inputs                                 *)
(* ===================================================================== *)

(** Stand-ins of a second kind: a JSON codec that knows a given set of
    documents, and an upstream whose verifier is a given function. *)
Module Fixture.

(** JSON text of a value whose strings need no escaping and that holds no
    number. *)
Definition quote (s : string) : string := String "034" (s ++ String "034" "").

Fixpoint print (v : JSON) : string :=
  match v with
  | JNull => "null"
  | JBool true => "true"
  | JBool false => "false"
  | JNum _ => "0"
  | JStr s => quote s
  | JArr xs =>
      "[" ++ (fix items (xs : list JSON) : string :=
                match xs with
                | [] => ""
                | [x] => print x
                | x :: rest => print x ++ "," ++ items rest
                end) xs ++ "]"
  | JObj fields =>
      "{" ++ (fix members (fields : list (string * JSON)) : string :=
                match fields with
                | [] => ""
                | [(k, x)] => quote k ++ ":" ++ print x
                | (k, x) :: rest => quote k ++ ":" ++ print x ++ "," ++ members rest
                end) fields ++ "}"
  end.

(** Parses exactly the documents of [docs], given with their texts. *)
Fixpoint lookup_document (docs : list (string * JSON)) (text : string) : Exc JSON :=
  match docs with
  | [] => Throw (mkError "Unexpected token")
  | (t, v) :: rest => if String.eqb t text then Ok v else lookup_document rest text
  end.

Definition codec (docs : list JSON) : JSONCodec := {|
  JSON_stringify := print;
  JSON_parse := lookup_document (List.map (fun v => (print v, v)) docs);
|}.

(** An upstream that answers every call with [response]; [verifier] stands
    for [OpensealVerifier.verify]. *)
Definition platform (response : ProxyService.Response)
    (verifier : JSON -> string -> string -> Exc OpensealVerifier.VerificationResult)
    : ProxyService.Platform := {|
  ProxyService.createHmac_sha256_hex secret payload :=
    Standin.bytesToHex (Standin.digest32 (JS.encode (secret ++ payload)));
  ProxyService.fetch _ _ := Ok response;
  ProxyService.OpensealVerifier_verify := verifier;
|}.

(** A verifier that accepts an envelope whose [openseal.a_hash] is the text
    [expected], and turns every other one down. *)
Definition verifier (expected : string) (envelope : JSON) (wax root : string)
    : Exc OpensealVerifier.VerificationResult :=
  match JS.get "openseal" envelope ≫= JS.get "a_hash" with
  | Some (JStr a) =>
      if String.eqb a expected
      then Ok (OpensealVerifier.mkResult true true true "SEAL VALID")
      else Ok (OpensealVerifier.mkResult false true false "Identity Mismatch")
  | _ => Ok (OpensealVerifier.mkResult false false false "Incomplete openseal metadata")
  end.

(** A sealed answer in body-wrapper form, the same seal as a header value,
    and the texts that carry them. *)
Definition seal_json : JSON :=
  JObj [("signature", JStr "5e41"); ("pub_key", JStr Sample.pub_key);
        ("a_hash", JStr Sample.a_hash); ("b_hash", JStr Sample.b_hash)].
Definition wrapper_json : JSON :=
  JObj [("result", JStr "42"); ("openseal", seal_json)].
Definition plain_json : JSON := JObj [("temperature", JStr "21")].

Definition documents : list JSON := [wrapper_json; seal_json; plain_json].

Definition wrapped : ProxyService.Response :=
  ProxyService.mkResponse 200 {[ "content-type" := "application/json" ]} (print wrapper_json).
Definition header_sealed : ProxyService.Response :=
  ProxyService.mkResponse 200
    (<[ "x-openseal-seal" := print seal_json ]> {[ "content-type" := "application/json" ]})
    (print plain_json).
Definition badly_sealed : ProxyService.Response :=
  ProxyService.mkResponse 200
    (<[ "x-openseal-seal" := "not json" ]> {[ "content-type" := "application/json" ]})
    (print plain_json).
Definition plain_text : ProxyService.Response :=
  ProxyService.mkResponse 502 ∅ "Bad Gateway".


(** The sample provider: its answers parse with [json] and are verified
    against the blinded identity of [Sample.root]. *)
Definition json : JSONCodec := codec documents.
Definition upstream (response : ProxyService.Response) : ProxyService.Platform :=
  platform response (verifier Sample.a_hash).

(** An installation whose verifier cannot run. *)
Definition broken (response : ProxyService.Response) : ProxyService.Platform :=
  platform response (fun _ _ _ => Throw (mkError "spawnSync openseal EACCES")).


(** A registry that answers, holding the two sample services and a
    verified service that took the slug www; requests by host and path. *)
Definition web : DomainResolver.Service :=
  DomainResolver.mkService "3" "Web" "www" "https://www.example" None "verified".
Definition registry : DomainResolver.Database :=
  DomainResolver.mkDatabase true [Sample.weather "verified"; Sample.shop; web].
Definition request_to (host path : string) : DomainResolver.Request :=
  DomainResolver.mkRequest path (Some host) None None.


(** The network of [Standin.network] with a provider that answers as
    [answer] says. *)
Definition network
    (answer : ServicesRoutes.FetchCall -> Exc ServicesRoutes.FetchResponse)
    : ServicesRoutes.Network := {|
  ServicesRoutes.URL_parse := @ServicesRoutes.URL_parse Standin.network;
  ServicesRoutes.URL_resolve := @ServicesRoutes.URL_resolve Standin.network;
  ServicesRoutes.isSafeUrlSyntax := @ServicesRoutes.isSafeUrlSyntax Standin.network;
  ServicesRoutes.isBlockedIP := @ServicesRoutes.isBlockedIP Standin.network;
  ServicesRoutes.dns_resolve4 := @ServicesRoutes.dns_resolve4 Standin.network;
  ServicesRoutes.net_isIP := @ServicesRoutes.net_isIP Standin.network;
  ServicesRoutes.fetch := answer;
|}.

(** A provider without an identity endpoint, whose root answers with a
    sealed body and which serves its verification file. *)
Definition token : string := "x402-7f3a".
Definition serving (call : ServicesRoutes.FetchCall) : Exc ServicesRoutes.FetchResponse :=
  let path := ServicesRoutes.pathname (ServicesRoutes.target call) in
  if String.eqb path "/.openseal/identity" then
    Ok (ServicesRoutes.mkFetchResponse 404 {[ "content-type" := "text/plain" ]} "Not Found" 7)
  else if String.eqb path "/.well-known/x402-verify.txt" then
    Ok (ServicesRoutes.mkFetchResponse 200 {[ "content-type" := "text/plain" ]}
          ("highstation-verification=" ++ token) 9)
  else
    Ok (ServicesRoutes.mkFetchResponse 200 {[ "content-type" := "application/json" ]}
          (print wrapper_json) 19).

(** A provider that answers 404 on the identity endpoint and is otherwise
    out of reach. *)
Definition failing (call : ServicesRoutes.FetchCall) : Exc ServicesRoutes.FetchResponse :=
  if String.eqb (ServicesRoutes.pathname (ServicesRoutes.target call)) "/.openseal/identity"
  then
    Ok (ServicesRoutes.mkFetchResponse 404 {[ "content-type" := "text/plain" ]} "Not Found" 7)
  else Throw (mkError "fetch failed").

Definition weather_row : ServicesRoutes.ServiceRow :=
  ServicesRoutes.mkServiceRow "http://example.com/" (Some token).


(** A host for the CLI verifier: the gateway installed under
    /srv/highstation, with [spawn] for what running a binary does. *)
Definition nl : string := String "010" "".

Definition host
    (spawn : string -> list string -> OpensealCli.Disk
             -> Exc OpensealCli.SpawnResult * OpensealCli.Disk)
    : OpensealCli.Host := {|
  OpensealCli.cwd := "/srv/highstation";
  OpensealCli.path_join := String.concat "/";
  OpensealCli.stringify_response response :=
    print (JObj (match OpensealVerifier.result response with
                 | Some v => [("result", v)]
                 | None => []
                 end
                 ++ match OpensealVerifier.openseal response
                          ≫= OpensealVerifier.a_hash with
                    | Some a => [("openseal", JObj [("a_hash", JStr a)])]
                    | None => []
                    end)%list);
  OpensealCli.spawnSync := spawn;
  OpensealCli.fs_error syscall path :=
    mkError ("EACCES: permission denied, " ++ syscall ++ " '" ++ path ++ "'");
  OpensealCli.null_property_error property :=
    mkError ("Cannot read properties of undefined (reading '" ++ property ++ "')");
|}.

(** A binary that reads the file named after --response and accepts it
    when it holds the blinded identity [expected]. *)
Definition cli (expected : string) (command : string) (args : list string)
    (disk : OpensealCli.Disk) : Exc OpensealCli.SpawnResult * OpensealCli.Disk :=
  match args !! 2%nat ≫= (fun path => OpensealCli.files disk !! path) with
  | Some text =>
      if JS.includes expected text then
        (Ok (OpensealCli.mkSpawnResult
               (Some ("Signature Valid: ✅" ++ nl ++ "Identity Valid:  ✅" ++ nl
                      ++ "Result: SEAL VALID" ++ nl))
               (Some "") (Some 0%Z)), disk)
      else
        (Ok (OpensealCli.mkSpawnResult
               (Some ("Signature Valid: ✅" ++ nl ++ "Identity Valid:  ❌" ++ nl
                      ++ "Result: Identity Mismatch" ++ nl))
               (Some "") (Some 1%Z)), disk)
  | None =>
      (Ok (OpensealCli.mkSpawnResult (Some "") (Some "cannot read the response file")
             (Some 2%Z)), disk)
  end.

(** A file in place of the binary that cannot be executed. *)
Definition not_executable (command : string) (args : list string)
    (disk : OpensealCli.Disk) : Exc OpensealCli.SpawnResult * OpensealCli.Disk :=
  (Ok (OpensealCli.mkSpawnResult None None None), disk).

(** Disks with the binary installed: one where files come and go, one where
    the working directory lets files be created but not removed, and one
    where it takes no file. *)
Definition temp : string := "/srv/highstation/temp_response_1700000000000.json".
Definition installed : OpensealCli.Disk :=
  OpensealCli.mkDisk {[ "/srv/highstation/bin/openseal" := "ELF" ]} ∅ ∅.
Definition sticky : OpensealCli.Disk :=
  OpensealCli.mkDisk {[ "/srv/highstation/bin/openseal" := "ELF" ]} ∅ {[ temp ]}.
Definition full : OpensealCli.Disk :=
  OpensealCli.mkDisk {[ "/srv/highstation/bin/openseal" := "ELF" ]} {[ temp ]} ∅.


(** A backend whose registry returns the updated row, with [identity] for
    the identity service; a service that knows the repository and one that
    does not; and a body that names allowed and other keys. *)
Definition backend (identity : string -> string -> JSON -> Exc JSON)
    : ServiceUpdate.Backend := {|
  ServiceUpdate.query statement := Ok [JObj [("id", JStr "svc-1")]];
  ServiceUpdate.registerIdentity := identity;
  ServiceUpdate.type_error text := mkError text;
|}.

Definition identity_known (id userId : string) (url : JSON) : Exc JSON :=
  Ok (JObj [("service", JObj [("openseal_root_hash", JStr Sample.root)])]).
Definition identity_unknown (id userId : string) (url : JSON) : Exc JSON :=
  Throw (mkError "Manifest not found").

Definition update_body : JSON :=
  JObj [("name", JStr "Weather v2");
        ("provider_id", JStr "someone-else");
        ("openseal_root_hash", JStr "f00d");
        ("openseal_repo_url", JStr "https://github.com/acme/weather");
        ("access_requirements", JObj [("min_grade", JStr "B")])].

Definition update_statement : ServiceUpdate.Query :=
  ServiceUpdate.mkQuery
    (ServiceUpdate.update_sql
       ("name = $3, openseal_repo_url = $4, access_requirements = $5, "
        ++ "openseal_root_hash = $6, min_grade = $7"))
    [Some (JStr "svc-1"); Some (JStr "user-1");
     Some (JStr "Weather v2");
     Some (JStr "https://github.com/acme/weather");
     Some (JObj [("min_grade", JStr "B")]);
     Some (JStr Sample.root);
     Some (JStr "B")].

End Fixture.

(* ===================================================================== *)
(** * Properties                                                           *)
(* ===================================================================== *)

(** ** Strings *)

Lemma encode_app (s t : string) :
  JS.encode (s ++ t) = (JS.encode s ++ JS.encode t)%list.
Proof.
  unfold JS.encode, list_byte_of_string.
  induction s as [|c s IH]; simpl; [reflexivity|].
  f_equal. exact IH.
Qed.

Lemma truthy_str_nonempty (s : string) : s <> "" -> JS.truthy_str (Some s) = true.
Proof.
  intros Hs. simpl. destruct (String.eqb_spec s ""); [contradiction | reflexivity].
Qed.

(** ** The OpenSeal verifier *)

Section VerifierProperties.
Import OpensealVerifier.
Context {noble : Noble} {codec : JSONCodec}.

Lemma resultStr_serialize (r : JSON) :
  match Some r with
  | Some (JStr s) => s
  | Some v => JSON_stringify v
  | None => ""
  end = Spec.serialize r.
Proof. destruct r; reflexivity. Qed.

Lemma payload_bytes (wax a b : string) (r : JSON) :
  JS.encode (wax ++ a ++ b ++ Spec.resultHashHex r) = Spec.signedPayload wax a b r.
Proof. unfold Spec.signedPayload. rewrite !encode_app. reflexivity. Qed.

Lemma computeAHash_ok (rootHashHex wax : string) (rootHashBytes : list byte) :
  hexToBytes rootHashHex = Ok rootHashBytes ->
  computeAHash rootHashHex wax =
    ([Blake3Call (JS.encode "OPENSEAL_BLINDED_IDENTITY" ++ rootHashBytes ++ JS.encode wax)%list],
     Ok (Spec.computeBlindedHash rootHashBytes wax)).
Proof.
  intros Hhex. unfold computeAHash. rewrite Hhex. cbn. reflexivity.
Qed.

Lemma computeAHash_throws (rootHashHex wax : string) (e : Error) :
  hexToBytes rootHashHex = Throw e -> computeAHash rootHashHex wax = ([], Throw e).
Proof. intros Hhex. unfold computeAHash. rewrite Hhex. reflexivity. Qed.

Ltac step :=
  cbn [Eff.bind Eff.lift Eff.ret Eff.try_catch Eff.outcome Eff.trace fst snd
       negb orb andb default from_option id mbind option_bind
       JS.truthy_obj JS.truthy_opt signature pub_key a_hash b_hash
       result openseal call_blake3 call_verifyAsync app].

(** The state of [verifyNative] once both guards are passed and the digest
    of the result is taken: what remains is the signature check and the
    identity check. *)
Lemma verifyNative_past_guards (wax : string) (expectedRootHash : option string)
    (r : JSON) (sig pk a b : string) :
  JS.truthy r = true -> sig <> "" -> pk <> "" -> a <> "" -> b <> "" ->
  verifyNative
    (mkResponse (Some r) (Some (mkOpenSeal (Some sig) (Some pk) (Some a) (Some b))))
    wax expectedRootHash
  = Eff.try_catch
      (Eff.bind (call_blake3 (JS.encode (Spec.serialize r))) (fun _ =>
       Eff.bind (Eff.lift (hexToBytes sig)) (fun signatureBytes =>
       Eff.bind (Eff.lift (hexToBytes pk)) (fun pubKeyBytes =>
       Eff.bind (call_verifyAsync signatureBytes (Spec.signedPayload wax a b r) pubKeyBytes)
         (fun isValidSignature =>
       if negb isValidSignature then
         Eff.ret (mkResult false false false "Signature verification failed")
       else
         Eff.bind
           (if JS.truthy_str expectedRootHash then
              Eff.bind (computeAHash (default "" expectedRootHash) wax)
                (fun calculatedAHash => Eff.ret (String.eqb calculatedAHash a))
            else Eff.ret true)
           (fun isIdentityValid =>
            if JS.truthy_str expectedRootHash && negb isIdentityValid then
              Eff.ret (mkResult false true false
                "Identity Mismatch: Code execution identity does not match expected root hash (Native).")
            else Eff.ret (mkResult true true true "✅ SEAL VALID (Native)")))))))
      (fun e => Eff.ret (mkResult false false false
                  ("Native Verification Error: " ++ error_message e))).
Proof.
  intros Htr Hsig Hpk Ha Hb.
  unfold verifyNative, verifyNative_try. step. rewrite Htr.
  rewrite !truthy_str_nonempty by assumption. step.
  rewrite resultStr_serialize.
  change (bytesToHex (blake3 (JS.encode (Spec.serialize r)))) with (Spec.resultHashHex r).
  rewrite payload_bytes. reflexivity.
Qed.


(** The guard [!result] takes a result that is there but falsy ([false],
    [0], [NaN], [null] or the empty string) for a missing one: the envelope is
    turned away before anything is computed, whatever its seal is. *)
Lemma verifyNative_falsy_result
    (r : JSON) (seal : option OpenSeal) (wax : string) (expectedRootHash : option string) :
  JS.truthy r = false ->
  verifyNative (mkResponse (Some r) seal) wax expectedRootHash
  = ([], Ok (mkResult false false false "Missing openseal or result fields")).
Proof.
  intros Hfalsy. unfold verifyNative, verifyNative_try. step.
  rewrite Hfalsy. destruct seal; reflexivity.
Qed.

(** C1, on the code.  Take an envelope that contains a result and four
    non-empty [openseal] fields, whose signature decodes and verifies under
    [pub_key] over the byte concatenation
    nonce || a_hash || b_hash || hex(BLAKE3(serialize(result))), and whose
    [a_hash] is the blinded hash recomputed from [expectedRootHash] and the
    nonce.  [verifyNative] returns valid = signatureVerified =
    identityVerified = true when the result is truthy.  When the result is
    there but falsy, it returns all three false with the message "Missing
    openseal or result fields", having computed nothing. *)
Theorem verifyNative_valid_seal
    (response : OpenSealResponse) (wax root : string) (r : JSON)
    (sig pk a b : string) (sigB pkB rootB : list byte) :
  result response = Some r ->
  openseal response = Some (mkOpenSeal (Some sig) (Some pk) (Some a) (Some b)) ->
  sig <> "" -> pk <> "" -> a <> "" -> b <> "" ->
  hexToBytes sig = Ok sigB -> hexToBytes pk = Ok pkB ->
  ed_verifyAsync sigB (Spec.signedPayload wax a b r) pkB = Ok true ->
  hexToBytes root = Ok rootB ->
  a = Spec.computeBlindedHash rootB wax ->
  (JS.truthy r = true ->
   outcome (verifyNative response wax (Some root))
   = Ok (mkResult true true true "✅ SEAL VALID (Native)"))
  /\ (JS.truthy r = false ->
      verifyNative response wax (Some root)
      = ([], Ok (mkResult false false false "Missing openseal or result fields"))).
Proof.
  intros Hres Hos Hsig Hpk Ha Hb Hsd Hpd Hver Hroot Hid.
  destruct response as [res os]; cbn in Hres, Hos; subst res os.
  split; [intros Htr | apply verifyNative_falsy_result].
  rewrite verifyNative_past_guards by assumption.
  rewrite Hsd, Hpd. step. rewrite Hver. step.
  destruct (JS.truthy_str (Some root)) eqn:Hr.
  - rewrite (computeAHash_ok _ _ _ Hroot). step.
    rewrite Hid, String.eqb_refl. reflexivity.
  - reflexivity.
Qed.

(** C2, on the code.  Take an envelope that contains a result and four
    non-empty [openseal] fields, whose signature verifies but whose [a_hash]
    differs from the blinded hash recomputed from a non-empty, hex-decodable
    [expectedRootHash].  [verifyNative] returns signatureVerified = true,
    identityVerified = false, valid = false with the "Identity Mismatch"
    message when the result is truthy.  When the result is there but falsy,
    it returns signatureVerified = false with the message "Missing openseal
    or result fields", the signature never having been looked at. *)
Theorem verifyNative_identity_mismatch
    (response : OpenSealResponse) (wax root : string) (r : JSON)
    (sig pk a b : string) (sigB pkB rootB : list byte) :
  result response = Some r ->
  openseal response = Some (mkOpenSeal (Some sig) (Some pk) (Some a) (Some b)) ->
  sig <> "" -> pk <> "" -> a <> "" -> b <> "" ->
  hexToBytes sig = Ok sigB -> hexToBytes pk = Ok pkB ->
  ed_verifyAsync sigB (Spec.signedPayload wax a b r) pkB = Ok true ->
  root <> "" -> hexToBytes root = Ok rootB ->
  a <> Spec.computeBlindedHash rootB wax ->
  (JS.truthy r = true ->
   exists msg,
     outcome (verifyNative response wax (Some root)) = Ok (mkResult false true false msg)
     /\ JS.startsWith "Identity Mismatch" msg = true)
  /\ (JS.truthy r = false ->
      verifyNative response wax (Some root)
      = ([], Ok (mkResult false false false "Missing openseal or result fields"))).
Proof.
  intros Hres Hos Hsig Hpk Ha Hb Hsd Hpd Hver Hr Hroot Hid.
  destruct response as [res os]; cbn in Hres, Hos; subst res os.
  split; [intros Htr | apply verifyNative_falsy_result].
  rewrite verifyNative_past_guards by assumption.
  rewrite Hsd, Hpd. step. rewrite Hver. step.
  rewrite (truthy_str_nonempty root Hr).
  rewrite (computeAHash_ok _ _ _ Hroot). step.
  destruct (String.eqb_spec (Spec.computeBlindedHash rootB wax) a) as [Heq | _].
  - exfalso. apply Hid. symmetry. exact Heq.
  - step. eexists. split; reflexivity.
Qed.

(** C6.  [computeAHash] is a function of its two arguments alone: on a root
    hash that decodes as hex, every evaluation yields
    hex(BLAKE3("OPENSEAL_BLINDED_IDENTITY" || root bytes || UTF-8 bytes of the
    nonce)), taking that one digest and nothing else. *)
Theorem computeAHash_deterministic
    (rootHashHex wax : string) (rootHashBytes : list byte) :
  hexToBytes rootHashHex = Ok rootHashBytes ->
  outcome (computeAHash rootHashHex wax)
    = Ok (Spec.computeBlindedHash rootHashBytes wax)
  /\ trace (computeAHash rootHashHex wax)
    = [Blake3Call (JS.encode "OPENSEAL_BLINDED_IDENTITY" ++ rootHashBytes ++ JS.encode wax)%list]
  /\ forall out1 out2 : string,
       outcome (computeAHash rootHashHex wax) = Ok out1 ->
       outcome (computeAHash rootHashHex wax) = Ok out2 ->
       out1 = out2.
Proof.
  intros Hhex. rewrite (computeAHash_ok _ _ _ Hhex).
  split; [reflexivity | split; [reflexivity |]].
  intros out1 out2 H1 H2. cbn in H1, H2. congruence.
Qed.

(** C7 (as amended).  For every envelope in which [result] is missing, the
    [openseal] object is missing, or one of its four fields is missing,
    [verifyNative] returns valid = signatureVerified = identityVerified =
    false without any hash or signature computation.  The message is "Missing
    openseal or result fields" when [result] or the [openseal] object is
    missing, and "Incomplete openseal metadata" when the envelope has a
    result that passes the first guard and an [openseal] object, so that a
    field is what is missing. *)
Theorem verifyNative_incomplete
    (response : OpenSealResponse) (wax : string) (expectedRootHash : option string) :
  (result response = None
   \/ openseal response = None
   \/ exists o, openseal response = Some o
        /\ (signature o = None \/ pub_key o = None
            \/ a_hash o = None \/ b_hash o = None)) ->
  exists msg,
    verifyNative response wax expectedRootHash
    = ([], Ok (mkResult false false false msg))
    /\ (result response = None \/ openseal response = None ->
        msg = "Missing openseal or result fields")
    /\ (forall r o,
          result response = Some r -> JS.truthy r = true -> openseal response = Some o ->
          msg = "Incomplete openseal metadata").
Proof.
  intros Hmissing.
  unfold verifyNative, verifyNative_try.
  destruct response as [res [o |]]; step.
  - destruct (JS.truthy_opt res) eqn:Hres; step.
    + destruct Hmissing as [Habs | [Habs | (o' & Ho & Hf)]];
        [cbn in Habs; subst res; discriminate | discriminate |].
      cbn in Ho. injection Ho as <-.
      assert (Hg : negb (JS.truthy_str (signature o)) || negb (JS.truthy_str (pub_key o))
                   || negb (JS.truthy_str (a_hash o)) || negb (JS.truthy_str (b_hash o)) = true).
      { destruct Hf as [-> | [-> | [-> | ->]]]; cbn; rewrite ?orb_true_r; reflexivity. }
      rewrite Hg. eexists. split; [reflexivity |]. split.
      * intros [Hnone | Hnone]; cbn in Hnone; [subst res |]; discriminate.
      * reflexivity.
    + eexists. split; [reflexivity |]. split; [reflexivity |].
      intros r o1 Hr Htr _. cbn in Hr. subst res. cbn in Hres. congruence.
  - eexists. split; [reflexivity |]. split; [reflexivity |].
    intros r o1 _ _ Ho. discriminate.
Qed.

(** C10.  [verifyNative] never throws: on every envelope, nonce and expected
    root hash it returns a [VerificationResult]; whatever its [try] block
    throws is returned as valid = signatureVerified = identityVerified = false
    with the message "Native Verification Error: " followed by the error's
    own.  That covers a signature, a public key or an expected root hash that
    is not hex. *)
Theorem verifyNative_total
    (response : OpenSealResponse) (wax : string) (expectedRootHash : option string) :
  let failed (e : Error) :=
    Ok (mkResult false false false ("Native Verification Error: " ++ error_message e)) in
  (exists v, outcome (verifyNative response wax expectedRootHash) = Ok v)
  /\ (forall e, outcome (verifyNative_try response wax expectedRootHash) = Throw e ->
        outcome (verifyNative response wax expectedRootHash) = failed e)
  /\ (forall (r : JSON) (sig pk a b : string),
        response = mkResponse (Some r) (Some (mkOpenSeal (Some sig) (Some pk) (Some a) (Some b))) ->
        JS.truthy r = true -> sig <> "" -> pk <> "" -> a <> "" -> b <> "" ->
        (forall e, hexToBytes sig = Throw e ->
           outcome (verifyNative response wax expectedRootHash) = failed e)
        /\ (forall sigB e, hexToBytes sig = Ok sigB -> hexToBytes pk = Throw e ->
             outcome (verifyNative response wax expectedRootHash) = failed e)
        /\ (forall sigB pkB root e,
             hexToBytes sig = Ok sigB -> hexToBytes pk = Ok pkB ->
             ed_verifyAsync sigB (Spec.signedPayload wax a b r) pkB = Ok true ->
             expectedRootHash = Some root -> root <> "" -> hexToBytes root = Throw e ->
             outcome (verifyNative response wax expectedRootHash) = failed e)).
Proof.
  intros failed. split; [| split].
  - unfold verifyNative.
    destruct (verifyNative_try response wax expectedRootHash) as [t [v | e]]; cbn; eauto.
  - intros e He. unfold verifyNative.
    destruct (verifyNative_try response wax expectedRootHash) as [t [v | e']];
      unfold Eff.outcome in *; cbn in He |- *; [discriminate |].
    injection He as ->. reflexivity.
  - intros r sig pk a b -> Htr Hsig Hpk Ha Hb.
    rewrite verifyNative_past_guards by assumption.
    split; [| split].
    + intros e He. rewrite He. reflexivity.
    + intros sigB e Hs He. rewrite Hs, He. reflexivity.
    + intros sigB pkB root e Hs Hp Hv -> Hr He.
      rewrite Hs, Hp. step. rewrite Hv. step.
      rewrite (truthy_str_nonempty root Hr).
      rewrite (computeAHash_throws _ _ _ He). reflexivity.
Qed.

End VerifierProperties.

(** ** The verifier on the sample runs *)

Section VerifierSamples.
Import OpensealVerifier.
#[local] Existing Instance Standin.noble.
#[local] Existing Instance Standin.codec.

(** Splits a conjunction of closed facts and evaluates each. *)
Ltac evaluate :=
  cbv zeta;
  repeat match goal with |- _ /\ _ => split end;
  try (vm_compute; first [reflexivity | discriminate]).

(** C1, witness: the envelope an honest provider seals for the result
    "42", and the one it seals for the result [false].  Both carry a verifying
    signature and the recomputed blinded hash; the second is turned away. *)
Lemma verifyNative_valid_seal_witness :
  outcome (verifyNative (Sample.sealed (JStr "42")) Sample.wax (Some Sample.root))
    = Ok (mkResult true true true "✅ SEAL VALID (Native)")
  /\ verifyNative (Sample.sealed (JBool false)) Sample.wax (Some Sample.root)
     = ([], Ok (mkResult false false false "Missing openseal or result fields")).
Proof.
  split.
  - apply (proj1 (verifyNative_valid_seal (noble := Standin.noble) (codec := Standin.codec)
             (Sample.sealed (JStr "42")) Sample.wax Sample.root (JStr "42")
             (Sample.signature_for (JStr "42")) Sample.pub_key Sample.a_hash Sample.b_hash
             (Standin.sign (Sample.bytes_of Sample.pub_key)
                (Spec.signedPayload Sample.wax Sample.a_hash Sample.b_hash (JStr "42")))
             (Sample.bytes_of Sample.pub_key) (Sample.bytes_of Sample.root)
             eq_refl eq_refl
             ltac:(vm_compute; discriminate) ltac:(vm_compute; discriminate)
             ltac:(vm_compute; discriminate) ltac:(vm_compute; discriminate)
             ltac:(vm_compute; reflexivity) ltac:(vm_compute; reflexivity)
             ltac:(vm_compute; reflexivity) ltac:(vm_compute; reflexivity)
             ltac:(vm_compute; reflexivity))).
    reflexivity.
  - apply (proj2 (verifyNative_valid_seal (noble := Standin.noble) (codec := Standin.codec)
             (Sample.sealed (JBool false)) Sample.wax Sample.root (JBool false)
             (Sample.signature_for (JBool false)) Sample.pub_key Sample.a_hash
             Sample.b_hash
             (Standin.sign (Sample.bytes_of Sample.pub_key)
                (Spec.signedPayload Sample.wax Sample.a_hash Sample.b_hash (JBool false)))
             (Sample.bytes_of Sample.pub_key) (Sample.bytes_of Sample.root)
             eq_refl eq_refl
             ltac:(vm_compute; discriminate) ltac:(vm_compute; discriminate)
             ltac:(vm_compute; discriminate) ltac:(vm_compute; discriminate)
             ltac:(vm_compute; reflexivity) ltac:(vm_compute; reflexivity)
             ltac:(vm_compute; reflexivity) ltac:(vm_compute; reflexivity)
             ltac:(vm_compute; reflexivity))).
    reflexivity.
Defined.

(** By design, a field that is the empty string counts as missing: the
    honest envelope for "42" with an empty [b_hash], signed as such, is turned
    away as incomplete. *)
Lemma verifyNative_empty_field_example :
  let pkB := Sample.bytes_of Sample.pub_key in
  let response := Sample.sealed_with "" (JStr "42") in
  let payload := Spec.signedPayload Sample.wax Sample.a_hash "" (JStr "42") in
  let sigB := Standin.sign pkB payload in
  openseal response
  = Some (mkOpenSeal (Some (Sample.signature_with "" (JStr "42"))) (Some Sample.pub_key)
            (Some Sample.a_hash) (Some ""))
  /\ hexToBytes (Sample.signature_with "" (JStr "42")) = Ok sigB
  /\ ed_verifyAsync sigB payload pkB = Ok true
  /\ outcome (verifyNative response Sample.wax (Some Sample.root))
     = Ok (mkResult false false false "Incomplete openseal metadata").
Proof.
  evaluate.
Qed.

(** C2, witness: the honest envelopes for "42" and for [false], checked
    against another root hash.  Both carry a verifying signature and an
    [a_hash] that differs from the recomputed one; the second is answered
    signatureVerified = false. *)
Lemma verifyNative_identity_mismatch_witness :
  (exists msg,
     outcome (verifyNative (Sample.sealed (JStr "42")) Sample.wax (Some Sample.other_root))
       = Ok (mkResult false true false msg)
     /\ JS.startsWith "Identity Mismatch" msg = true)
  /\ verifyNative (Sample.sealed (JBool false)) Sample.wax (Some Sample.other_root)
     = ([], Ok (mkResult false false false "Missing openseal or result fields")).
Proof.
  split.
  - apply (proj1 (verifyNative_identity_mismatch
             (noble := Standin.noble) (codec := Standin.codec)
             (Sample.sealed (JStr "42")) Sample.wax Sample.other_root (JStr "42")
             (Sample.signature_for (JStr "42")) Sample.pub_key Sample.a_hash Sample.b_hash
             (Standin.sign (Sample.bytes_of Sample.pub_key)
                (Spec.signedPayload Sample.wax Sample.a_hash Sample.b_hash (JStr "42")))
             (Sample.bytes_of Sample.pub_key) (Sample.bytes_of Sample.other_root)
             eq_refl eq_refl
             ltac:(vm_compute; discriminate) ltac:(vm_compute; discriminate)
             ltac:(vm_compute; discriminate) ltac:(vm_compute; discriminate)
             ltac:(vm_compute; reflexivity) ltac:(vm_compute; reflexivity)
             ltac:(vm_compute; reflexivity) ltac:(vm_compute; discriminate)
             ltac:(vm_compute; reflexivity) ltac:(vm_compute; discriminate))).
    reflexivity.
  - apply (proj2 (verifyNative_identity_mismatch
             (noble := Standin.noble) (codec := Standin.codec)
             (Sample.sealed (JBool false)) Sample.wax Sample.other_root (JBool false)
             (Sample.signature_for (JBool false)) Sample.pub_key Sample.a_hash
             Sample.b_hash
             (Standin.sign (Sample.bytes_of Sample.pub_key)
                (Spec.signedPayload Sample.wax Sample.a_hash Sample.b_hash (JBool false)))
             (Sample.bytes_of Sample.pub_key) (Sample.bytes_of Sample.other_root)
             eq_refl eq_refl
             ltac:(vm_compute; discriminate) ltac:(vm_compute; discriminate)
             ltac:(vm_compute; discriminate) ltac:(vm_compute; discriminate)
             ltac:(vm_compute; reflexivity) ltac:(vm_compute; reflexivity)
             ltac:(vm_compute; reflexivity) ltac:(vm_compute; discriminate)
             ltac:(vm_compute; reflexivity) ltac:(vm_compute; discriminate))).
    reflexivity.
Defined.

(** By design, an expected root hash that is the empty string counts as
    none: the honest envelope for "42" checked against [""] is answered
    valid, the identity check being skipped, although its [a_hash] differs
    from the hash recomputed from the empty root. *)
Lemma verifyNative_empty_root_example :
  hexToBytes "" = Ok []
  /\ Sample.a_hash <> Spec.computeBlindedHash [] Sample.wax
  /\ outcome (verifyNative (Sample.sealed (JStr "42")) Sample.wax (Some ""))
     = Ok (mkResult true true true "✅ SEAL VALID (Native)").
Proof.
  evaluate.
Qed.

(** C6, witness: the sample root hash and challenge. *)
Lemma computeAHash_deterministic_witness :
  outcome (computeAHash Sample.root Sample.wax) = Ok Sample.a_hash.
Proof.
  exact (proj1 (computeAHash_deterministic (noble := Standin.noble)
                  Sample.root Sample.wax (Sample.bytes_of Sample.root)
                  ltac:(vm_compute; reflexivity))).
Defined.

(** C7, witness: the sample envelope without its [result], and the sample
    envelope without its signature. *)
Lemma verifyNative_incomplete_witness :
  verifyNative Sample.without_result Sample.wax (Some Sample.root)
  = ([], Ok (mkResult false false false "Missing openseal or result fields"))
  /\ verifyNative
       (mkResponse (Some (JStr "42"))
          (Some (mkOpenSeal None (Some Sample.pub_key) (Some Sample.a_hash)
                   (Some Sample.b_hash))))
       Sample.wax (Some Sample.root)
     = ([], Ok (mkResult false false false "Incomplete openseal metadata")).
Proof.
  split.
  - destruct (verifyNative_incomplete (noble := Standin.noble) (codec := Standin.codec)
                Sample.without_result Sample.wax (Some Sample.root)
                (or_introl eq_refl)) as (msg & Heq & Hmissing & _).
    rewrite Heq, (Hmissing (or_introl eq_refl)). reflexivity.
  - destruct (verifyNative_incomplete (noble := Standin.noble) (codec := Standin.codec)
                (mkResponse (Some (JStr "42"))
                   (Some (mkOpenSeal None (Some Sample.pub_key) (Some Sample.a_hash)
                            (Some Sample.b_hash))))
                Sample.wax (Some Sample.root)
                (or_intror (or_intror
                   (ex_intro _ _ (conj eq_refl (or_introl eq_refl))))))
      as (msg & Heq & _ & Hfield).
    rewrite Heq, (Hfield _ _ eq_refl eq_refl eq_refl). reflexivity.
Defined.

(** C7, counterexample: the sample envelope without its [result], all four
    [openseal] fields in place.  The message is not "Incomplete openseal
    metadata". *)
Lemma verifyNative_incomplete_counterexample :
  result Sample.without_result = None
  /\ openseal Sample.without_result
     = Some (mkOpenSeal (Some (Sample.signature_for (JStr "42"))) (Some Sample.pub_key)
               (Some Sample.a_hash) (Some Sample.b_hash))
  /\ outcome (verifyNative Sample.without_result Sample.wax (Some Sample.root))
     = Ok (mkResult false false false "Missing openseal or result fields")
  /\ message (mkResult false false false "Missing openseal or result fields")
     <> "Incomplete openseal metadata".
Proof.
  evaluate.
Qed.

End VerifierSamples.

(** ** The domain resolver *)

Section ResolverProperties.
Import DomainResolver.

Lemma includes_slash_cons (c : ascii) (s : string) :
  JS.includes "/" (String c s) = Ascii.eqb c "/" || JS.includes "/" s.
Proof.
  cbn [JS.includes String.prefix].
  destruct (ascii_dec "/" c) as [<- | Hne].
  - destruct s; reflexivity.
  - destruct (Ascii.eqb_spec c "/") as [-> | _]; [contradiction | reflexivity].
Qed.

Lemma append_cons (c : ascii) (s t : string) : String c s ++ t = String c (s ++ t).
Proof. reflexivity. Qed.

Lemma strip_prefix_app (p s : string) : strip_prefix p (p ++ s) = Some s.
Proof.
  induction p as [| c p IH]; [reflexivity |].
  rewrite append_cons. cbn [strip_prefix]. rewrite Ascii.eqb_refl. exact IH.
Qed.

Lemma segment_app (slug rest : string) :
  JS.includes "/" slug = false ->
  rest = "" \/ (exists rest', rest = String "/" rest') ->
  segment (slug ++ rest) = slug /\ after_segment (slug ++ rest) = rest.
Proof.
  intros Hslug Hrest.
  induction slug as [| c slug IH]; [| rewrite append_cons].
  - destruct Hrest as [-> | [rest' ->]]; split; reflexivity.
  - rewrite includes_slash_cons in Hslug.
    apply orb_false_elim in Hslug as [Hc Hslug].
    cbn [segment after_segment]. rewrite Hc.
    destruct (IH Hslug) as [-> ->]. split; reflexivity.
Qed.

Lemma take1_filter_nil {A} (f : A -> bool) (l : list A) :
  (forall x, In x l -> f x = false) -> take 1 (List.filter f l) = [].
Proof.
  induction l as [| x l IH]; intros Hf; [reflexivity |].
  cbn [List.filter]. rewrite (Hf x (or_introl eq_refl)).
  apply IH. intros y Hy. apply Hf. right. exact Hy.
Qed.

Lemma take1_filter_cases {A} (f : A -> bool) (l : list A) :
  (take 1 (List.filter f l) = [] /\ forall x, In x l -> f x = false)
  \/ (exists x, take 1 (List.filter f l) = [x] /\ In x l /\ f x = true).
Proof.
  induction l as [| x l IH]; [left; split; [reflexivity | intros ? []] |].
  cbn [List.filter]. destruct (f x) eqn:Hx.
  - right. exists x. split; [reflexivity | split; [left; reflexivity | exact Hx]].
  - destruct IH as [[Hnil Hall] | (y & Hy & Hin & Hfy)].
    + left. split; [exact Hnil |]. intros z [<- | Hz]; [exact Hx | apply Hall, Hz].
    + right. exists y. split; [exact Hy | split; [right; exact Hin | exact Hfy]].
Qed.

(** C4 (as amended).  For every request whose path is /gatekeeper/<slug>
    followed by nothing or by a sub-path, with <slug> other than "resource"
    and no "/info" in the path, whose Host matched no verified custom domain
    and no verified managed subdomain, and with the registry answering: the
    resolver looks the slug up among the verified services only.  When one is
    found it is selected as a "legacy_path" match and the path to forward is
    what follows /gatekeeper/<slug>, or "/" when nothing follows; when none
    is verified the request passes on unresolved. *)
Theorem domainResolver_legacy_path
    (db : Database) (req : Request) (locals : Locals) (slug_ rest : string) :
  path req = "/gatekeeper/" ++ slug_ ++ rest ->
  slug_ <> "" -> JS.includes "/" slug_ = false ->
  rest = "" \/ (exists rest', rest = String "/" rest') ->
  slug_ <> "resource" -> JS.includes "/info" (path req) = false ->
  reachable db = true ->
  (forall s, In s (rows db) -> status s = "verified" ->
     custom_domain s <> Some (hostname_of req)) ->
  (isHighStationDomain (hostname_of req) = true ->
   forall s, In s (rows db) -> status s = "verified" ->
     slug s <> hd "" (JS.split "." (hostname_of req))) ->
  (exists row, In row (rows db) /\ slug row = slug_ /\ status row = "verified"
     /\ domainResolver db req locals
        = Next (mkLocals (Some row) (Some "legacy_path")
                  (Some (if String.eqb rest "" then "/" else rest))))
  \/ ((forall s, In s (rows db) -> slug s = slug_ -> status s <> "verified")
      /\ domainResolver db req locals = Next locals).
Proof.
  intros Hpath Hne Hseg Hrest Hres Hinfo Hup Hcd Hsub.
  destruct (segment_app slug_ rest Hseg Hrest) as [Hs Ha].
  assert (Hmatch : legacyMatch (path req) = Some slug_).
  { rewrite Hpath. unfold legacyMatch. rewrite strip_prefix_app, Hs. destruct (String.eqb_spec slug_ ""); [contradiction | reflexivity]. }
  assert (Hrepl : or_else (replace_legacy (path req)) "/"
                  = if String.eqb rest "" then "/" else rest).
  { rewrite Hpath. unfold replace_legacy. rewrite strip_prefix_app, Hs, Ha. destruct (String.eqb_spec slug_ ""); [contradiction | reflexivity]. }
  assert (Hinternal : JS.startsWith "/api" (path req) || JS.startsWith "/mcp" (path req)
             || JS.startsWith "/health" (path req) || JS.startsWith "/debug" (path req) = false).
  { rewrite Hpath. reflexivity. }
  unfold domainResolver. rewrite Hinternal. unfold domainResolver_try.
  (* Priority 1 finds nothing *)
  assert (H1 : select_by_custom_domain db (hostname_of req) "verified" = Ok []).
  { unfold select_by_custom_domain, run_query. rewrite Hup. f_equal.
    apply take1_filter_nil. intros s Hin.
    destruct (String.eqb_spec (status s) "verified") as [Hst | _];
      [| apply andb_false_r].
    specialize (Hcd s Hin Hst).
    destruct (custom_domain s) as [d |]; [| reflexivity].
    destruct (String.eqb_spec d (hostname_of req)) as [-> | _]; [congruence | reflexivity]. }
  rewrite H1.
  (* Priority 2 finds nothing *)
  assert (H2 : (if (2 <=? List.length (JS.split "." (hostname_of req)))%nat
                   && isHighStationDomain (hostname_of req)
                   && negb (String.eqb (hd "" (JS.split "." (hostname_of req))) "www")
                then select_by_slug_and_status db (hd "" (JS.split "." (hostname_of req))) "verified"
                else Ok []) = Ok []).
  { destruct (isHighStationDomain (hostname_of req)) eqn:Hhs;
      [| rewrite andb_false_r; reflexivity].
    match goal with |- (if ?c then _ else _) = _ => destruct c end; [| reflexivity].
    unfold select_by_slug_and_status, run_query. rewrite Hup. f_equal.
    apply take1_filter_nil. intros s Hin.
    destruct (String.eqb_spec (status s) "verified") as [Hst | _];
      [| apply andb_false_r].
    specialize (Hsub eq_refl s Hin Hst).
    destruct (String.eqb_spec (slug s) (hd "" (JS.split "." (hostname_of req))));
      [contradiction | reflexivity]. }
  rewrite H2.
  (* Priority 3 *)
  rewrite Hmatch, Hinfo.
  destruct (String.eqb_spec slug_ "resource") as [? | _]; [contradiction |].
  cbn [orb]. unfold select_by_slug_and_status, run_query. rewrite Hup.
  destruct (take1_filter_cases
              (fun s => String.eqb (slug s) slug_ && String.eqb (status s) "verified")
              (rows db)) as [[Hnil Hall] | (row & Hrow & Hin & Hf)].
  - right. rewrite Hnil. split; [| reflexivity].
    intros s Hin Hsl Hst. specialize (Hall s Hin). cbn in Hall.
    rewrite Hsl, Hst, String.eqb_refl in Hall. discriminate.
  - left. exists row. rewrite Hrow. cbn in Hf.
    apply andb_prop in Hf as [Hf1 Hf2].
    apply String.eqb_eq in Hf1, Hf2.
    rewrite Hrepl. repeat split; assumption.
Qed.


(** The later middleware, which reads the slug from the route, looks it up
    whatever its status. *)
Lemma serviceResolver_any_status
    (db : Database) (req : Request) (locals : Locals) (slug_ : string) (row : Service) :
  serviceConfig locals = None ->
  params_serviceSlug req = Some slug_ -> slug_ <> "" ->
  reachable db = true ->
  In row (rows db) -> slug row = slug_ ->
  exists row', In row' (rows db) /\ slug row' = slug_
    /\ serviceResolver db req locals
       = Next (mkLocals (Some row') (Some "param") (strippedPath locals)).
Proof.
  intros Hnone Hparam Hne Hup Hin Hslug.
  unfold serviceResolver. rewrite Hnone, Hparam. cbn [JS.truthy_obj].
  rewrite (truthy_str_nonempty slug_ Hne). cbn [negb default from_option Datatypes.id].
  unfold select_by_slug, run_query. rewrite Hup.
  destruct (take1_filter_cases (fun s => String.eqb (slug s) slug_) (rows db))
    as [[_ Hall] | (row' & Hrow & Hin' & Hf)].
  - specialize (Hall row Hin). cbn in Hall. rewrite Hslug, String.eqb_refl in Hall.
    discriminate.
  - rewrite Hrow, ?(truthy_str_nonempty slug_ Hne). exists row'. apply String.eqb_eq in Hf.
    split; [assumption | split; [assumption | reflexivity]].
Qed.

(** C4, witness: the verified weather service on its legacy path. *)
Lemma domainResolver_legacy_path_witness :
  let db := mkDatabase true [Sample.weather "verified"; Sample.shop] in
  let req := Sample.legacy_request "gateway.example:8080" in
  (exists row, In row (rows db) /\ slug row = "weather" /\ status row = "verified"
     /\ domainResolver db req Sample.no_locals
        = Next (mkLocals (Some row) (Some "legacy_path") (Some "/v1/today")))
  \/ ((forall s, In s (rows db) -> slug s = "weather" -> status s <> "verified")
      /\ domainResolver db req Sample.no_locals = Next Sample.no_locals).
Proof.
  cbv zeta.
  apply (domainResolver_legacy_path
           (mkDatabase true [Sample.weather "verified"; Sample.shop])
           (Sample.legacy_request "gateway.example:8080") Sample.no_locals
           "weather" "/v1/today").
  - reflexivity.
  - discriminate.
  - reflexivity.
  - right. eexists. reflexivity.
  - discriminate.
  - reflexivity.
  - reflexivity.
  - intros s [<- | [<- | []]] _; vm_compute; discriminate.
  - intros Hmanaged. vm_compute in Hmanaged. discriminate.
Defined.

(** C4, counterexample.  (1) A pending service is not found on its legacy
    path: the request passes on with no service selected.  (2) On a Host that
    is a verified custom domain, the legacy path is not looked at: the shop is
    selected and no path is stripped. *)
Lemma domainResolver_legacy_path_counterexample :
  (In (Sample.weather "pending") [Sample.weather "pending"]
   /\ slug (Sample.weather "pending") = "weather"
   /\ domainResolver (mkDatabase true [Sample.weather "pending"])
        (Sample.legacy_request "gateway.example:8080") Sample.no_locals
      = Next (mkLocals None None None))
  /\ domainResolver (mkDatabase true [Sample.weather "verified"; Sample.shop])
       (Sample.legacy_request "api.shop.example") Sample.no_locals
     = Next (mkLocals (Some Sample.shop) (Some "custom_domain") None).
Proof.
  split; [split; [left; reflexivity | split; [reflexivity |]] |];
    vm_compute; reflexivity.
Qed.

End ResolverProperties.

(** ** The proxy forwarder *)

Section ForwarderProperties.
Import ProxyService.
Context {platform : Platform} {codec : JSONCodec}.









Lemma hex_nonempty (bs : list byte) : bs <> [] -> JS.hex bs <> "".
Proof. destruct bs; [congruence | discriminate]. Qed.

Lemma wax_drawn (root : string) (amb : Ambient) :
  root <> "" -> List.length (entropy amb) = 16%nat ->
  JS.truthy_str (Some root) = true
  /\ wax (Some root) amb = Some (JS.hex (entropy amb))
  /\ JS.truthy_str (Some (JS.hex (entropy amb))) = true.
Proof.
  intros Hroot Hlen.
  assert (Hr : JS.truthy_str (Some root) = true).
  { cbn. destruct (String.eqb_spec root ""); [contradiction | reflexivity]. }
  unfold wax. rewrite Hr. repeat split.
  cbn. destruct (String.eqb_spec (JS.hex (entropy amb)) "") as [He | _]; [| reflexivity].
  apply hex_nonempty in He; [contradiction |].
  destruct (entropy amb); [discriminate | congruence].
Qed.

(** Whatever the upstream answers and whatever the verifier does, the
    interpretation of the answer ends with [data] set. *)
Lemma interpret_data (response : Response) (opensealRootHash wax : option string) :
  is_Some (v_data (interpret response opensealRootHash wax)).
Proof.
  assert (Hseal : forall seal result w r v,
             v_data (verifySealHeader seal result w r v) = v_data v).
  { intros. unfold verifySealHeader.
    destruct (JSON_parse seal); [| reflexivity].
    destruct (OpensealVerifier_verify _ _ _); reflexivity. }
  assert (Hcatch : forall v, is_Some (v_data (interpret_catch response opensealRootHash wax v))).
  { intros v. unfold interpret_catch.
    destruct (JS.truthy_str opensealRootHash && JS.truthy_str wax); [| cbn; eauto].
    destruct (JS.truthy_str (headers_get "X-OpenSeal-Seal" response)); [| cbn; eauto].
    rewrite Hseal. cbn. eauto. }
  unfold interpret, interpret_try.
  destruct (JSON_parse (responseText response)) as [parsedBody | e]; [| apply Hcatch].
  destruct (isBodyWrapper parsedBody) eqn:Hw.
  - assert (Hres : is_Some (JS.get "result" parsedBody)).
    { unfold isBodyWrapper in Hw. apply andb_prop in Hw as [_ Hw].
      apply bool_decide_eq_true in Hw. exact Hw. }
    destruct (JS.truthy_str opensealRootHash && JS.truthy_str wax); [| exact Hres].
    destruct (OpensealVerifier_verify _ _ _); [exact Hres | apply Hcatch].
  - destruct (JS.truthy_str opensealRootHash && JS.truthy_str wax); [| cbn; eauto].
    destruct (JS.truthy_str (headers_get "X-OpenSeal-Seal" response)); [| cbn; eauto].
    cbn [fst snd]. rewrite Hseal. cbn. eauto.
Qed.

(** C8.  Once the upstream has answered, [forwardRequest] returns a
    [ProxyResult] that carries [data], whatever the verification came to.  In
    particular, when the body parses as JSON without being the
    {openseal, result} wrapper, a root hash is configured and the answer has
    no X-OpenSeal-Seal header, the result carries the parsed body as [data]
    and openseal = {verified: false, message: "Missing Seal (Header/Body)"}. *)
Theorem forwardRequest_missing_seal
    (req : Request) (upstreamUrl serviceName subPath : string)
    (signingSecret opensealRootHash : option string) (amb : Ambient)
    (response : Response) :
  fetch (targetUrl req upstreamUrl subPath)
    (mkRequestInit (method req)
       (forwardHeaders req serviceName signingSecret opensealRootHash amb)
       (requestBody req)) = Ok response ->
  (exists r,
     forwardRequest req upstreamUrl serviceName subPath signingSecret opensealRootHash amb
       = Ok r
     /\ is_Some (data r) /\ status r = response_status response)
  /\ (forall (root : string) (parsedBody : JSON),
        opensealRootHash = Some root -> root <> "" ->
        List.length (entropy amb) = 16%nat ->
        JSON_parse (responseText response) = Ok parsedBody ->
        isBodyWrapper parsedBody = false ->
        headers_get "X-OpenSeal-Seal" response = None ->
        exists r,
          forwardRequest req upstreamUrl serviceName subPath signingSecret opensealRootHash amb
            = Ok r
          /\ data r = Some parsedBody
          /\ openseal r = Some (mkSealReport false "Missing Seal (Header/Body)")
          /\ JS.startsWith "Missing Seal" "Missing Seal (Header/Body)" = true).
Proof.
  intros Hfetch. unfold forwardRequest. rewrite Hfetch. split.
  - eexists. split; [reflexivity |]. split; [apply interpret_data | reflexivity].
  - intros root parsedBody -> Hroot Hlen Hparse Hwrap Hseal.
    destruct (wax_drawn root amb Hroot Hlen) as (Hr & Hwax & Hw).
    eexists. split; [reflexivity |].
    unfold respond, interpret, interpret_try.
    rewrite Hparse, Hwrap, Hwax, Hr, Hw, Hseal. cbn. repeat split; reflexivity.
Qed.

(** C9: the size reported by [forwardRequest] is the [length] of the body
    text, its number of UTF-16 code units.  On the body "Zürich" that is 6,
    and the body has 7 bytes. *)
Theorem respond_size_is_code_units
    (code : Z) (received : gmap string string) (response : Response)
    (opensealRootHash wax : option string) (amb : Ambient) :
  responseSizeBytes (telemetry (respond response opensealRootHash wax amb))
    = JS.length (responseText response)
  /\ responseSizeBytes
       (telemetry (respond (mkResponse code received "Zürich") opensealRootHash wax amb))
     = 6%nat
  /\ JS.byteLength "Zürich" = 7%nat.
Proof. repeat split. Qed.

(** The other half of C9 holds: provided the verifier returns, the telemetry's
    [integrityCheck] is true exactly when the body parsed as JSON. *)
Lemma respond_integrityCheck (response : Response)
    (opensealRootHash wax : option string) (amb : Ambient) :
  (forall envelope w r, exists v, OpensealVerifier_verify envelope w r = Ok v) ->
  integrityCheck (telemetry (respond response opensealRootHash wax amb)) = true
  <-> exists parsedBody, JSON_parse (responseText response) = Ok parsedBody.
Proof.
  intros Hverify.
  assert (Hseal : forall seal result w r v,
             v_integrityCheck (verifySealHeader seal result w r v) = v_integrityCheck v).
  { intros. unfold verifySealHeader.
    destruct (JSON_parse seal); [| reflexivity].
    destruct (OpensealVerifier_verify _ _ _); reflexivity. }
  unfold respond, interpret, interpret_try. cbn [telemetry integrityCheck].
  destruct (JSON_parse (responseText response)) as [parsedBody | e].
  - split; [eauto | intros _].
    destruct (isBodyWrapper parsedBody).
    + destruct (JS.truthy_str opensealRootHash && JS.truthy_str wax); [| reflexivity].
      destruct (Hverify parsedBody (default "" wax) (default "" opensealRootHash)) as [v ->].
      reflexivity.
    + destruct (JS.truthy_str opensealRootHash && JS.truthy_str wax); [| reflexivity].
      destruct (JS.truthy_str (headers_get "X-OpenSeal-Seal" response)); [| reflexivity].
      cbn [fst snd]. rewrite Hseal. reflexivity.
  - split; [| intros [? ?]; discriminate].
    unfold interpret_catch.
    destruct (JS.truthy_str opensealRootHash && JS.truthy_str wax); [| discriminate].
    destruct (JS.truthy_str (headers_get "X-OpenSeal-Seal" response)); [| discriminate].
    rewrite Hseal. discriminate.
Qed.

End ForwarderProperties.

(** ** The forwarder on the sample request *)

Section ForwarderSamples.
Import ProxyService.
#[local] Existing Instance Standin.codec.


(** C8, witness: the sample upstream answers the sample request with the
    JSON object {} and no seal, for a service with a root hash. *)
Lemma forwardRequest_missing_seal_witness :
  exists r,
    forwardRequest (platform := Standin.platform Sample.unsealed)
      Sample.inbound "https://weather.example/" "weather" "/v1/today"
      None (Some Sample.root) Sample.ambient = Ok r
    /\ data r = Some (JObj [])
    /\ openseal r = Some (mkSealReport false "Missing Seal (Header/Body)")
    /\ JS.startsWith "Missing Seal" "Missing Seal (Header/Body)" = true.
Proof.
  apply (proj2 (forwardRequest_missing_seal (platform := Standin.platform Sample.unsealed)
                  Sample.inbound "https://weather.example/" "weather" "/v1/today"
                  None (Some Sample.root) Sample.ambient Sample.unsealed eq_refl)
           Sample.root (JObj [])).
  - reflexivity.
  - discriminate.
  - vm_compute; reflexivity.
  - reflexivity.
  - reflexivity.
  - vm_compute; reflexivity.
Defined.

End ForwarderSamples.

(** ** The probing routes *)

Section RouteProperties.
Import ServicesRoutes.
Context {network : Network} {codec : JSONCodec}.

Lemma probeRequest_not_pinned (endpoint : string * URL) (resolvedIP hostname : string) :
  ~ pinned_to resolvedIP hostname (probeRequest endpoint).
Proof.
  intros [_ Hhost]. cbn in Hhost.
  destruct Hhost as [Heq | [Heq | []]]; discriminate.
Qed.

Lemma probeLoop_calls (start : Z) (resolvedIP : string)
    (endpoints : list (string * URL)) (lastStatus : Z) (call : FetchCall) :
  In call (fst (fst (probeLoop start resolvedIP endpoints lastStatus))) ->
  exists endpoint, In endpoint endpoints /\ call = probeRequest endpoint.
Proof.
  revert lastStatus. induction endpoints as [| e rest IH]; intros lastStatus; [intros [] |].
  cbn [probeLoop].
  destruct (fetch (probeRequest e)) as [probeRes | err].
  - destruct (ok probeRes).
    + intros [<- | []]. exists e. split; [left |]; reflexivity.
    + destruct (probeLoop start resolvedIP rest (fetch_status probeRes))
        as [[calls found] last] eqn:Hloop.
      intros [<- | Hin]; [exists e; split; [left |]; reflexivity |].
      specialize (IH (fetch_status probeRes)). rewrite Hloop in IH.
      destruct (IH Hin) as (e' & He' & ->). exists e'. split; [right |]; trivial.
  - destruct (probeLoop start resolvedIP rest lastStatus) as [[calls found] last] eqn:Hloop.
    intros [<- | Hin]; [exists e; split; [left |]; reflexivity |].
    specialize (IH lastStatus). rewrite Hloop in IH.
    destruct (IH Hin) as (e' & He' & ->). exists e'. split; [right |]; trivial.
Qed.

Lemma probeLoop_first (start : Z) (resolvedIP : string) (e : string * URL)
    (rest : list (string * URL)) (lastStatus : Z) :
  exists calls, fst (fst (probeLoop start resolvedIP (e :: rest) lastStatus))
                = probeRequest e :: calls.
Proof.
  cbn [probeLoop]. destruct (fetch (probeRequest e)) as [probeRes | err].
  - destruct (ok probeRes); [eexists; reflexivity |].
    destruct (probeLoop start resolvedIP rest (fetch_status probeRes)) as [[calls found] last].
    eexists; reflexivity.
  - destruct (probeLoop start resolvedIP rest lastStatus) as [[calls found] last].
    eexists; reflexivity.
Qed.

(** C3, on the code.  No call that the connection test makes is pinned: each
    is a probe request whose only headers are Accept and User-Agent, so none
    carries a Host header; and the first of them, made whenever the URL passes
    the checks, goes to the URL's own hostname, which the HTTP client resolves
    again. *)
Theorem testConnection_not_pinned (url testPath : option string) (start : Z) :
  (forall call, In call (fst (testConnection url testPath start)) ->
     fetch_headers call
       = [("Accept", "application/json"); ("User-Agent", "highstation-probe/1.0")]
     /\ forall resolvedIP hostname, ~ pinned_to resolvedIP hostname call)
  /\ (forall (u : string) (urlObj : URL) (resolvedIP : string),
        url = Some u -> u <> "" -> isSafeUrlSyntax u = true -> URL_parse u = Ok urlObj ->
        resolve (hostname urlObj) = Some resolvedIP -> isBlockedIP resolvedIP = false ->
        testPath = None ->
        exists call calls,
          fst (testConnection url testPath start) = call :: calls
          /\ hostname (target call) = hostname urlObj
          /\ href call = toString (at_path "/.openseal/identity" urlObj)).
Proof.
  split.
  - intros call Hin.
    assert (Hprobe : exists endpoint, call = probeRequest endpoint).
    { unfold testConnection in Hin.
      repeat match type of Hin with
             | In _ (fst (if ?c then _ else _)) => destruct c; [destruct Hin |]
             | In _ (fst (match ?x with Ok _ => _ | Throw _ => _ end)) =>
                 destruct x; [| destruct Hin]
             | In _ (fst (match ?x with Some _ => _ | None => _ end)) =>
                 destruct x; [| destruct Hin]
             | In _ (fst (let _ := _ in _)) => cbv zeta in Hin
             end.
      match type of Hin with
      | In _ (fst (match probeLoop ?s ?ip ?es ?l with _ => _ end)) =>
          pose proof (probeLoop_calls s ip es l call) as Hloop;
          destruct (probeLoop s ip es l) as [[calls [found |]] last]
      end; destruct (Hloop Hin) as (e & _ & ->); eexists; reflexivity. }
    destruct Hprobe as [endpoint ->]. split; [reflexivity |].
    intros resolvedIP hostname. apply probeRequest_not_pinned.
  - intros u urlObj resolvedIP -> Hu Hsafe Hparse Hres Hblocked ->.
    unfold testConnection.
    assert (Ht : JS.truthy_str (Some u) = true).
    { cbn. destruct (String.eqb_spec u ""); [contradiction | reflexivity]. }
    rewrite Ht. cbn [negb default from_option id]. rewrite Hsafe. cbn [negb].
    rewrite Hparse, Hres, Hblocked. cbn [JS.truthy_str app unique existsb].
    match goal with
    | |- context [probeLoop ?s ?ip (?e :: ?es) ?l] =>
        destruct (probeLoop_first s ip e es l) as [calls Hfirst];
        destruct (probeLoop s ip (e :: es) l) as [[calls' [found |]] last]
    end; cbn in Hfirst; subst calls'; eexists _, _; repeat split.
Qed.

(** The sibling handler does pin: the one call that the ownership check
    makes connects to the resolved address and names the original host. *)
Lemma verify_pinned (userId : option string) (service : option ServiceRow) (call : FetchCall) :
  In call (fst (verify userId service)) ->
  exists row urlObj resolvedIP,
    service = Some row
    /\ URL_parse (service_upstream_url row) = Ok urlObj
    /\ resolve (hostname urlObj) = Some resolvedIP
    /\ isBlockedIP resolvedIP = false
    /\ pinned_to resolvedIP (hostname urlObj) call.
Proof.
  unfold verify. intros Hin.
  destruct (negb (JS.truthy_str userId)); [destruct Hin |].
  destruct service as [row |]; [| destruct Hin].
  destruct (negb (JS.truthy_str (verification_token row))); [destruct Hin |].
  destruct (URL_parse (service_upstream_url row)) as [urlObj | e] eqn:Hparse; [| destruct Hin].
  destruct (resolve (hostname urlObj)) as [resolvedIP |] eqn:Hres; [| destruct Hin].
  destruct (isBlockedIP resolvedIP) eqn:Hblocked; [destruct Hin |].
  exists row, urlObj, resolvedIP. repeat split; try assumption;
    cbv zeta in Hin;
    repeat match type of Hin with
           | In _ (fst (match ?x with _ => _ end)) => destruct x
           | In _ (fst (if ?c then _ else _)) => destruct c
           end;
    destruct Hin as [<- | []]; cbn; auto.
Qed.

End RouteProperties.

Section RouteSamples.
Import ServicesRoutes.
#[local] Existing Instance Standin.network.
#[local] Existing Instance Standin.codec.

(** The connection test of http://example.com/, which resolves to
    93.184.216.34: one call, to the name and with no Host header. *)
Lemma testConnection_example :
  resolve "example.com" = Some "93.184.216.34"
  /\ exists call reply,
       testConnection (Some "http://example.com/") None 0 = ([call], reply)
       /\ href call = "http://example.com/.openseal/identity"
       /\ hostname (target call) = "example.com"
       /\ fetch_headers call
          = [("Accept", "application/json"); ("User-Agent", "highstation-probe/1.0")].
Proof.
  split; [reflexivity |]. eexists _, _. split; [vm_compute; reflexivity |].
  repeat split.
Qed.

End RouteSamples.

(* ===================================================================== *)
(** * Further properties of the code                                       *)
(* ===================================================================== *)

(** ** The proxy forwarder: protocol headers, target URL, interpretation *)

Section ForwarderExtras.
Import ProxyService.
Context {platform : Platform} {codec : JSONCodec}.

Lemma forwardHeaders_protocol_wax (req : Request) (serviceName : string)
    (signingSecret opensealRootHash : option string) (amb : Ambient) :
  JS.truthy_str opensealRootHash = true ->
  forwardHeaders req serviceName signingSecret opensealRootHash amb !! "X-OpenSeal-Wax"
  = Some (JS.hex (entropy amb)).
Proof.
  intros Hroot. unfold forwardHeaders, wax. rewrite Hroot. apply lookup_insert_eq.
Qed.



Lemma includes_char_cons (a c : ascii) (s : string) :
  JS.includes (String a "") (String c s) = Ascii.eqb c a || JS.includes (String a "") s.
Proof.
  cbn [JS.includes String.prefix].
  destruct (ascii_dec a c) as [<- | Hne].
  - rewrite Ascii.eqb_refl. destruct s; reflexivity.
  - destruct (Ascii.eqb_spec c a) as [-> | _]; [contradiction | reflexivity].
Qed.

Lemma split_no_separator (a : ascii) (s : string) :
  JS.includes (String a "") s = false -> JS.split a s = [s].
Proof.
  induction s as [| c s IH]; intros Hs; [reflexivity |].
  rewrite includes_char_cons in Hs. apply orb_false_elim in Hs as [Hc Hs].
  cbn [JS.split]. rewrite Hc, (IH Hs). reflexivity.
Qed.

Lemma split_at_separator (a : ascii) (s t : string) :
  JS.includes (String a "") s = false ->
  JS.split a (s ++ String a t) = s :: JS.split a t.
Proof.
  induction s as [| c s IH]; intros Hs.
  - change ("" ++ String a t) with (String a t). cbn [JS.split].
    rewrite Ascii.eqb_refl. reflexivity.
  - rewrite includes_char_cons in Hs. apply orb_false_elim in Hs as [Hc Hs].
    rewrite append_cons. cbn [JS.split]. rewrite Hc, (IH Hs). reflexivity.
Qed.

Lemma strip_trailing_slash_app (u : string) : JS.strip_trailing_slash (u ++ "/") = u.
Proof.
  induction u as [| c u IH]; [reflexivity |].
  rewrite append_cons. cbn [JS.strip_trailing_slash].
  destruct (u ++ "/") eqn:Hu.
  - destruct u; discriminate.
  - rewrite IH. reflexivity.
Qed.

Lemma strip_trailing_slash_id (u : string) :
  (forall v, u <> v ++ "/") -> JS.strip_trailing_slash u = u.
Proof.
  induction u as [| c u IH]; intros Hu; [reflexivity |].
  cbn [JS.strip_trailing_slash]. destruct u as [| d u'].
  - destruct (Ascii.eqb_spec c "/") as [-> | _]; [| reflexivity].
    exfalso. apply (Hu ""). reflexivity.
  - rewrite IH; [reflexivity |].
    intros v Hv. apply (Hu (String c v)). rewrite append_cons, Hv. reflexivity.
Qed.

Lemma startsWith_slash_cons (c : ascii) (s : string) :
  JS.startsWith "/" (String c s) = Ascii.eqb c "/".
Proof.
  unfold JS.startsWith. cbn [String.prefix].
  destruct (ascii_dec "/" c) as [<- | Hne]; [destruct s; reflexivity |].
  destruct (Ascii.eqb_spec c "/") as [-> | _]; [contradiction | reflexivity].
Qed.

Lemma relativePath_plain (p t : string) :
  JS.startsWith "/" p = false -> JS.startsWith "/" t = false ->
  (if JS.startsWith "/" (p ++ t) then p ++ t else "/" ++ p ++ t) = "/" ++ p ++ t.
Proof.
  intros Hp Ht. destruct p as [| c p'].
  - change ("" ++ t) with t. rewrite Ht. reflexivity.
  - rewrite append_cons, startsWith_slash_cons.
    rewrite startsWith_slash_cons in Hp. rewrite Hp. reflexivity.
Qed.

Lemma append_nil_r (x : string) : x ++ "" = x.
Proof. induction x as [| c x IH]; [reflexivity | rewrite append_cons, IH; reflexivity]. Qed.

(** The target for a base whose stripped form is [u] and a sub-path that
    normalises to /[p]. *)
Lemma targetUrl_join (req : Request) (base sub u p : string) :
  JS.strip_trailing_slash base = u ->
  (forall t, JS.startsWith "/" t = false ->
     (if JS.startsWith "/" (sub ++ t) then sub ++ t else "/" ++ sub ++ t) = "/" ++ p ++ t) ->
  targetUrl req base sub
  = u ++ "/" ++ p
      ++ match JS.split "?" (originalUrl req) !! 1%nat with
         | Some q => if String.eqb q "" then "" else "?" ++ q
         | None => ""
         end.
Proof.
  intros Hbase Hsub. unfold targetUrl. rewrite Hbase.
  destruct (JS.split "?" (originalUrl req) !! 1%nat) as [q |]; cbn [JS.truthy_str].
  - destruct (String.eqb_spec q "") as [-> | Hq]; cbn [negb].
    + specialize (Hsub "" eq_refl). rewrite !append_nil_r in Hsub.
      rewrite Hsub, append_nil_r. reflexivity.
    + rewrite (Hsub ("?" ++ q) eq_refl). reflexivity.
  - specialize (Hsub "" eq_refl). rewrite !append_nil_r in Hsub.
    rewrite Hsub, append_nil_r. reflexivity.
Qed.

Lemma relativePath_slash (p t : string) :
  (if JS.startsWith "/" (("/" ++ p) ++ t) then ("/" ++ p) ++ t
   else "/" ++ ("/" ++ p) ++ t) = "/" ++ p ++ t.
Proof.
  change ("/" ++ p) with (String "/" p) at 1 2.
  rewrite append_cons, startsWith_slash_cons. reflexivity.
Qed.

(** X2.  The target URL joins the upstream URL and the sub-path with
    exactly one slash: one trailing slash on the upstream URL and a leading
    slash on the sub-path make no difference.  For an upstream URL [u] that
    does not end in a slash and a sub-path [p] that does not begin with one,
    the target is u/p, followed by "?" and the query string of the inbound URL
    when it has one. *)
Theorem targetUrl_normalised (req : Request) (u p : string) :
  (forall v, u <> v ++ "/") -> JS.startsWith "/" p = false ->
  let query :=
    match JS.split "?" (originalUrl req) !! 1%nat with
    | Some q => if String.eqb q "" then "" else "?" ++ q
    | None => ""
    end in
  targetUrl req u p = u ++ "/" ++ p ++ query
  /\ targetUrl req (u ++ "/") p = targetUrl req u p
  /\ targetUrl req u ("/" ++ p) = targetUrl req u p
  /\ targetUrl req (u ++ "/") ("/" ++ p) = targetUrl req u p.
Proof.
  intros Hu Hp query. subst query.
  pose proof (strip_trailing_slash_id u Hu) as Hid.
  pose proof (strip_trailing_slash_app u) as Happ.
  assert (Hplain : forall t, JS.startsWith "/" t = false ->
            (if JS.startsWith "/" (p ++ t) then p ++ t else "/" ++ p ++ t) = "/" ++ p ++ t)
    by (intros t Ht; apply relativePath_plain; assumption).
  rewrite (targetUrl_join req u p u p Hid Hplain),
    (targetUrl_join req (u ++ "/") p u p Happ Hplain),
    (targetUrl_join req u ("/" ++ p) u p Hid (fun t _ => relativePath_slash p t)),
    (targetUrl_join req (u ++ "/") ("/" ++ p) u p Happ (fun t _ => relativePath_slash p t)).
  repeat split.
Qed.

(** X3.  The query string carried over to the upstream is what stands
    between the first and the second "?" of the inbound URL: it is kept as it
    is, and whatever follows a second "?" is dropped. *)
Theorem targetUrl_query (req : Request) (u p before q after : string) :
  (forall v, u <> v ++ "/") -> JS.startsWith "/" p = false ->
  originalUrl req = before ++ "?" ++ q ++ after ->
  JS.includes "?" before = false -> JS.includes "?" q = false -> q <> "" ->
  after = "" \/ (exists rest, after = String "?" rest) ->
  targetUrl req u p = u ++ "/" ++ p ++ "?" ++ q.
Proof.
  intros Hu Hp Hurl Hbefore Hq Hne Hafter.
  assert (Hsplit : JS.split "?" (originalUrl req) !! 1%nat = Some q).
  { rewrite Hurl. change ("?" ++ q ++ after) with (String "?" (q ++ after)).
    rewrite (split_at_separator "?" before _ Hbefore). cbn [lookup list_lookup].
    destruct Hafter as [-> | [rest ->]].
    - rewrite append_nil_r, (split_no_separator "?" q Hq). reflexivity.
    - rewrite (split_at_separator "?" q _ Hq). reflexivity. }
  rewrite (targetUrl_join req u p u p (strip_trailing_slash_id u Hu)
             (fun t Ht => relativePath_plain p t Hp Ht)), Hsplit.
  destruct (String.eqb_spec q "") as [? | _]; [contradiction | reflexivity].
Qed.


(** What [forwardRequest] returns once the upstream has answered, for a
    configured root hash and a drawn challenge. *)
Lemma forwardRequest_answered
    (req : Request) (upstreamUrl serviceName subPath : string)
    (signingSecret : option string) (root : string) (amb : Ambient) (response : Response) :
  fetch (targetUrl req upstreamUrl subPath)
    (mkRequestInit (method req)
       (forwardHeaders req serviceName signingSecret (Some root) amb)
       (requestBody req)) = Ok response ->
  root <> "" -> List.length (entropy amb) = 16%nat ->
  forwardRequest req upstreamUrl serviceName subPath signingSecret (Some root) amb
  = Ok (respond response (Some root) (Some (JS.hex (entropy amb))) amb)
  /\ JS.truthy_str (Some root) && JS.truthy_str (Some (JS.hex (entropy amb))) = true.
Proof.
  intros Hfetch Hroot Hlen.
  destruct (wax_drawn root amb Hroot Hlen) as (Hr & Hwax & Hw).
  unfold forwardRequest. rewrite Hfetch, Hwax. rewrite Hr, Hw. split; reflexivity.
Qed.

(** X4.  A sealed answer in body-wrapper form is unwrapped and verified
    against the challenge that was sent: the verifier is given the parsed
    body, the very nonce of the X-OpenSeal-Wax request header and the
    configured root hash; the result carries the inner [result] as data and
    the verifier's verdict and message, whether it accepts or not. *)
Theorem forwardRequest_body_wrapper
    (req : Request) (upstreamUrl serviceName subPath : string)
    (signingSecret : option string) (root : string) (amb : Ambient)
    (response : Response) (parsedBody : JSON) (v : OpensealVerifier.VerificationResult) :
  let sent := forwardHeaders req serviceName signingSecret (Some root) amb in
  fetch (targetUrl req upstreamUrl subPath)
    (mkRequestInit (method req) sent (requestBody req)) = Ok response ->
  root <> "" -> List.length (entropy amb) = 16%nat ->
  JSON_parse (responseText response) = Ok parsedBody ->
  isBodyWrapper parsedBody = true ->
  OpensealVerifier_verify parsedBody (JS.hex (entropy amb)) root = Ok v ->
  sent !! "X-OpenSeal-Wax" = Some (JS.hex (entropy amb))
  /\ exists r inner,
       forwardRequest req upstreamUrl serviceName subPath signingSecret (Some root) amb = Ok r
       /\ JS.get "result" parsedBody = Some inner /\ data r = Some inner
       /\ openseal r
          = Some (mkSealReport (OpensealVerifier.valid v) (OpensealVerifier.message v))
       /\ integrityCheck (telemetry r) = true.
Proof.
  intros sent Hfetch Hroot Hlen Hparse Hwrap Hverify. subst sent.
  destruct (forwardRequest_answered _ _ _ _ _ _ _ _ Hfetch Hroot Hlen) as [-> Hboth].
  split.
  - apply forwardHeaders_protocol_wax. exact (proj1 (wax_drawn root amb Hroot Hlen)).
  - assert (Hinner : is_Some (JS.get "result" parsedBody)).
    { unfold isBodyWrapper in Hwrap. apply andb_prop in Hwrap as [_ Hwrap].
      apply bool_decide_eq_true in Hwrap. exact Hwrap. }
    destruct Hinner as [inner Hinner]. eexists _, inner. split; [reflexivity |].
    unfold respond, interpret, interpret_try.
    rewrite Hparse, Hwrap, Hboth. cbn [default from_option Datatypes.id].
    rewrite Hverify, Hinner. cbn.
    destruct (String.eqb_spec root ""); [contradiction |]. repeat split.
Qed.


Lemma truthy_str_Some (s : string) : s <> "" -> JS.truthy_str (Some s) = true.
Proof. intros Hs. cbn. destruct (String.eqb_spec s ""); [contradiction | reflexivity]. Qed.

(** X5.  A plain JSON answer (not a body wrapper) that carries an
    X-OpenSeal-Seal header is passed on whole as data; the verifier is given
    that body as [result], the parsed header as [openseal], the nonce that was
    sent and the configured root hash, and its verdict is reported.  A header
    that does not parse, and likewise a verifier that throws, is reported as
    unverified with "Header Parse Error: " and the error's message. *)
Theorem forwardRequest_header_seal
    (req : Request) (upstreamUrl serviceName subPath : string)
    (signingSecret : option string) (root : string) (amb : Ambient)
    (response : Response) (parsedBody : JSON) (seal : string) :
  fetch (targetUrl req upstreamUrl subPath)
    (mkRequestInit (method req)
       (forwardHeaders req serviceName signingSecret (Some root) amb)
       (requestBody req)) = Ok response ->
  root <> "" -> List.length (entropy amb) = 16%nat ->
  JSON_parse (responseText response) = Ok parsedBody ->
  isBodyWrapper parsedBody = false ->
  response_headers response !! "x-openseal-seal" = Some seal -> seal <> "" ->
  exists r,
    forwardRequest req upstreamUrl serviceName subPath signingSecret (Some root) amb = Ok r
    /\ data r = Some parsedBody
    /\ integrityCheck (telemetry r) = true
    /\ (forall sealJson v,
          JSON_parse seal = Ok sealJson ->
          OpensealVerifier_verify (JObj [("result", parsedBody); ("openseal", sealJson)])
            (JS.hex (entropy amb)) root = Ok v ->
          openseal r
          = Some (mkSealReport (OpensealVerifier.valid v) (OpensealVerifier.message v)))
    /\ (forall e,
          JSON_parse seal = Throw e ->
          openseal r
          = Some (mkSealReport false ("Header Parse Error: " ++ error_message e)))
    /\ (forall sealJson e,
          JSON_parse seal = Ok sealJson ->
          OpensealVerifier_verify (JObj [("result", parsedBody); ("openseal", sealJson)])
            (JS.hex (entropy amb)) root = Throw e ->
          openseal r
          = Some (mkSealReport false ("Header Parse Error: " ++ error_message e))).
Proof.
  intros Hfetch Hroot Hlen Hparse Hwrap Hseal Hnonempty.
  destruct (forwardRequest_answered _ _ _ _ _ _ _ _ Hfetch Hroot Hlen) as [-> Hboth].
  eexists. split; [reflexivity |].
  unfold respond, interpret, interpret_try.
  rewrite Hparse, Hwrap, Hboth. unfold headers_get.
  change (JS.toLowerCase "X-OpenSeal-Seal") with "x-openseal-seal".
  rewrite Hseal, (truthy_str_Some seal Hnonempty), (truthy_str_Some root Hroot).
  cbn [default from_option Datatypes.id fst snd data telemetry integrityCheck openseal].
  unfold verifySealHeader.
  split; [| split; [| split; [| split]]].
  - destruct (JSON_parse seal); [destruct (OpensealVerifier_verify _ _ _) |]; reflexivity.
  - destruct (JSON_parse seal); [destruct (OpensealVerifier_verify _ _ _) |]; reflexivity.
  - intros sealJson v -> ->. reflexivity.
  - intros e ->. reflexivity.
  - intros sealJson e -> ->. reflexivity.
Qed.

(** X6.  An answer that is not JSON is handed on as [{message: <text>}] with
    [integrityCheck] false.  Without a seal header it is reported as
    "Integrity Compromised: Non-JSON response without Seal header"; with one,
    the verifier is given the raw text as [result] and decides. *)
Theorem forwardRequest_non_json
    (req : Request) (upstreamUrl serviceName subPath : string)
    (signingSecret : option string) (root : string) (amb : Ambient)
    (response : Response) (e : Error) :
  fetch (targetUrl req upstreamUrl subPath)
    (mkRequestInit (method req)
       (forwardHeaders req serviceName signingSecret (Some root) amb)
       (requestBody req)) = Ok response ->
  root <> "" -> List.length (entropy amb) = 16%nat ->
  JSON_parse (responseText response) = Throw e ->
  exists r,
    forwardRequest req upstreamUrl serviceName subPath signingSecret (Some root) amb = Ok r
    /\ data r = Some (JObj [("message", JStr (responseText response))])
    /\ integrityCheck (telemetry r) = false
    /\ (JS.truthy_str (response_headers response !! "x-openseal-seal") = false ->
        openseal r
        = Some (mkSealReport false
                  "Integrity Compromised: Non-JSON response without Seal header"))
    /\ (forall seal sealJson v,
          response_headers response !! "x-openseal-seal" = Some seal -> seal <> "" ->
          JSON_parse seal = Ok sealJson ->
          OpensealVerifier_verify
            (JObj [("result", JStr (responseText response)); ("openseal", sealJson)])
            (JS.hex (entropy amb)) root = Ok v ->
          openseal r
          = Some (mkSealReport (OpensealVerifier.valid v) (OpensealVerifier.message v))).
Proof.
  intros Hfetch Hroot Hlen Hparse.
  destruct (forwardRequest_answered _ _ _ _ _ _ _ _ Hfetch Hroot Hlen) as [-> Hboth].
  eexists. split; [reflexivity |].
  unfold respond, interpret, interpret_try, interpret_catch.
  rewrite Hparse, Hboth. clear Hboth. unfold headers_get.
  change (JS.toLowerCase "X-OpenSeal-Seal") with "x-openseal-seal".
  rewrite (truthy_str_Some root Hroot).
  cbn [data telemetry integrityCheck openseal].
  unfold verifySealHeader.
  split; [| split; [| split]].
  - destruct (JS.truthy_str (_ !! _)); [| reflexivity].
    destruct (JSON_parse (default "" _));
      [destruct (OpensealVerifier_verify _ _ _) |]; reflexivity.
  - destruct (JS.truthy_str (_ !! _)); [| reflexivity].
    destruct (JSON_parse (default "" _));
      [destruct (OpensealVerifier_verify _ _ _) |]; reflexivity.
  - intros ->. reflexivity.
  - intros seal sealJson v Hseal Hnonempty Hjson Hverify.
    rewrite Hseal, (truthy_str_Some seal Hnonempty).
    cbn [default from_option Datatypes.id]. rewrite Hjson, Hverify. reflexivity.
Qed.



(** X8.  With no root hash configured (absent or the empty string) nothing
    is verified: the result carries no [openseal] member, and the data is the
    inner [result] of a body wrapper, the parsed body of any other JSON answer,
    or [{message: <text>}] for an answer that is not JSON, whatever the
    verifier would say of it. *)
Theorem forwardRequest_no_root_hash
    (req : Request) (upstreamUrl serviceName subPath : string)
    (signingSecret opensealRootHash : option string) (amb : Ambient)
    (response : Response) :
  JS.truthy_str opensealRootHash = false ->
  fetch (targetUrl req upstreamUrl subPath)
    (mkRequestInit (method req)
       (forwardHeaders req serviceName signingSecret opensealRootHash amb)
       (requestBody req)) = Ok response ->
  exists r,
    forwardRequest req upstreamUrl serviceName subPath signingSecret opensealRootHash amb
    = Ok r
    /\ openseal r = None
    /\ data r
       = match JSON_parse (responseText response) with
         | Ok parsedBody =>
             if isBodyWrapper parsedBody then JS.get "result" parsedBody
             else Some parsedBody
         | Throw _ => Some (JObj [("message", JStr (responseText response))])
         end
    /\ integrityCheck (telemetry r)
       = match JSON_parse (responseText response) with Ok _ => true | Throw _ => false end.
Proof.
  intros Hroot Hfetch. unfold forwardRequest. rewrite Hfetch.
  eexists. split; [reflexivity |].
  unfold respond, interpret, interpret_try, interpret_catch.
  cbn [openseal data telemetry integrityCheck]. rewrite Hroot. cbn [andb].
  split; [reflexivity |].
  destruct (JSON_parse (responseText response)) as [parsedBody | e]; [| split; reflexivity].
  destruct (isBodyWrapper parsedBody); split; reflexivity.
Qed.

(** X9.  If the verifier itself throws on a body wrapper, the answer is
    treated like one that is not JSON although it parsed: the wrapper is not
    unwrapped, the data is [{message: <text>}], [integrityCheck] is false and,
    there being no seal header, the report reads "Integrity Compromised:
    Non-JSON response without Seal header". *)
Theorem forwardRequest_verifier_throws
    (req : Request) (upstreamUrl serviceName subPath : string)
    (signingSecret : option string) (root : string) (amb : Ambient)
    (response : Response) (parsedBody : JSON) (e : Error) :
  fetch (targetUrl req upstreamUrl subPath)
    (mkRequestInit (method req)
       (forwardHeaders req serviceName signingSecret (Some root) amb)
       (requestBody req)) = Ok response ->
  root <> "" -> List.length (entropy amb) = 16%nat ->
  JSON_parse (responseText response) = Ok parsedBody ->
  isBodyWrapper parsedBody = true ->
  OpensealVerifier_verify parsedBody (JS.hex (entropy amb)) root = Throw e ->
  JS.truthy_str (response_headers response !! "x-openseal-seal") = false ->
  exists r,
    forwardRequest req upstreamUrl serviceName subPath signingSecret (Some root) amb = Ok r
    /\ data r = Some (JObj [("message", JStr (responseText response))])
    /\ integrityCheck (telemetry r) = false
    /\ openseal r
       = Some (mkSealReport false
                 "Integrity Compromised: Non-JSON response without Seal header").
Proof.
  intros Hfetch Hroot Hlen Hparse Hwrap Hverify Hseal.
  destruct (forwardRequest_answered _ _ _ _ _ _ _ _ Hfetch Hroot Hlen) as [-> Hboth].
  eexists. split; [reflexivity |].
  unfold respond, interpret, interpret_try, interpret_catch.
  rewrite Hparse, Hwrap, Hboth. cbn [default from_option Datatypes.id].
  rewrite Hverify. unfold headers_get.
  change (JS.toLowerCase "X-OpenSeal-Seal") with "x-openseal-seal".
  rewrite Hseal, (truthy_str_Some root Hroot). repeat split.
Qed.

End ForwarderExtras.

(** ** The forwarder on sample answers *)

Section ForwarderFixtures.
Import ProxyService.

Lemma no_trailing_slash (u : string) :
  JS.strip_trailing_slash u = u -> forall v, u <> v ++ "/".
Proof.
  intros Hu v ->. rewrite strip_trailing_slash_app in Hu.
  induction v as [| c v IH]; [discriminate |].
  rewrite append_cons in Hu. injection Hu as Hu. exact (IH Hu).
Qed.

(** X2, witness: the sample upstream with and without its trailing slash. *)
Lemma targetUrl_normalised_witness :
  let query := "?units=si" in
  targetUrl Sample.inbound "https://weather.example" "v1/today"
  = "https://weather.example" ++ "/" ++ "v1/today" ++ query
  /\ targetUrl Sample.inbound ("https://weather.example" ++ "/") "v1/today"
     = targetUrl Sample.inbound "https://weather.example" "v1/today"
  /\ targetUrl Sample.inbound "https://weather.example" ("/" ++ "v1/today")
     = targetUrl Sample.inbound "https://weather.example" "v1/today"
  /\ targetUrl Sample.inbound ("https://weather.example" ++ "/") ("/" ++ "v1/today")
     = targetUrl Sample.inbound "https://weather.example" "v1/today".
Proof.
  apply (targetUrl_normalised Sample.inbound "https://weather.example" "v1/today").
  - apply no_trailing_slash. reflexivity.
  - reflexivity.
Defined.

(** X3, witness: the query of the sample request; a second question mark
    ends it. *)
Lemma targetUrl_query_witness :
  targetUrl Sample.inbound "https://weather.example" "v1/today"
  = "https://weather.example/v1/today?units=si"
  /\ targetUrl
       (mkRequest "GET" ∅ None "/gatekeeper/weather/v1/today?units=si?lang=en")
       "https://weather.example" "v1/today"
     = "https://weather.example/v1/today?units=si".
Proof.
  split.
  - apply (targetUrl_query Sample.inbound "https://weather.example" "v1/today"
             "/gatekeeper/weather/v1/today" "units=si" "").
    + apply no_trailing_slash. reflexivity.
    + reflexivity.
    + reflexivity.
    + reflexivity.
    + reflexivity.
    + discriminate.
    + left. reflexivity.
  - apply (targetUrl_query _ "https://weather.example" "v1/today"
             "/gatekeeper/weather/v1/today" "units=si" "?lang=en").
    + apply no_trailing_slash. reflexivity.
    + reflexivity.
    + reflexivity.
    + reflexivity.
    + reflexivity.
    + discriminate.
    + right. eexists. reflexivity.
Defined.

(** X4, witness: the sample provider answers with a sealed body wrapper. *)
Lemma forwardRequest_body_wrapper_witness :
  forwardHeaders (platform := Fixture.upstream Fixture.wrapped) (codec := Fixture.json)
    Sample.inbound "Weather" None (Some Sample.root) Sample.ambient !! "X-OpenSeal-Wax"
  = Some Sample.wax
  /\ exists r inner,
       forwardRequest (platform := Fixture.upstream Fixture.wrapped) (codec := Fixture.json)
         Sample.inbound "https://weather.example" "Weather" "v1/today"
         None (Some Sample.root) Sample.ambient = Ok r
       /\ JS.get "result" Fixture.wrapper_json = Some inner /\ data r = Some inner
       /\ openseal r = Some (mkSealReport true "SEAL VALID")
       /\ integrityCheck (telemetry r) = true.
Proof.
  apply (forwardRequest_body_wrapper
           (platform := Fixture.upstream Fixture.wrapped) (codec := Fixture.json)
           Sample.inbound "https://weather.example" "Weather" "v1/today"
           None Sample.root Sample.ambient Fixture.wrapped Fixture.wrapper_json
           (OpensealVerifier.mkResult true true true "SEAL VALID")).
  - reflexivity.
  - discriminate.
  - vm_compute; reflexivity.
  - vm_compute; reflexivity.
  - vm_compute; reflexivity.
  - vm_compute; reflexivity.
Defined.

(** X5, witness: the same seal sent as a header beside a plain JSON body,
    and a header that is not JSON. *)
Lemma forwardRequest_header_seal_witness :
  (exists r,
     forwardRequest (platform := Fixture.upstream Fixture.header_sealed)
       (codec := Fixture.json)
       Sample.inbound "https://weather.example" "Weather" "v1/today"
       None (Some Sample.root) Sample.ambient = Ok r
     /\ data r = Some Fixture.plain_json
     /\ openseal r = Some (mkSealReport true "SEAL VALID"))
  /\ (exists r,
        forwardRequest (platform := Fixture.upstream Fixture.badly_sealed)
          (codec := Fixture.json)
          Sample.inbound "https://weather.example" "Weather" "v1/today"
          None (Some Sample.root) Sample.ambient = Ok r
        /\ data r = Some Fixture.plain_json
        /\ openseal r = Some (mkSealReport false "Header Parse Error: Unexpected token")).
Proof.
  split.
  - destruct (forwardRequest_header_seal
                (platform := Fixture.upstream Fixture.header_sealed) (codec := Fixture.json)
                Sample.inbound "https://weather.example" "Weather" "v1/today"
                None Sample.root Sample.ambient Fixture.header_sealed Fixture.plain_json
                (Fixture.print Fixture.seal_json))
      as (r & Hr & Hdata & _ & Hseal & _).
    + reflexivity.
    + discriminate.
    + vm_compute; reflexivity.
    + vm_compute; reflexivity.
    + vm_compute; reflexivity.
    + vm_compute; reflexivity.
    + vm_compute; discriminate.
    + exists r. split; [exact Hr |]. split; [exact Hdata |].
      apply (Hseal Fixture.seal_json (OpensealVerifier.mkResult true true true "SEAL VALID"));
        vm_compute; reflexivity.
  - destruct (forwardRequest_header_seal
                (platform := Fixture.upstream Fixture.badly_sealed) (codec := Fixture.json)
                Sample.inbound "https://weather.example" "Weather" "v1/today"
                None Sample.root Sample.ambient Fixture.badly_sealed Fixture.plain_json
                "not json")
      as (r & Hr & Hdata & _ & _ & Hbad & _).
    + reflexivity.
    + discriminate.
    + vm_compute; reflexivity.
    + vm_compute; reflexivity.
    + vm_compute; reflexivity.
    + vm_compute; reflexivity.
    + discriminate.
    + exists r. split; [exact Hr |]. split; [exact Hdata |].
      apply (Hbad (mkError "Unexpected token")). vm_compute; reflexivity.
Defined.

(** X6, witness: a gateway error page in place of the provider's answer. *)
Lemma forwardRequest_non_json_witness :
  exists r,
    forwardRequest (platform := Fixture.upstream Fixture.plain_text) (codec := Fixture.json)
      Sample.inbound "https://weather.example" "Weather" "v1/today"
      None (Some Sample.root) Sample.ambient = Ok r
    /\ data r = Some (JObj [("message", JStr "Bad Gateway")])
    /\ integrityCheck (telemetry r) = false
    /\ openseal r
       = Some (mkSealReport false
                 "Integrity Compromised: Non-JSON response without Seal header").
Proof.
  destruct (forwardRequest_non_json
              (platform := Fixture.upstream Fixture.plain_text) (codec := Fixture.json)
              Sample.inbound "https://weather.example" "Weather" "v1/today"
              None Sample.root Sample.ambient Fixture.plain_text
              (mkError "Unexpected token"))
    as (r & Hr & Hdata & Hcheck & Hseal & _).
  - reflexivity.
  - discriminate.
  - vm_compute; reflexivity.
  - vm_compute; reflexivity.
  - exists r. split; [exact Hr |]. split; [exact Hdata |]. split; [exact Hcheck |].
    apply Hseal. reflexivity.
Defined.


(** X8, witness: the same sealed answer for a service without a root hash. *)
Lemma forwardRequest_no_root_hash_witness :
  exists r,
    forwardRequest (platform := Fixture.upstream Fixture.wrapped) (codec := Fixture.json)
      Sample.inbound "https://weather.example" "Weather" "v1/today" None None Sample.ambient
    = Ok r
    /\ openseal r = None
    /\ data r = Some (JStr "42")
    /\ integrityCheck (telemetry r) = true.
Proof.
  apply (forwardRequest_no_root_hash
           (platform := Fixture.upstream Fixture.wrapped) (codec := Fixture.json)
           Sample.inbound "https://weather.example" "Weather" "v1/today" None None
           Sample.ambient Fixture.wrapped); reflexivity.
Defined.

(** X9, witness: the sealed answer on an installation whose verifier
    cannot be run. *)
Lemma forwardRequest_verifier_throws_witness :
  exists r,
    forwardRequest (platform := Fixture.broken Fixture.wrapped) (codec := Fixture.json)
      Sample.inbound "https://weather.example" "Weather" "v1/today"
      None (Some Sample.root) Sample.ambient = Ok r
    /\ data r = Some (JObj [("message", JStr (Fixture.print Fixture.wrapper_json))])
    /\ integrityCheck (telemetry r) = false
    /\ openseal r
       = Some (mkSealReport false
                 "Integrity Compromised: Non-JSON response without Seal header").
Proof.
  apply (forwardRequest_verifier_throws
           (platform := Fixture.broken Fixture.wrapped) (codec := Fixture.json)
           Sample.inbound "https://weather.example" "Weather" "v1/today"
           None Sample.root Sample.ambient Fixture.wrapped Fixture.wrapper_json
           (mkError "spawnSync openseal EACCES")).
  - reflexivity.
  - discriminate.
  - vm_compute; reflexivity.
  - vm_compute; reflexivity.
  - vm_compute; reflexivity.
  - vm_compute; reflexivity.
  - reflexivity.
Defined.

End ForwarderFixtures.

(** ** The resolvers: what they select and what they leave alone *)

Section ResolverExtras.
Import DomainResolver.

Lemma run_query_cases (db : Database) (matching : Service -> bool) :
  (reachable db = false /\ exists e, run_query db matching = Throw e)
  \/ (reachable db = true /\ run_query db matching = Ok []
      /\ forall s, In s (rows db) -> matching s = false)
  \/ (reachable db = true
      /\ exists row, run_query db matching = Ok [row] /\ In row (rows db)
                     /\ matching row = true).
Proof.
  unfold run_query. destruct (reachable db).
  - right. destruct (take1_filter_cases matching (rows db))
      as [[Hnil Hall] | (row & Hrow & Hin & Hf)].
    + left. rewrite Hnil. auto.
    + right. split; [reflexivity |]. exists row. rewrite Hrow. auto.
  - left. split; [reflexivity |]. eexists. reflexivity.
Qed.

Lemma after_segment_slash (s : string) :
  after_segment s = "" \/ JS.startsWith "/" (after_segment s) = true.
Proof.
  induction s as [| c s IH]; [left; reflexivity |].
  cbn [after_segment]. destruct (Ascii.eqb_spec c "/") as [-> | _]; [| exact IH].
  right. apply startsWith_slash_cons.
Qed.

Lemma stripped_path_slash (path : string) (slug_ : string) :
  legacyMatch path = Some slug_ ->
  JS.startsWith "/" (or_else (replace_legacy path) "/") = true.
Proof.
  unfold legacyMatch, replace_legacy, or_else.
  destruct (strip_prefix "/gatekeeper/" path) as [rest |]; [| discriminate].
  destruct (String.eqb (segment rest) ""); [discriminate |]. intros _.
  destruct (after_segment_slash rest) as [-> | Hslash]; [reflexivity |].
  destruct (String.eqb (after_segment rest) ""); [reflexivity | exact Hslash].
Qed.

(** The third lookup of [domainResolver], by legacy path. *)
Lemma legacy_lookup (db : Database) (req : Request) (locals : Locals) :
  exists locals',
    match
      match legacyMatch (path req) with
      | Some slug =>
          if String.eqb slug "resource" || JS.includes "/info" (path req) then
            Ok (Next locals)
          else
            match select_by_slug_and_status db slug "verified" with
            | Throw e => Throw e
            | Ok (row :: _) =>
                let pathWithoutGatekeeper := or_else (replace_legacy (path req)) "/" in
                Ok (Next (mkLocals (Some row) (Some "legacy_path")
                            (Some pathWithoutGatekeeper)))
            | Ok [] => Ok (Next locals)
            end
      | None => Ok (Next locals)
      end
    with
    | Ok handled => handled
    | Throw _ => Next locals
    end = Next locals'
    /\ (locals' = locals
        \/ exists row stripped,
             locals' = mkLocals (Some row) (Some "legacy_path") (Some stripped)
             /\ In row (rows db) /\ status row = "verified" /\ reachable db = true
             /\ legacyMatch (path req) = Some (slug row)
             /\ JS.startsWith "/" stripped = true).
Proof.
  destruct (legacyMatch (path req)) as [slug_ |] eqn:Hmatch; [| eauto].
  destruct (String.eqb slug_ "resource" || JS.includes "/info" (path req)); [eauto |].
  unfold select_by_slug_and_status.
  destruct (run_query_cases db
              (fun s => String.eqb (slug s) slug_ && String.eqb (status s) "verified"))
    as [(_ & e & ->) | [(_ & -> & _) | (Hup & row & -> & Hin & Hrow)]]; [eauto | eauto |].
  eexists. split; [reflexivity |]. right. eexists row, _. split; [reflexivity |].
  apply andb_prop in Hrow as [Hsl Hst]. apply String.eqb_eq in Hsl, Hst.
  rewrite Hsl. repeat match goal with |- _ /\ _ => split end; auto.
  apply (stripped_path_slash _ slug_ Hmatch).
Qed.

(** The outcomes of [domainResolver]: the request is handed on, with
    [res.locals] as they were or with a verified row of the registry selected
    by one of the three lookups. *)
Lemma domainResolver_outcome (db : Database) (req : Request) (locals : Locals) :
  domainResolver db req locals = Next locals
  \/ exists row,
       In row (rows db) /\ status row = "verified" /\ reachable db = true
       /\ JS.startsWith "/api" (path req) || JS.startsWith "/mcp" (path req)
          || JS.startsWith "/health" (path req) || JS.startsWith "/debug" (path req) = false
       /\ ((custom_domain row = Some (hostname_of req)
            /\ domainResolver db req locals
               = Next (mkLocals (Some row) (Some "custom_domain") (strippedPath locals)))
           \/ (slug row = hd "" (JS.split "." (hostname_of req))
               /\ slug row <> "www" /\ isHighStationDomain (hostname_of req) = true
               /\ domainResolver db req locals
                  = Next (mkLocals (Some row) (Some "subdomain") (strippedPath locals)))
           \/ (legacyMatch (path req) = Some (slug row)
               /\ exists stripped,
                    JS.startsWith "/" stripped = true
                    /\ domainResolver db req locals
                       = Next (mkLocals (Some row) (Some "legacy_path") (Some stripped)))).
Proof.
  unfold domainResolver.
  destruct (JS.startsWith "/api" (path req) || JS.startsWith "/mcp" (path req)
            || JS.startsWith "/health" (path req) || JS.startsWith "/debug" (path req))
    eqn:Hinternal; [auto |].
  unfold domainResolver_try.
  (* Priority 1 *)
  unfold select_by_custom_domain.
  destruct (run_query_cases db
              (fun s => match custom_domain s with
                        | Some d => String.eqb d (hostname_of req)
                        | None => false
                        end && String.eqb (status s) "verified"))
    as [(_ & e & ->) | [(Hup & -> & _) | (Hup & row & -> & Hin & Hrow)]]; [auto | |].
  2: { right. exists row.
       apply andb_prop in Hrow as [Hd Hst]. apply String.eqb_eq in Hst.
       destruct (custom_domain row) as [d |] eqn:Hcd; [| discriminate].
       apply String.eqb_eq in Hd. subst d. auto 10. }
  (* Priority 2 *)
  set (subdomain := hd "" (JS.split "." (hostname_of req))).
  set (lookup :=
         if (2 <=? List.length (JS.split "." (hostname_of req)))%nat
            && isHighStationDomain (hostname_of req) && negb (String.eqb subdomain "www")
         then select_by_slug_and_status db subdomain "verified" else Ok []).
  assert (Hsub :
    (exists e, lookup = Throw e) \/ lookup = Ok []
    \/ (exists row,
          lookup = Ok [row]
          /\ In row (rows db) /\ slug row = subdomain /\ status row = "verified"
          /\ isHighStationDomain (hostname_of req) = true /\ subdomain <> "www")).
  { subst lookup.
    destruct ((2 <=? List.length (JS.split "." (hostname_of req)))%nat
              && isHighStationDomain (hostname_of req)
              && negb (String.eqb subdomain "www")) eqn:Hguard; [| auto].
    apply andb_prop in Hguard as [Hguard Hwww].
    apply andb_prop in Hguard as [_ Hzone].
    apply negb_true_iff, String.eqb_neq in Hwww.
    unfold select_by_slug_and_status.
    destruct (run_query_cases db
                (fun s => String.eqb (slug s) subdomain && String.eqb (status s) "verified"))
      as [(_ & e & ->) | [(_ & -> & _) | (_ & row & -> & Hin & Hrow)]]; [eauto | auto |].
    apply andb_prop in Hrow as [Hsl Hst]. apply String.eqb_eq in Hsl, Hst.
    right. right. exists row. auto 10. }
  destruct Hsub as [[e ->] | [-> | (row & -> & Hin & Hsl & Hst & Hzone & Hwww)]]; [auto | |].
  2: { right. exists row. rewrite Hsl. auto 12. }
  (* Priority 3 *)
  destruct (legacy_lookup db req locals)
    as (locals' & Heq & [-> | (row & stripped & -> & Hin & Hst & _ & Hm & Hslash)]).
  - auto.
  - right. exists row. repeat (split; [first [assumption | reflexivity] |]).
    right. right. eauto.
Qed.

(** X10.  [domainResolver] never answers a request itself and never
    fails: it always hands the request on.  Either it leaves [res.locals]
    as they were, or it has selected a service, and then the registry was
    reachable, the path is not an internal one (/api, /mcp, /health, /debug),
    the service is a row of the registry whose status is verified, and the
    source is one of custom_domain, subdomain and legacy_path; a stripped
    path is set only for legacy_path, and it begins with a slash. *)
Theorem domainResolver_selects_verified (db : Database) (req : Request) (locals : Locals) :
  exists locals',
    domainResolver db req locals = Next locals'
    /\ (locals' = locals
        \/ exists row source,
             serviceConfig locals' = Some row /\ serviceSource locals' = Some source
             /\ In row (rows db) /\ status row = "verified"
             /\ reachable db = true
             /\ JS.startsWith "/api" (path req) = false
             /\ JS.startsWith "/mcp" (path req) = false
             /\ JS.startsWith "/health" (path req) = false
             /\ JS.startsWith "/debug" (path req) = false
             /\ ((source = "custom_domain"
                  /\ custom_domain row = Some (hostname_of req)
                  /\ strippedPath locals' = strippedPath locals)
                 \/ (source = "subdomain"
                     /\ slug row = hd "" (JS.split "." (hostname_of req))
                     /\ slug row <> "www"
                     /\ isHighStationDomain (hostname_of req) = true
                     /\ strippedPath locals' = strippedPath locals)
                 \/ (source = "legacy_path"
                     /\ legacyMatch (path req) = Some (slug row)
                     /\ exists stripped,
                          strippedPath locals' = Some stripped
                          /\ JS.startsWith "/" stripped = true))).
Proof.
  destruct (domainResolver_outcome db req locals)
    as [-> | (row & Hin & Hst & Hup & Hinternal & Hcase)]; [eauto |].
  apply orb_false_elim in Hinternal as [Hinternal Hdebug].
  apply orb_false_elim in Hinternal as [Hinternal Hhealth].
  apply orb_false_elim in Hinternal as [Hapi Hmcp].
  destruct Hcase as [(Hd & ->) | [(Hsl & Hwww & Hzone & ->) | (Hm & stripped & Hslash & ->)]].
  - eexists. split; [reflexivity |]. right. exists row, "custom_domain".
    cbn [serviceConfig serviceSource strippedPath].
    repeat (split; [first [reflexivity | assumption] |]). left. auto.
  - eexists. split; [reflexivity |]. right. exists row, "subdomain".
    cbn [serviceConfig serviceSource strippedPath].
    repeat (split; [first [reflexivity | assumption] |]). right. left. auto 6.
  - eexists. split; [reflexivity |]. right. exists row, "legacy_path".
    cbn [serviceConfig serviceSource strippedPath].
    repeat (split; [first [reflexivity | assumption] |]).
    right. right. split; [reflexivity |]. split; [exact Hm |]. eauto.
Qed.

Lemma select_finds (db : Database) (matching : Service -> bool) (row : Service) :
  reachable db = true -> In row (rows db) -> matching row = true ->
  exists row', run_query db matching = Ok [row'] /\ In row' (rows db)
               /\ matching row' = true.
Proof.
  intros Hup Hin Hrow.
  destruct (run_query_cases db matching)
    as [(Hdown & _) | [(_ & _ & Hall) | (_ & row' & Heq & Hin' & Hrow')]].
  - congruence.
  - rewrite (Hall row Hin) in Hrow. discriminate.
  - eauto.
Qed.

Lemma select_finds_none (db : Database) (matching : Service -> bool) :
  reachable db = true -> (forall s, In s (rows db) -> matching s = false) ->
  run_query db matching = Ok [].
Proof.
  intros Hup Hall. unfold run_query. rewrite Hup. f_equal.
  apply take1_filter_nil. exact Hall.
Qed.

(** X11.  The Host header decides first: when a verified service has the
    request's host name (the Host header up to its port) as its custom domain,
    a service with that custom domain is selected as a "custom_domain" match,
    whatever the path is and whatever the other lookups would find, and no
    path is stripped. *)
Theorem domainResolver_custom_domain_first
    (db : Database) (req : Request) (locals : Locals) (row : Service) :
  JS.startsWith "/api" (path req) || JS.startsWith "/mcp" (path req)
  || JS.startsWith "/health" (path req) || JS.startsWith "/debug" (path req) = false ->
  reachable db = true ->
  In row (rows db) -> custom_domain row = Some (hostname_of req) ->
  status row = "verified" ->
  exists row',
    In row' (rows db) /\ custom_domain row' = Some (hostname_of req)
    /\ status row' = "verified"
    /\ domainResolver db req locals
       = Next (mkLocals (Some row') (Some "custom_domain") (strippedPath locals)).
Proof.
  intros Hinternal Hup Hin Hdomain Hstatus.
  unfold domainResolver. rewrite Hinternal. unfold domainResolver_try.
  unfold select_by_custom_domain.
  destruct (select_finds db
              (fun s => match custom_domain s with
                        | Some d => String.eqb d (hostname_of req)
                        | None => false
                        end && String.eqb (status s) "verified") row Hup Hin)
    as (row' & -> & Hin' & Hrow').
  { rewrite Hdomain, Hstatus, !String.eqb_refl. reflexivity. }
  exists row'. apply andb_prop in Hrow' as [Hd Hst]. apply String.eqb_eq in Hst.
  destruct (custom_domain row') as [d |]; [| discriminate].
  apply String.eqb_eq in Hd. subst d. auto.
Qed.

Lemma length_append (s t : string) :
  String.length (s ++ t) = (String.length s + String.length t)%nat.
Proof.
  induction s as [| c s IH]; [reflexivity |].
  rewrite append_cons. cbn [String.length]. rewrite IH. reflexivity.
Qed.

Lemma substring_all (p : string) : String.substring 0 (String.length p) p = p.
Proof. induction p as [| c p IH]; [reflexivity | cbn; rewrite IH; reflexivity]. Qed.

Lemma substring_skip (s p : string) :
  String.substring (String.length s) (String.length p) (s ++ p) = p.
Proof.
  induction s as [| c s IH]; [apply substring_all |].
  rewrite append_cons. cbn [String.length String.substring]. exact IH.
Qed.

Lemma endsWith_app (s p : string) : JS.endsWith p (s ++ p) = true.
Proof.
  unfold JS.endsWith. rewrite length_append.
  replace (String.length s + String.length p - String.length p)%nat
    with (String.length s) by lia.
  rewrite substring_skip, String.eqb_refl, andb_true_r.
  apply Nat.leb_le. lia.
Qed.

Lemma includes_char_app (a : ascii) (s t : string) :
  JS.includes (String a "") (s ++ t)
  = JS.includes (String a "") s || JS.includes (String a "") t.
Proof.
  induction s as [| c s IH].
  - change ("" ++ t) with t. destruct t; reflexivity.
  - rewrite append_cons, !includes_char_cons, IH, orb_assoc. reflexivity.
Qed.

(** The host name of a Host header [h] or [h:port]. *)
Lemma hostname_of_port (req : Request) (h port : string) :
  host req = Some (h ++ port) ->
  JS.includes ":" h = false ->
  port = "" \/ (exists digits, port = String ":" digits) ->
  hostname_of req = h.
Proof.
  intros Hhost Hh Hport. unfold hostname_of. rewrite Hhost.
  cbn [default from_option Datatypes.id].
  destruct Hport as [-> | [digits ->]].
  - rewrite append_nil_r, (split_no_separator ":" h Hh). reflexivity.
  - rewrite (split_at_separator ":" h digits Hh). reflexivity.
Qed.

(** The labels of a managed host name [label.zone]. *)
Lemma managed_host (label zone : string) :
  zone = ".highstation.net" \/ zone = ".highstation.localhost" ->
  JS.includes "." label = false ->
  hd "" (JS.split "." (label ++ zone)) = label
  /\ (2 <=? List.length (JS.split "." (label ++ zone)))%nat = true
  /\ isHighStationDomain (label ++ zone) = true.
Proof.
  intros Hzone Hlabel. unfold isHighStationDomain.
  destruct Hzone as [-> | ->].
  - change ".highstation.net" with (String "." "highstation.net") at 1 2.
    rewrite (split_at_separator "." label _ Hlabel).
    change (String "." "highstation.net") with ".highstation.net".
    rewrite endsWith_app. repeat split.
  - change ".highstation.localhost" with (String "." "highstation.localhost") at 1 2.
    rewrite (split_at_separator "." label _ Hlabel).
    change (String "." "highstation.localhost") with ".highstation.localhost".
    rewrite endsWith_app, orb_true_r. repeat split.
Qed.

(** X12.  A request whose Host header is <slug>.highstation.net or
    <slug>.highstation.localhost, with or without a port, is resolved to a
    verified service of that slug as a "subdomain" match, when no verified
    service has that host name as its custom domain; no path is stripped. *)
Theorem domainResolver_subdomain
    (db : Database) (req : Request) (locals : Locals)
    (slug_ zone port : string) (row : Service) :
  JS.startsWith "/api" (path req) || JS.startsWith "/mcp" (path req)
  || JS.startsWith "/health" (path req) || JS.startsWith "/debug" (path req) = false ->
  host req = Some ((slug_ ++ zone) ++ port) ->
  zone = ".highstation.net" \/ zone = ".highstation.localhost" ->
  port = "" \/ (exists digits, port = String ":" digits) ->
  JS.includes "." slug_ = false -> JS.includes ":" slug_ = false -> slug_ <> "www" ->
  reachable db = true ->
  (forall s, In s (rows db) -> status s = "verified" ->
     custom_domain s <> Some (slug_ ++ zone)) ->
  In row (rows db) -> slug row = slug_ -> status row = "verified" ->
  exists row',
    In row' (rows db) /\ slug row' = slug_ /\ status row' = "verified"
    /\ domainResolver db req locals
       = Next (mkLocals (Some row') (Some "subdomain") (strippedPath locals)).
Proof.
  intros Hinternal Hhost Hzone Hport Hdot Hcolon Hwww Hup Hcustom Hin Hslug Hstatus.
  assert (Hname : hostname_of req = slug_ ++ zone).
  { apply (hostname_of_port req _ port Hhost); [| exact Hport].
    rewrite includes_char_app, Hcolon. destruct Hzone as [-> | ->]; reflexivity. }
  destruct (managed_host slug_ zone Hzone Hdot) as (Hhd & Hparts & Hmanaged).
  unfold domainResolver. rewrite Hinternal. unfold domainResolver_try.
  rewrite Hname, Hhd, Hparts, Hmanaged.
  unfold select_by_custom_domain. rewrite select_finds_none; [| exact Hup |].
  2: { intros s Hs. destruct (String.eqb_spec (status s) "verified") as [Hst | _];
         [| apply andb_false_r].
       specialize (Hcustom s Hs Hst). destruct (custom_domain s) as [d |]; [| reflexivity].
       destruct (String.eqb_spec d (slug_ ++ zone)) as [-> | _]; [congruence | reflexivity]. }
  destruct (String.eqb_spec slug_ "www") as [? | _]; [contradiction |]. cbn [andb negb].
  unfold select_by_slug_and_status.
  destruct (select_finds db
              (fun s => String.eqb (slug s) slug_ && String.eqb (status s) "verified")
              row Hup Hin) as (row' & -> & Hin' & Hrow').
  { rewrite Hslug, Hstatus, !String.eqb_refl. reflexivity. }
  apply andb_prop in Hrow' as [Hsl Hst]. apply String.eqb_eq in Hsl, Hst.
  exists row'. auto.
Qed.

(** X13.  The label www is reserved: on the host www.highstation.net or
    www.highstation.localhost no subdomain lookup is made, so that a service
    whose slug is www is not reached by host name.  With no custom domain of
    that name and a path that is not a legacy path, the request passes on
    with [res.locals] untouched, whatever the registry holds under the slug
    www. *)
Theorem domainResolver_www_reserved
    (db : Database) (req : Request) (locals : Locals) (zone port : string) :
  host req = Some (("www" ++ zone) ++ port) ->
  zone = ".highstation.net" \/ zone = ".highstation.localhost" ->
  port = "" \/ (exists digits, port = String ":" digits) ->
  (forall s, In s (rows db) -> status s = "verified" ->
     custom_domain s <> Some ("www" ++ zone)) ->
  legacyMatch (path req) = None ->
  domainResolver db req locals = Next locals.
Proof.
  intros Hhost Hzone Hport Hcustom Hlegacy.
  assert (Hname : hostname_of req = "www" ++ zone).
  { apply (hostname_of_port req _ port Hhost); [| exact Hport].
    destruct Hzone as [-> | ->]; reflexivity. }
  destruct (managed_host "www" zone Hzone eq_refl) as (Hhd & _ & _).
  unfold domainResolver.
  destruct (JS.startsWith "/api" (path req) || JS.startsWith "/mcp" (path req)
            || JS.startsWith "/health" (path req) || JS.startsWith "/debug" (path req));
    [reflexivity |].
  unfold domainResolver_try. rewrite Hname, Hhd, Hlegacy.
  unfold select_by_custom_domain.
  destruct (run_query_cases db
              (fun s => match custom_domain s with
                        | Some d => String.eqb d ("www" ++ zone)
                        | None => false
                        end && String.eqb (status s) "verified"))
    as [(_ & e & ->) | [(_ & -> & _) | (_ & row & -> & Hin & Hrow)]].
  - reflexivity.
  - rewrite String.eqb_refl, andb_false_r. reflexivity.
  - exfalso. apply andb_prop in Hrow as [Hd Hst]. apply String.eqb_eq in Hst.
    destruct (custom_domain row) as [d |] eqn:Hcd; [| discriminate].
    apply String.eqb_eq in Hd. subst d. exact (Hcustom row Hin Hst Hcd).
Qed.

(** X14.  [serviceResolver] answers the request itself in exactly three
    cases, all of them with no service resolved before it: 400 when the route
    carries no service slug ([serviceSlug], else the first wildcard
    parameter), 500 when the registry cannot be queried, and 404 when the
    registry holds no service of that slug. *)
Theorem serviceResolver_rejects
    (db : Database) (req : Request) (locals : Locals) (code : Z) (error : string) :
  let serviceSlug :=
    if JS.truthy_str (params_serviceSlug req) then params_serviceSlug req
    else params_0 req in
  serviceResolver db req locals = Respond code error
  <-> serviceConfig locals = None
      /\ ((code = 400%Z /\ error = "Service identifier missing"
           /\ JS.truthy_str serviceSlug = false)
          \/ (code = 500%Z /\ error = "Service resolution failed"
              /\ JS.truthy_str serviceSlug = true /\ reachable db = false)
          \/ (code = 404%Z /\ error = "Service not found"
              /\ JS.truthy_str serviceSlug = true /\ reachable db = true
              /\ forall s, In s (rows db) -> Some (slug s) <> serviceSlug)).
Proof.
  cbv zeta. unfold serviceResolver.
  destruct (serviceConfig locals) as [config |]; cbn [JS.truthy_obj].
  { split; [discriminate | intros [? _]; discriminate]. }
  set (serviceSlug := if JS.truthy_str (params_serviceSlug req)
                      then params_serviceSlug req else params_0 req).
  destruct (JS.truthy_str serviceSlug) eqn:Hslug; cbn [negb].
  2: { split.
       - intros [= <- <-]. auto.
       - intros (_ & [(-> & -> & _) | [(_ & _ & ? & _) | (_ & _ & ? & _)]]);
           [reflexivity | discriminate | discriminate]. }
  destruct serviceSlug as [slug_ |]; [| discriminate].
  cbn [default from_option Datatypes.id]. unfold select_by_slug.
  destruct (run_query_cases db (fun s => String.eqb (slug s) slug_))
    as [(Hdown & e & ->) | [(Hup & -> & Hall) | (Hup & row & -> & Hin & Hrow)]].
  - split.
    + intros [= <- <-]. auto 10.
    + intros (_ & [(_ & _ & ?) | [(-> & -> & _) | (_ & _ & _ & ? & _)]]);
        [discriminate | reflexivity | congruence].
  - split.
    + intros [= <- <-]. split; [reflexivity |]. right. right.
      repeat match goal with |- _ /\ _ => split end; auto.
      intros s Hs [= Heq]. specialize (Hall s Hs). cbn in Hall.
      rewrite Heq, String.eqb_refl in Hall. discriminate.
    + intros (_ & [(_ & _ & ?) | [(_ & _ & _ & ?) | (-> & -> & _)]]);
        [discriminate | congruence | reflexivity].
  - split; [discriminate |].
    intros (_ & [(_ & _ & ?) | [(_ & _ & _ & ?) | (_ & _ & _ & _ & Hnone)]]);
      [discriminate | congruence |].
    exfalso. apply String.eqb_eq in Hrow. apply (Hnone row Hin). rewrite Hrow. reflexivity.
Qed.

(** X15.  The two resolvers in a row, as the gateway mounts them: a request
    that gets past both carries a service of the registry.  One selected by
    host name or legacy path is verified and is kept by [serviceResolver]
    without another query; one found through the route parameter is marked
    "param", and only that one may be unverified. *)
Theorem resolvers_compose
    (db : Database) (req : Request) (locals afterDomain afterService : Locals) :
  serviceConfig locals = None ->
  domainResolver db req locals = Next afterDomain ->
  serviceResolver db req afterDomain = Next afterService ->
  exists row,
    serviceConfig afterService = Some row /\ In row (rows db)
    /\ ((afterService = afterDomain /\ status row = "verified"
         /\ serviceSource afterService <> Some "param")
        \/ (afterDomain = locals /\ serviceSource afterService = Some "param"
            /\ strippedPath afterService = strippedPath locals)).
Proof.
  intros Hnone Hdomain Hservice.
  destruct (domainResolver_outcome db req locals)
    as [Heq | (row & Hin & Hst & _ & _ & Hcase)].
  - rewrite Hdomain in Heq. injection Heq as ->.
    unfold serviceResolver in Hservice. rewrite Hnone in Hservice.
    cbn [JS.truthy_obj] in Hservice.
    destruct (negb (JS.truthy_str _)); [discriminate |].
    unfold select_by_slug in Hservice.
    destruct (run_query_cases db
                (fun s => String.eqb (slug s)
                   (default ""
                      (if JS.truthy_str (params_serviceSlug req)
                       then params_serviceSlug req else params_0 req))))
      as [(_ & e & Hq) | [(_ & Hq & _) | (_ & row & Hq & Hin & _)]];
      rewrite Hq in Hservice; [discriminate | discriminate |].
    injection Hservice as <-. exists row. cbn. auto 10.
  - assert (Hkept : serviceConfig afterDomain = Some row
                    /\ serviceSource afterDomain <> Some "param").
    { destruct Hcase as [(_ & Heq) | [(_ & _ & _ & Heq) | (_ & stripped & _ & Heq)]];
        rewrite Hdomain in Heq; injection Heq as ->; split;
        first [reflexivity | discriminate]. }
    destruct Hkept as [Hconfig Hsource].
    unfold serviceResolver in Hservice. rewrite Hconfig in Hservice.
    cbn [JS.truthy_obj] in Hservice. injection Hservice as <-.
    exists row. auto 10.
Qed.

End ResolverExtras.

(** ** The resolvers on the sample registry *)

Section ResolverFixtures.
Import DomainResolver.

(** X11, witness: the shop's own domain, asked for the legacy path of the
    weather service. *)
Lemma domainResolver_custom_domain_first_witness :
  exists row',
    In row' (rows Fixture.registry)
    /\ custom_domain row' = Some (hostname_of (Sample.legacy_request "api.shop.example"))
    /\ status row' = "verified"
    /\ domainResolver Fixture.registry (Sample.legacy_request "api.shop.example")
         Sample.no_locals
       = Next (mkLocals (Some row') (Some "custom_domain") None).
Proof.
  apply (domainResolver_custom_domain_first Fixture.registry
           (Sample.legacy_request "api.shop.example") Sample.no_locals Sample.shop).
  - reflexivity.
  - reflexivity.
  - right. left. reflexivity.
  - reflexivity.
  - reflexivity.
Defined.

(** X12, witness: the weather service under its managed name, on a port. *)
Lemma domainResolver_subdomain_witness :
  exists row',
    In row' (rows Fixture.registry) /\ slug row' = "weather" /\ status row' = "verified"
    /\ domainResolver Fixture.registry
         (Fixture.request_to "weather.highstation.net:8080" "/v1/today") Sample.no_locals
       = Next (mkLocals (Some row') (Some "subdomain") None).
Proof.
  apply (domainResolver_subdomain Fixture.registry
           (Fixture.request_to "weather.highstation.net:8080" "/v1/today") Sample.no_locals
           "weather" ".highstation.net" ":8080" (Sample.weather "verified")).
  - reflexivity.
  - reflexivity.
  - left. reflexivity.
  - right. eexists. reflexivity.
  - reflexivity.
  - reflexivity.
  - discriminate.
  - reflexivity.
  - intros s [<- | [<- | [<- | []]]] _; discriminate.
  - left. reflexivity.
  - reflexivity.
  - reflexivity.
Defined.

(** X13, witness: the registry holds a verified service of slug www. *)
Lemma domainResolver_www_reserved_witness :
  In Fixture.web (rows Fixture.registry)
  /\ domainResolver Fixture.registry
       (Fixture.request_to "www.highstation.net" "/v1/today") Sample.no_locals
     = Next Sample.no_locals.
Proof.
  split; [right; right; left; reflexivity |].
  apply (domainResolver_www_reserved Fixture.registry
           (Fixture.request_to "www.highstation.net" "/v1/today") Sample.no_locals
           ".highstation.net" "").
  - reflexivity.
  - left. reflexivity.
  - left. reflexivity.
  - intros s [<- | [<- | [<- | []]]] _; discriminate.
  - reflexivity.
Defined.

(** X15, witness: the weather service on its legacy path, through both
    resolvers. *)
Lemma resolvers_compose_witness :
  let resolved :=
    mkLocals (Some (Sample.weather "verified")) (Some "legacy_path") (Some "/v1/today") in
  exists row,
    serviceConfig resolved = Some row /\ In row (rows Fixture.registry)
    /\ ((resolved = resolved /\ status row = "verified"
         /\ serviceSource resolved <> Some "param")
        \/ (resolved = Sample.no_locals /\ serviceSource resolved = Some "param"
            /\ strippedPath resolved = strippedPath Sample.no_locals)).
Proof.
  apply (resolvers_compose Fixture.registry (Sample.legacy_request "gateway.example:8080")
           Sample.no_locals).
  - reflexivity.
  - vm_compute; reflexivity.
  - reflexivity.
Defined.

End ResolverFixtures.

(** ** The probing routes: when they call out, and what they report *)

Section RouteExtras.
Import ServicesRoutes.
Context {network : Network} {codec : JSONCodec}.

(** A probe that did not succeed: it threw, or was answered outside 2xx. *)
Lemma probeLoop_outcome (start : Z) (resolvedIP : string)
    (endpoints : list (string * URL)) (lastStatus : Z) :
  (fst (fst (probeLoop start resolvedIP endpoints lastStatus))
     = List.map probeRequest endpoints
   /\ snd (fst (probeLoop start resolvedIP endpoints lastStatus)) = None
   /\ forall e r, In e endpoints -> fetch (probeRequest e) = Ok r -> ok r = false)
  \/ exists before e after r,
       endpoints = (before ++ e :: after)%list
       /\ fst (fst (probeLoop start resolvedIP endpoints lastStatus))
          = List.map probeRequest (before ++ [e])%list
       /\ (forall e' r', In e' before -> fetch (probeRequest e') = Ok r' -> ok r' = false)
       /\ fetch (probeRequest e) = Ok r /\ ok r = true
       /\ snd (fst (probeLoop start resolvedIP endpoints lastStatus))
          = Some (ProbeSuccess (fetch_status r) (arrived r - start) resolvedIP (peek r)
                    (pathname (snd e))).
Proof.
  revert lastStatus. induction endpoints as [| e rest IH]; intros lastStatus.
  { left. repeat split. intros e r []. }
  cbn [probeLoop].
  destruct (fetch (probeRequest e)) as [probeRes | err] eqn:Hfetch.
  - destruct (ok probeRes) eqn:Hok.
    + right. exists [], e, rest, probeRes. cbn. repeat split; try assumption.
      intros e' r' [].
    + specialize (IH (fetch_status probeRes)).
      destruct (probeLoop start resolvedIP rest (fetch_status probeRes))
        as [[calls found] last].
      cbn [fst snd] in *.
      destruct IH as [(-> & -> & Hall) | (before & e1 & after & r & -> & -> & Hbefore & Hr & Hokr & ->)].
      * left. repeat split. intros e' r' [<- | Hin] He'; [congruence | eauto].
      * right. exists (e :: before), e1, after, r. repeat split; try assumption.
        intros e' r' [<- | Hin] He'; [congruence | eauto].
  - specialize (IH lastStatus).
    destruct (probeLoop start resolvedIP rest lastStatus) as [[calls found] last].
    cbn [fst snd] in *.
    destruct IH as [(-> & -> & Hall) | (before & e1 & after & r & -> & -> & Hbefore & Hr & Hokr & ->)].
    * left. repeat split. intros e' r' [<- | Hin] He'; [congruence | eauto].
    * right. exists (e :: before), e1, after, r. repeat split; try assumption.
      intros e' r' [<- | Hin] He'; [congruence | eauto].
Qed.


(** When every probe failed, the status left in [lastStatus] is that of the
    last probe that was answered, and the initial one if none was. *)
Lemma probeLoop_lastStatus (start : Z) (resolvedIP : string)
    (endpoints : list (string * URL)) (lastStatus : Z) :
  snd (fst (probeLoop start resolvedIP endpoints lastStatus)) = None ->
  (snd (probeLoop start resolvedIP endpoints lastStatus) = lastStatus
   /\ forall e, In e endpoints -> exists err, fetch (probeRequest e) = Throw err)
  \/ exists before e after r,
       endpoints = (before ++ e :: after)%list
       /\ fetch (probeRequest e) = Ok r
       /\ (forall e', In e' after -> exists err, fetch (probeRequest e') = Throw err)
       /\ snd (probeLoop start resolvedIP endpoints lastStatus) = fetch_status r.
Proof.
  revert lastStatus. induction endpoints as [| e rest IH]; intros lastStatus.
  { intros _. left. split; [reflexivity | intros e []]. }
  cbn [probeLoop].
  destruct (fetch (probeRequest e)) as [probeRes | err] eqn:Hfetch.
  - destruct (ok probeRes); [discriminate |].
    specialize (IH (fetch_status probeRes)).
    destruct (probeLoop start resolvedIP rest (fetch_status probeRes))
      as [[calls found] last].
    cbn [fst snd] in *. intros Hnone.
    destruct (IH Hnone) as [(-> & Hall) | (before & e1 & after & r & -> & Hr & Hafter & ->)].
    + right. exists [], e, rest, probeRes. auto.
    + right. exists (e :: before), e1, after, r. auto.
  - specialize (IH lastStatus).
    destruct (probeLoop start resolvedIP rest lastStatus) as [[calls found] last].
    cbn [fst snd] in *. intros Hnone.
    destruct (IH Hnone) as [(-> & Hall) | (before & e1 & after & r & -> & Hr & Hafter & ->)].
    + left. split; [reflexivity |]. intros e' [<- | Hin]; eauto.
    + right. exists (e :: before), e1, after, r. auto.
Qed.

Lemma unique_spec (seen : list string) (endpoints : list (string * URL)) :
  List.NoDup (List.map fst (unique seen endpoints))
  /\ (forall e, In e (unique seen endpoints) -> In e endpoints /\ ~ In (fst e) seen)
  /\ (List.length (unique seen endpoints) <= List.length endpoints)%nat.
Proof.
  revert seen. induction endpoints as [| e rest IH]; intros seen.
  { split; [constructor | split; [intros e [] | reflexivity]]. }
  cbn [unique].
  destruct (existsb (String.eqb (fst e)) seen) eqn:Hseen.
  - destruct (IH seen) as (Hnodup & Hin & Hlen).
    split; [exact Hnodup | split].
    + intros e' He'. apply Hin in He' as [He' Hfresh]. split; [right |]; assumption.
    + cbn [List.length]. lia.
  - destruct (IH (fst e :: seen)) as (Hnodup & Hin & Hlen).
    assert (Hfresh : ~ In (fst e) seen).
    { intros Hmem. apply not_true_iff_false in Hseen. apply Hseen.
      apply existsb_exists. exists (fst e). split; [exact Hmem | apply String.eqb_refl]. }
    split; [| split].
    + cbn [List.map]. constructor; [| exact Hnodup].
      intros Hmem. apply in_map_iff in Hmem as (e' & Heq & He').
      apply Hin in He' as [_ He']. apply He'. left. symmetry. exact Heq.
    + intros e' [<- | He']; [split; [left; reflexivity | exact Hfresh] |].
      apply Hin in He' as [He' Hnot]. split; [right; exact He' |].
      intros Hmem. apply Hnot. right. exact Hmem.
    + cbn [List.length]. lia.
Qed.

Lemma unique_head (e : string * URL) (rest : list (string * URL)) :
  exists others, unique [] (e :: rest) = e :: others.
Proof. cbn. eexists. reflexivity. Qed.

(** The connection test either refuses before any probe, or passes its
    checks and runs the probing loop over the de-duplicated candidates: the
    identity endpoint, the caller's test path if any, the URL itself and the
    two health paths. *)
Lemma testConnection_cases (url testPath : option string) (start : Z) :
  (exists code error, testConnection url testPath start = ([], Failure code error))
  \/ exists u urlObj resolvedIP custom,
       url = Some u /\ u <> "" /\ isSafeUrlSyntax u = true /\ URL_parse u = Ok urlObj
       /\ resolve (hostname urlObj) = Some resolvedIP /\ isBlockedIP resolvedIP = false
       /\ (List.length custom <= 1)%nat
       /\ (JS.truthy_str testPath = false -> custom = [])
       /\ testConnection url testPath start
          = match
              probeLoop start resolvedIP
                (unique []
                   ([(toString (at_path "/.openseal/identity" urlObj),
                      at_path "/.openseal/identity" urlObj)] ++ custom
                    ++ [(u, urlObj);
                        (toString (at_path "/health" urlObj), at_path "/health" urlObj);
                        (toString (at_path "/api/health" urlObj),
                         at_path "/api/health" urlObj)])%list) 0
            with
            | (calls, Some successResult, _) => (calls, successResult)
            | (calls, None, lastStatus) =>
                (calls,
                 ProbeFailure (if (lastStatus =? 0)%Z then 500 else lastStatus)
                   (if (lastStatus =? 404)%Z then "Target path not found (404)"
                    else "Connection failed (Status: " ++ pretty lastStatus ++ ")")
                   resolvedIP)
            end.
Proof.
  unfold testConnection.
  destruct url as [u |]; [| left; eauto]. cbn [JS.truthy_str default from_option Datatypes.id].
  destruct (String.eqb_spec u "") as [-> | Hu]; [left; eauto |]. cbn [negb].
  destruct (isSafeUrlSyntax u) eqn:Hsafe; [| left; eauto]. cbn [negb].
  destruct (URL_parse u) as [urlObj | e] eqn:Hparse; [| left; eauto].
  destruct (resolve (hostname urlObj)) as [resolvedIP |] eqn:Hres; [| left; eauto].
  destruct (isBlockedIP resolvedIP) eqn:Hblocked; [left; eauto |].
  destruct (JS.truthy_str testPath).
  - destruct (URL_resolve _ urlObj) as [target |]; [| left; eauto].
    right. exists u, urlObj, resolvedIP, [(toString target, target)].
    repeat (split; [first [reflexivity | assumption | discriminate | cbn; lia] |]).
    reflexivity.
  - right. exists u, urlObj, resolvedIP, [].
    repeat (split; [first [reflexivity | assumption | cbn; lia] |]). reflexivity.
Qed.


(** X16.  The connection test makes no call at all unless the URL passed
    the syntax check and parsed, its host resolved (or is an address
    literal), and the resolved address is not a blocked one; every call it
    makes is a GET with a five-second timeout. *)
Theorem testConnection_guarded (url testPath : option string) (start : Z) (call : FetchCall) :
  In call (fst (testConnection url testPath start)) ->
  fetch_method call = "GET" /\ timeout_ms call = 5000%Z
  /\ exists u urlObj resolvedIP,
       url = Some u /\ isSafeUrlSyntax u = true /\ URL_parse u = Ok urlObj
       /\ resolve (hostname urlObj) = Some resolvedIP
       /\ isBlockedIP resolvedIP = false.
Proof.
  intros Hin.
  destruct (testConnection_cases url testPath start)
    as [(code & error & Heq) | (u & urlObj & ip & custom & -> & _ & Hsafe & Hparse & Hres
                                 & Hblocked & _ & _ & Heq)];
    rewrite Heq in Hin; [destruct Hin |].
  match type of Hin with
  | In _ (fst (match probeLoop ?s ?i ?es ?l with _ => _ end)) =>
      pose proof (probeLoop_calls s i es l call) as Hloop;
      destruct (probeLoop s i es l) as [[calls [found |]] last]
  end; destruct (Hloop Hin) as (e & _ & ->); cbn; eauto 10.
Qed.

Lemma href_probeRequest (endpoints : list (string * URL)) :
  List.map href (List.map probeRequest endpoints) = List.map fst endpoints.
Proof. induction endpoints as [| e rest IH]; [reflexivity | cbn; rewrite IH; reflexivity]. Qed.

(** The calls of the probing loop: a prefix of the candidates. *)
Lemma probeLoop_prefix (start : Z) (resolvedIP : string)
    (endpoints : list (string * URL)) (lastStatus : Z) :
  exists probed skipped,
    endpoints = (probed ++ skipped)%list
    /\ fst (fst (probeLoop start resolvedIP endpoints lastStatus))
       = List.map probeRequest probed.
Proof.
  destruct (probeLoop_outcome start resolvedIP endpoints lastStatus)
    as [(Hcalls & _) | (before & e & after & r & -> & Hcalls & _)].
  - exists endpoints, []. rewrite app_nil_r. auto.
  - exists (before ++ [e])%list, after. rewrite <- app_assoc. auto.
Qed.

(** X17.  The connection test makes at most five calls, four when no test
    path is given, and never probes the same URL text twice. *)
Theorem testConnection_probes_bounded (url testPath : option string) (start : Z) :
  let calls := fst (testConnection url testPath start) in
  (List.length calls <= 5)%nat
  /\ (JS.truthy_str testPath = false -> (List.length calls <= 4)%nat)
  /\ List.NoDup (List.map href calls).
Proof.
  cbv zeta.
  destruct (testConnection_cases url testPath start)
    as [(code & error & ->) | (u & urlObj & ip & custom & _ & _ & _ & _ & _ & _
                                & Hcustom & Hnone & ->)].
  { cbn. repeat split; try lia. constructor. }
  match goal with
  | |- context [probeLoop ?s ?i (unique [] ?es) ?l] =>
      destruct (probeLoop_prefix s i (unique [] es) l)
        as (probed & skipped & Hsplit & Hcalls);
      destruct (unique_spec [] es) as (Hnodup & _ & Hlen);
      destruct (probeLoop s i (unique [] es) l) as [[calls [found |]] last]
  end;
    cbn [fst] in *; subst calls;
    rewrite Hsplit in Hnodup, Hlen;
    rewrite List.map_app in Hnodup; apply NoDup_app_remove_r in Hnodup;
    rewrite !List.length_app in Hlen; cbn [List.length] in Hlen;
    rewrite List.length_map, href_probeRequest;
    (split; [lia |]);
    (split; [intros Hpath; rewrite (Hnone Hpath) in Hlen; cbn in Hlen; lia | exact Hnodup]).
Qed.


(** X18.  Probing stops at the first answer in the 2xx range: a success
    reply reports the status, latency, identity and path of the last call
    made, that call was answered 2xx, no call before it was, and the address
    it names is the one the URL's host resolved to. *)
Theorem testConnection_first_success
    (url testPath : option string) (start : Z) (calls : list FetchCall)
    (status latency : Z) (ip : string) (identity : option Identity) (probe_path : string) :
  testConnection url testPath start
  = (calls, ProbeSuccess status latency ip identity probe_path) ->
  exists earlier call r,
    calls = (earlier ++ [call])%list
    /\ fetch call = Ok r /\ ok r = true
    /\ status = fetch_status r /\ latency = (arrived r - start)%Z
    /\ identity = peek r /\ probe_path = pathname (target call)
    /\ (forall c r', In c earlier -> fetch c = Ok r' -> ok r' = false)
    /\ exists u urlObj,
         url = Some u /\ URL_parse u = Ok urlObj /\ resolve (hostname urlObj) = Some ip.
Proof.
  intros Hreply.
  destruct (testConnection_cases url testPath start)
    as [(code & error & Heq) | (u & urlObj & resolvedIP & custom & -> & _ & _ & Hparse
                                 & Hres & _ & _ & _ & Heq)];
    rewrite Heq in Hreply; [discriminate |].
  match type of Hreply with
  | match probeLoop ?s ?i ?es ?l with _ => _ end = _ =>
      destruct (probeLoop_outcome s i es l)
        as [(_ & Hnone & _) | (before & e & after & r & _ & Hcalls & Hbefore & Hr & Hok
                               & Hfound)];
      destruct (probeLoop s i es l) as [[calls' found] last]
  end; cbn [fst snd] in *; subst found; [discriminate |].
  injection Hreply as <- <- <- <- <- <-.
  exists (List.map probeRequest before), (probeRequest e), r.
  rewrite Hcalls, List.map_app. repeat (split; [first [reflexivity | assumption] |]).
  split; [| eauto].
  intros c r' Hc Hfetch. apply in_map_iff in Hc as (e' & <- & He'). eauto.
Qed.

(** X19.  When no probe succeeds, every candidate was tried and none was
    answered 2xx; the failure reports the address and the status of the last
    probe that was answered at all, with the message "Target path not found
    (404)" for a 404; when none was answered it reports status 500 and the
    message "Connection failed (Status: 0)". *)
Theorem testConnection_failure_report
    (url testPath : option string) (start : Z) (calls : list FetchCall)
    (status : Z) (error ip : string) :
  testConnection url testPath start = (calls, ProbeFailure status error ip) ->
  calls <> []
  /\ (forall c r, In c calls -> fetch c = Ok r -> ok r = false)
  /\ (((forall c, In c calls -> exists err, fetch c = Throw err)
       /\ status = 500%Z /\ error = "Connection failed (Status: 0)")
      \/ exists earlier c later r,
           calls = (earlier ++ c :: later)%list /\ fetch c = Ok r
           /\ (forall c', In c' later -> exists err, fetch c' = Throw err)
           /\ status = (if (fetch_status r =? 0)%Z then 500%Z else fetch_status r)
           /\ error = (if (fetch_status r =? 404)%Z then "Target path not found (404)"
                       else "Connection failed (Status: " ++ pretty (fetch_status r) ++ ")")).
Proof.
  intros Hreply.
  destruct (testConnection_cases url testPath start)
    as [(code & err & Heq) | (u & urlObj & resolvedIP & custom & _ & _ & _ & _
                               & _ & _ & _ & _ & Heq)];
    rewrite Heq in Hreply; [discriminate |].
  change ([?a] ++ ?l)%list with (a :: l) in Hreply.
  match type of Hreply with
  | match probeLoop ?s ?i (unique [] (?e :: ?es)) ?l with _ => _ end = _ =>
      destruct (unique_head e es) as [others Hhead];
      pose proof (probeLoop_first s i e others l) as Hfirst;
      rewrite <- Hhead in Hfirst;
      pose proof (probeLoop_lastStatus s i (unique [] (e :: es)) l) as Hlast;
      destruct (probeLoop_outcome s i (unique [] (e :: es)) l)
        as [(Hcalls & Hnone & Hall) | (before & e1 & after & r & _ & _ & _ & _ & _ & Hfound)];
      destruct (probeLoop s i (unique [] (e :: es)) l) as [[calls' found] last];
      set (endpoints := unique [] (e :: es)) in *
  end; cbn [fst snd] in *; subst found; [| discriminate].
  injection Hreply as <- <- <- <-.
  destruct Hfirst as [rest Hfirst].
  split; [rewrite Hfirst; discriminate |].
  split.
  { intros c r Hc Hfetch. rewrite Hcalls in Hc.
    apply in_map_iff in Hc as (e' & <- & He'). eauto. }
  destruct (Hlast eq_refl) as [(-> & Hthrow) | (before & e1 & after & r & Hsplit & Hr & Hafter & ->)].
  - left. split; [| split; reflexivity].
    intros c Hc. rewrite Hcalls in Hc. apply in_map_iff in Hc as (e' & <- & He'). eauto.
  - right. exists (List.map probeRequest before), (probeRequest e1),
      (List.map probeRequest after), r.
    rewrite Hcalls, Hsplit, List.map_app. cbn [List.map].
    repeat (split; [first [reflexivity | assumption] |]).
    split; [| split; reflexivity].
    intros c' Hc'. apply in_map_iff in Hc' as (e' & <- & He'). eauto.
Qed.

(** X20.  An identity reported by a successful probe always has a truthy
    [a_hash] and names where it was found: the seal header, or, for a body
    served as application/json only, the identity endpoint format, a wrapped
    response, or a bare hash. *)
Theorem peek_identity (probeRes : FetchResponse) (identity : Identity) :
  peek probeRes = Some identity ->
  JS.truthy (identity_a_hash identity) = true
  /\ (identity_source identity = "header"
      \/ (In (identity_source identity) ["openseal-identity"; "body"; "body-root"]
          /\ JS.includes "application/json"
               (default "" (response_header "content-type" probeRes)) = true)).
Proof.
  unfold peek.
  set (fromHeader :=
         if JS.truthy_str (response_header "X-OpenSeal-Seal" probeRes) then
           match JSON_parse (default "" (response_header "X-OpenSeal-Seal" probeRes)) with
           | Ok parsed =>
               if JS.truthy_opt (JS.get "a_hash" parsed)
               then (λ h, mkIdentity h "header") <$> JS.get "a_hash" parsed
               else None
           | Throw _ => None
           end
         else None).
  assert (Hheader : forall i, fromHeader = Some i ->
            JS.truthy (identity_a_hash i) = true /\ identity_source i = "header").
  { subst fromHeader. intros i.
    destruct (JS.truthy_str _); [| discriminate].
    destruct (JSON_parse _) as [parsed |]; [| discriminate].
    destruct (JS.get "a_hash" parsed) as [h |]; cbn; [| discriminate].
    destruct (JS.truthy h) eqn:Hh; [| discriminate].
    intros [= <-]. auto. }
  destruct fromHeader as [i |] eqn:Hfrom; cbn [JS.truthy_obj negb andb].
  { intros [= <-]. destruct (Hheader i eq_refl). auto. }
  destruct (JS.includes "application/json" _) eqn:Hjson; [| discriminate].
  destruct (JSON_parse (fetch_text probeRes)) as [body |]; [| discriminate].
  assert (Hfound : forall (found : option JSON) (source : string),
            JS.truthy_opt found = true ->
            (λ h, mkIdentity h source) <$> found = Some identity ->
            JS.truthy (identity_a_hash identity) = true /\ identity_source identity = source).
  { intros [h |] source Hh; [| discriminate]. cbn. intros [= <-]. auto. }
  destruct (JS.truthy body); cbn [andb]; [| discriminate].
  destruct (JS.truthy_opt (JS.get "identity" body)
            && JS.truthy_opt (JS.get "identity" body ≫= JS.get "a_hash")) eqn:H1.
  { apply andb_prop in H1 as [_ H1]. intros Heq.
    destruct (Hfound _ _ H1 Heq) as [Hh ->]. split; [exact Hh |]. right. cbn. auto. }
  destruct (JS.truthy_opt (JS.get "openseal" body)
            && JS.truthy_opt (JS.get "openseal" body ≫= JS.get "a_hash")) eqn:H2.
  { apply andb_prop in H2 as [_ H2]. intros Heq.
    destruct (Hfound _ _ H2 Heq) as [Hh ->]. split; [exact Hh |]. right. cbn. auto. }
  destruct (JS.truthy_opt (JS.get "a_hash" body)) eqn:H3; cbn [orb].
  { intros Heq. destruct (Hfound _ _ H3 Heq) as [Hh ->]. split; [exact Hh |].
    right. cbn. auto. }
  destruct (JS.truthy_opt (JS.get "root_hash" body)) eqn:H4; [| discriminate].
  intros Heq. destruct (Hfound _ _ H4 Heq) as [Hh ->]. split; [exact Hh |].
  right. cbn. auto.
Qed.

(** X21.  The ownership check confirms a service only on evidence: the
    caller is authenticated, the service has a verification token, and the
    single call made, to /.well-known/x402-verify.txt at the resolved and
    unblocked address with the original host in its Host header, was answered
    2xx with a body that contains the token. *)
Theorem verify_confirms_only_on_token
    (userId : option string) (service : option ServiceRow) (calls : list FetchCall) :
  verify userId service = (calls, Verified) ->
  exists row token urlObj resolvedIP call response,
    JS.truthy_str userId = true
    /\ service = Some row /\ verification_token row = Some token /\ token <> ""
    /\ URL_parse (service_upstream_url row) = Ok urlObj
    /\ resolve (hostname urlObj) = Some resolvedIP /\ isBlockedIP resolvedIP = false
    /\ calls = [call]
    /\ target call = verificationUrl urlObj resolvedIP
    /\ pinned_to resolvedIP (hostname urlObj) call
    /\ fetch call = Ok response /\ ok response = true
    /\ JS.includes token (fetch_text response) = true.
Proof.
  unfold verify.
  destruct (JS.truthy_str userId) eqn:Huser; cbn [negb]; [| discriminate].
  destruct service as [row |]; [| discriminate].
  destruct (verification_token row) as [token |] eqn:Htoken; cbn [JS.truthy_str negb];
    [| discriminate].
  destruct (String.eqb_spec token "") as [-> | Hne]; cbn [negb]; [discriminate |].
  destruct (URL_parse (service_upstream_url row)) as [urlObj |] eqn:Hparse; [| discriminate].
  destruct (resolve (hostname urlObj)) as [resolvedIP |] eqn:Hres; [| discriminate].
  destruct (isBlockedIP resolvedIP) eqn:Hblocked; [discriminate |].
  cbv zeta.
  destruct (fetch _) as [response |] eqn:Hfetch; [| discriminate].
  destruct (ok response) eqn:Hok; cbn [negb]; [| discriminate].
  cbn [default from_option Datatypes.id].
  destruct (JS.includes token (fetch_text response)) eqn:Hincl; cbn [negb]; [| discriminate].
  intros [= <-].
  eexists row, token, urlObj, resolvedIP, _, response.
  repeat (split; [first [reflexivity | assumption] |]).
  split; [| split; [exact Hfetch | split; [exact Hok | exact Hincl]]].
  split; [reflexivity | right; left; reflexivity].
Qed.

End RouteExtras.

(** ** The probing routes on sample providers *)

Section RouteFixtures.
Import ServicesRoutes.

(** X16, witness: the first probe of the sample provider. *)
Lemma testConnection_guarded_witness :
  let call :=
    probeRequest
      ("http://example.com/.openseal/identity",
       at_path "/.openseal/identity" Standin.example_com) in
  fetch_method call = "GET" /\ timeout_ms call = 5000%Z
  /\ exists u urlObj resolvedIP,
       Some "http://example.com/" = Some u
       /\ isSafeUrlSyntax (Network := Fixture.network Fixture.serving) u = true
       /\ URL_parse (Network := Fixture.network Fixture.serving) u = Ok urlObj
       /\ resolve (network := Fixture.network Fixture.serving) (hostname urlObj)
          = Some resolvedIP
       /\ isBlockedIP (Network := Fixture.network Fixture.serving) resolvedIP = false.
Proof.
  cbv zeta.
  apply (testConnection_guarded (network := Fixture.network Fixture.serving)
           (codec := Fixture.json) (Some "http://example.com/") None 0).
  vm_compute. left. reflexivity.
Defined.

(** X18, witness: the identity endpoint answers 404, the root answers 200
    with a sealed body. *)
Lemma testConnection_first_success_witness :
  exists earlier call r,
    [probeRequest ("http://example.com/.openseal/identity",
                   at_path "/.openseal/identity" Standin.example_com);
     probeRequest ("http://example.com/", Standin.example_com)]
    = (earlier ++ [call])%list
    /\ fetch (Network := Fixture.network Fixture.serving) call = Ok r /\ ok r = true
    /\ 200%Z = fetch_status r /\ 19%Z = (arrived r - 0)%Z
    /\ Some (mkIdentity (JStr Sample.a_hash) "body") = peek (codec := Fixture.json) r
    /\ "/" = pathname (target call)
    /\ (forall c r', In c earlier ->
          fetch (Network := Fixture.network Fixture.serving) c = Ok r' -> ok r' = false)
    /\ exists u urlObj,
         Some "http://example.com/" = Some u
         /\ URL_parse (Network := Fixture.network Fixture.serving) u = Ok urlObj
         /\ resolve (network := Fixture.network Fixture.serving) (hostname urlObj)
            = Some "93.184.216.34".
Proof.
  apply (testConnection_first_success (network := Fixture.network Fixture.serving)
           (codec := Fixture.json) (Some "http://example.com/") None 0).
  vm_compute. reflexivity.
Defined.

(** X19, witness: only the identity endpoint answers, with 404. *)
Lemma testConnection_failure_report_witness :
  exists calls,
    testConnection (network := Fixture.network Fixture.failing) (codec := Fixture.json)
      (Some "http://example.com/") None 0
    = (calls, ProbeFailure 404 "Target path not found (404)" "93.184.216.34")
    /\ calls <> []
    /\ forall c r, In c calls ->
         fetch (Network := Fixture.network Fixture.failing) c = Ok r -> ok r = false.
Proof.
  eexists. split; [vm_compute; reflexivity |].
  pose proof (testConnection_failure_report (network := Fixture.network Fixture.failing)
                (codec := Fixture.json) (Some "http://example.com/") None 0 _ _ _ _ eq_refl)
    as (Hcalls & Hall & _).
  split; [exact Hcalls | exact Hall].
Defined.

(** X20, witness: the sealed body of the sample provider's root. *)
Lemma peek_identity_witness :
  let probeRes :=
    mkFetchResponse 200 {[ "content-type" := "application/json" ]}
      (Fixture.print Fixture.wrapper_json) 19 in
  let identity := mkIdentity (JStr Sample.a_hash) "body" in
  JS.truthy (identity_a_hash identity) = true
  /\ (identity_source identity = "header"
      \/ (In (identity_source identity) ["openseal-identity"; "body"; "body-root"]
          /\ JS.includes "application/json"
               (default "" (response_header "content-type" probeRes)) = true)).
Proof.
  cbv zeta.
  apply (peek_identity (codec := Fixture.json)
           (mkFetchResponse 200 {[ "content-type" := "application/json" ]}
              (Fixture.print Fixture.wrapper_json) 19)
           (mkIdentity (JStr Sample.a_hash) "body")).
  vm_compute. reflexivity.
Defined.

(** X21, witness: the sample provider serves its token. *)
Lemma verify_confirms_only_on_token_witness :
  exists row token urlObj resolvedIP call response,
    JS.truthy_str (Some "user-1") = true
    /\ Some Fixture.weather_row = Some row
    /\ verification_token row = Some token /\ token <> ""
    /\ URL_parse (Network := Fixture.network Fixture.serving) (service_upstream_url row)
       = Ok urlObj
    /\ resolve (network := Fixture.network Fixture.serving) (hostname urlObj)
       = Some resolvedIP
    /\ isBlockedIP (Network := Fixture.network Fixture.serving) resolvedIP = false
    /\ [mkFetchCall "http://93.184.216.34/.well-known/x402-verify.txt"
          (verificationUrl Standin.example_com "93.184.216.34") "GET"
          [("User-Agent", "highstation-bot/1.0"); ("Host", "example.com")] 5000]
       = [call]
    /\ target call = verificationUrl urlObj resolvedIP
    /\ pinned_to resolvedIP (hostname urlObj) call
    /\ fetch (Network := Fixture.network Fixture.serving) call = Ok response
    /\ ok response = true
    /\ JS.includes token (fetch_text response) = true.
Proof.
  apply (verify_confirms_only_on_token (network := Fixture.network Fixture.serving)
           (Some "user-1") (Some Fixture.weather_row)).
  vm_compute. reflexivity.
Defined.

End RouteFixtures.

(** ** The CLI verifier: verdicts, reports and the temporary file *)

Section CliExtras.
Import OpensealVerifier OpensealCli.
Context {host : Host} {noble : Noble} {codec : JSONCodec}.

Lemma cleanup_removes (tempFilePath : string) (disk : Disk) :
  tempFilePath ∉ unremovable disk ->
  cleanup tempFilePath disk
  = (Ok tt, mkDisk (delete tempFilePath (files disk)) (unwritable disk) (unremovable disk)).
Proof.
  intros Hfree. unfold cleanup, unlinkSync.
  destruct (existsSync tempFilePath disk) eqn:Hexists.
  - rewrite bool_decide_eq_false_2 by exact Hfree. reflexivity.
  - unfold existsSync in Hexists. apply bool_decide_eq_false in Hexists.
    rewrite delete_id; [destruct disk; reflexivity |].
    destruct (files disk !! tempFilePath) eqn:Hfile; [| reflexivity].
    exfalso. apply Hexists. eauto.
Qed.

Lemma cleanup_gone (tempFilePath : string) (disk : Disk) :
  existsSync tempFilePath
    (mkDisk (delete tempFilePath (files disk)) (unwritable disk) (unremovable disk)) = false.
Proof.
  unfold existsSync. cbn. rewrite lookup_delete_eq. apply bool_decide_eq_false.
  intros [? ?]. discriminate.
Qed.

(** The arguments handed to the binary. *)
Lemma args_root_hash (tempFilePath wax : string) (expectedRootHash : option string) :
  (if JS.truthy_str expectedRootHash
   then (["verify"; "--response"; tempFilePath; "--wax"; wax]
           ++ ["--root-hash"; default "" expectedRootHash])%list
   else ["verify"; "--response"; tempFilePath; "--wax"; wax])
  = (["verify"; "--response"; tempFilePath; "--wax"; wax]
       ++ (if JS.truthy_str expectedRootHash
           then ["--root-hash"; default "" expectedRootHash] else []))%list.
Proof. destruct (JS.truthy_str expectedRootHash); reflexivity. Qed.

(** The [try] block once the binary has run and the file could be written
    and removed. *)
Lemma verifyWithCli_try_ran (binaryPath : string) (response : OpenSealResponse)
    (wax : string) (expectedRootHash : option string) (tempFilePath : string)
    (disk after : Disk) (ran : SpawnResult) :
  let args :=
    (["verify"; "--response"; tempFilePath; "--wax"; wax]
       ++ (if JS.truthy_str expectedRootHash
           then ["--root-hash"; default "" expectedRootHash] else []))%list in
  let written :=
    mkDisk (<[tempFilePath := stringify_response response]> (files disk))
      (unwritable disk) (unremovable disk) in
  let final :=
    mkDisk (delete tempFilePath (files after)) (unwritable after) (unremovable after) in
  tempFilePath ∉ unwritable disk ->
  spawnSync binaryPath args written = (Ok ran, after) ->
  tempFilePath ∉ unremovable after ->
  verifyWithCli_try binaryPath response wax expectedRootHash tempFilePath disk
  = if bool_decide (exit_status ran = Some 0%Z) then
      (Ok (mkResult true true true "✅ SEAL VALID (CLI Verified)"), final)
    else
      match stdout ran with
      | None => (Throw (null_property_error "match"), final)
      | Some output =>
          (Ok (mkResult false
                 (JS.includes "Signature Valid: ✅" output)
                 (JS.includes "Identity Valid:  ✅" output)
                 ("CLI Error: "
                    ++ match resultMatch output with
                       | Some captured => captured
                       | None =>
                           DomainResolver.or_else (concat_null output (stderr ran))
                             "Verification failed (CLI)"
                       end)),
           final)
      end.
Proof.
  intros args written final Hwritable Hspawn Hremovable.
  unfold verifyWithCli_try, writeFileSync.
  rewrite bool_decide_eq_false_2 by exact Hwritable.
  rewrite args_root_hash. fold args. fold written. rewrite Hspawn.
  rewrite (cleanup_removes tempFilePath after Hremovable). fold final.
  destruct (bool_decide (exit_status ran = Some 0%Z)); [reflexivity |].
  destruct (stdout ran); reflexivity.
Qed.

(** X22.  With the binary installed, the exit code alone decides: provided
    the temporary file can be written and removed and the binary runs,
    [verify] returns a result, and it is valid exactly when the binary exits
    with 0, whatever the envelope holds.  The binary is given the path of a
    file holding the serialised envelope, the nonce and, when one is
    expected, the root hash; afterwards that file is gone and the disk is
    otherwise as the binary left it. *)
Theorem verify_cli_exit_code_decides
    (now : Z) (response : OpenSealResponse) (wax : string)
    (expectedRootHash : option string) (disk after : Disk) (ran : SpawnResult) :
  let binaryPath := path_join [cwd; "bin"; "openseal"] in
  let tempFilePath := path_join [cwd; "temp_response_" ++ pretty now ++ ".json"] in
  let args :=
    (["verify"; "--response"; tempFilePath; "--wax"; wax]
       ++ (if JS.truthy_str expectedRootHash
           then ["--root-hash"; default "" expectedRootHash] else []))%list in
  let written :=
    mkDisk (<[tempFilePath := stringify_response response]> (files disk))
      (unwritable disk) (unremovable disk) in
  existsSync binaryPath disk = true ->
  tempFilePath ∉ unwritable disk ->
  spawnSync binaryPath args written = (Ok ran, after) ->
  tempFilePath ∉ unremovable after ->
  exists r final,
    verify now response wax expectedRootHash disk = (Ok r, final)
    /\ (valid r = true <-> exit_status ran = Some 0%Z)
    /\ (valid r = true -> r = mkResult true true true "✅ SEAL VALID (CLI Verified)")
    /\ existsSync tempFilePath final = false
    /\ files final = delete tempFilePath (files after).
Proof.
  intros binaryPath tempFilePath args written Hbinary Hwritable Hspawn Hremovable.
  unfold verify. fold binaryPath. rewrite Hbinary. unfold verifyWithCli. fold tempFilePath.
  rewrite (verifyWithCli_try_ran binaryPath response wax expectedRootHash tempFilePath
             disk after ran Hwritable Hspawn Hremovable).
  destruct (bool_decide (exit_status ran = Some 0%Z)) eqn:Hexit.
  - apply bool_decide_eq_true in Hexit.
    eexists _, _. split; [reflexivity |]. cbn [valid].
    split; [tauto |]. split; [reflexivity |]. split; [apply cleanup_gone | reflexivity].
  - apply bool_decide_eq_false in Hexit.
    destruct (stdout ran) as [output |].
    + eexists _, _. split; [reflexivity |]. cbn [valid].
      split; [split; [discriminate | contradiction] |].
      split; [discriminate |]. split; [apply cleanup_gone | reflexivity].
    + rewrite cleanup_removes by exact Hremovable.
      eexists _, _. split; [reflexivity |]. cbn [valid].
      split; [split; [discriminate | contradiction] |].
      split; [discriminate |]. split; [apply cleanup_gone |].
      cbn. apply delete_id. apply lookup_delete_eq.
Qed.


Lemma append_assoc (x y z : string) : (x ++ y) ++ z = x ++ y ++ z.
Proof.
  induction x as [| c x IH]; [reflexivity |].
  rewrite !append_cons, IH. reflexivity.
Qed.

Lemma prefix_nil (s : string) : String.prefix "" s = true.
Proof. destruct s; reflexivity. Qed.

(** A prefix test reads no further than the length of the prefix. *)
Lemma prefix_extend (n x y : string) :
  (String.length n <= String.length x)%nat ->
  String.prefix n (x ++ y) = String.prefix n x.
Proof.
  revert x. induction n as [| a n IH]; intros x Hlen.
  { rewrite !prefix_nil. reflexivity. }
  destruct x as [| b x]; [cbn in Hlen; lia |].
  rewrite append_cons. cbn [String.prefix].
  destruct (ascii_dec a b); [| reflexivity].
  apply IH. cbn in Hlen. lia.
Qed.

Lemma strip_prefix_none (p s : string) :
  String.prefix p s = false -> DomainResolver.strip_prefix p s = None.
Proof.
  revert s. induction p as [| a p IH]; intros s.
  { rewrite prefix_nil. discriminate. }
  destruct s as [| b s]; [reflexivity |].
  cbn [String.prefix DomainResolver.strip_prefix].
  destruct (ascii_dec a b) as [<- | Hne].
  - rewrite Ascii.eqb_refl. apply IH.
  - intros _. destruct (Ascii.eqb_spec a b); [contradiction | reflexivity].
Qed.

Lemma after_first_unfold (needle s : string) :
  after_first needle s
  = match DomainResolver.strip_prefix needle s with
    | Some rest => Some rest
    | None =>
        match s with
        | EmptyString => None
        | String _ s' => after_first needle s'
        end
    end.
Proof. destruct s; reflexivity. Qed.

Lemma after_first_none (needle s : string) :
  JS.includes needle s = false -> after_first needle s = None.
Proof.
  induction s as [| c s IH]; cbn [JS.includes]; intros Hs;
    apply orb_false_elim in Hs as [Hhere Hlater];
    rewrite after_first_unfold, (strip_prefix_none _ _ Hhere); [reflexivity |].
  apply IH. exact Hlater.
Qed.

(** The leftmost occurrence: [needle], whose last character is [c], occurs
    after [before] and not earlier. *)
Lemma after_first_app (needle stem : string) (c : ascii) (before rest : string) :
  needle = stem ++ String c "" ->
  JS.includes needle (before ++ stem) = false ->
  after_first needle (before ++ needle ++ rest) = Some rest.
Proof.
  intros Hneedle. induction before as [| b before IH]; intros Hnone.
  - change ("" ++ needle ++ rest) with (needle ++ rest).
    rewrite after_first_unfold, strip_prefix_app. reflexivity.
  - rewrite append_cons in Hnone |- *. cbn [JS.includes] in Hnone.
    apply orb_false_elim in Hnone as [Hhere Hlater].
    rewrite after_first_unfold.
    rewrite strip_prefix_none; [apply IH; exact Hlater |].
    assert (Hsplit : String b (before ++ needle ++ rest)
                     = String b (before ++ stem) ++ String c rest).
    { rewrite append_cons, append_assoc, Hneedle, (append_assoc stem). reflexivity. }
    rewrite Hsplit, <- Hhere. apply prefix_extend.
    rewrite Hneedle. cbn [String.length]. rewrite !length_append. cbn. lia.
Qed.

Lemma terminator_cases (t : string) :
  In t line_terminators ->
  t = String "010" "" \/ t = String "013" ""
  \/ t = String "226" (String "128" (String "168" ""))
  \/ t = String "226" (String "128" (String "169" "")).
Proof. cbn. intuition auto. Qed.

(** A group of [.] takes a text free of line terminators up to the
    terminator, or the end, that follows it. *)
Lemma up_to_line_end_app (reason rest : string) :
  (forall t, In t line_terminators -> JS.includes t reason = false) ->
  rest = "" \/ (exists t, In t line_terminators /\ String.prefix t rest = true) ->
  up_to_line_end (reason ++ rest) = reason.
Proof.
  intros Hfree Hrest. induction reason as [| c reason IH].
  - change ("" ++ rest) with rest. destruct Hrest as [-> | (t & Ht & Hprefix)]; [reflexivity |].
    destruct rest as [| d rest]; [reflexivity |]. cbn [up_to_line_end].
    replace (existsb _ line_terminators) with true; [reflexivity |].
    symmetry. apply existsb_exists. eauto.
  - rewrite append_cons. cbn [up_to_line_end].
    replace (existsb _ line_terminators) with false.
    { rewrite IH; [reflexivity |].
      intros t Ht. specialize (Hfree t Ht). cbn [JS.includes] in Hfree.
      apply orb_false_elim in Hfree as [_ Hfree]. exact Hfree. }
    symmetry. apply not_true_iff_false. intros Hsome.
    apply existsb_exists in Hsome as (t & Ht & Hprefix).
    pose proof (Hfree t Ht) as Hnot. cbn [JS.includes] in Hnot.
    apply orb_false_elim in Hnot as [Hhere Hlater].
    assert (Hstart : forall d tail t', In t' line_terminators ->
              String.prefix t' (String d tail) = true ->
              d = "010"%char \/ d = "013"%char \/ d = "226"%char).
    { intros d tail t' Ht' Hp. apply terminator_cases in Ht'.
      destruct Ht' as [-> | [-> | [-> | ->]]]; cbn [String.prefix] in Hp;
        destruct (ascii_dec _ d) as [<- | _]; try discriminate; auto. }
    apply terminator_cases in Ht.
    destruct Ht as [-> | [-> | [-> | ->]]]; cbn [String.prefix] in Hprefix, Hhere;
      destruct (ascii_dec _ c) as [<- | _]; try discriminate;
      try (rewrite prefix_nil in Hhere; discriminate).
    all: destruct reason as [| d reason];
      [ change ("" ++ rest) with rest in Hprefix;
        destruct Hrest as [-> | (t' & Ht' & Hp')]; [discriminate |];
        destruct rest as [| e rest]; [discriminate |];
        destruct (Hstart e rest t' Ht' Hp') as [-> | [-> | ->]]; discriminate
      | rewrite append_cons in Hprefix; cbn [String.prefix] in Hprefix, Hhere;
        destruct (ascii_dec _ d) as [<- | _]; try discriminate ].
    all: destruct reason as [| e reason];
      [ change ("" ++ rest) with rest in Hprefix;
        destruct Hrest as [-> | (t' & Ht' & Hp')]; [discriminate |];
        destruct rest as [| e rest]; [discriminate |];
        destruct (Hstart e rest t' Ht' Hp') as [-> | [-> | ->]]; discriminate
      | rewrite append_cons in Hprefix; cbn [String.prefix] in Hprefix, Hhere;
        destruct (ascii_dec _ e) as [<- | _]; try discriminate;
        rewrite prefix_nil in Hhere; discriminate ].
Qed.


(** X23.  When the binary exits with another code, the result is invalid
    and read off its output: the two flags tell whether the output contains
    the lines "Signature Valid: ✅" and "Identity Valid:  ✅", and the message
    is "CLI Error: " followed by what follows the first "Result: " up to the
    end of that line; without a "Result: " it is followed by the whole output
    and error output, or by "Verification failed (CLI)" when both are
    empty. *)
Theorem verifyWithCli_rejection_report
    (now : Z) (binaryPath : string) (response : OpenSealResponse) (wax : string)
    (expectedRootHash : option string) (disk after : Disk) (ran : SpawnResult)
    (output : string) :
  let tempFilePath := path_join [cwd; "temp_response_" ++ pretty now ++ ".json"] in
  let args :=
    (["verify"; "--response"; tempFilePath; "--wax"; wax]
       ++ (if JS.truthy_str expectedRootHash
           then ["--root-hash"; default "" expectedRootHash] else []))%list in
  let written :=
    mkDisk (<[tempFilePath := stringify_response response]> (files disk))
      (unwritable disk) (unremovable disk) in
  tempFilePath ∉ unwritable disk ->
  spawnSync binaryPath args written = (Ok ran, after) ->
  tempFilePath ∉ unremovable after ->
  exit_status ran <> Some 0%Z -> stdout ran = Some output ->
  exists r final,
    verifyWithCli now binaryPath response wax expectedRootHash disk = (Ok r, final)
    /\ valid r = false
    /\ signatureVerified r = JS.includes "Signature Valid: ✅" output
    /\ identityVerified r = JS.includes "Identity Valid:  ✅" output
    /\ (forall before reason rest,
          output = before ++ "Result: " ++ reason ++ rest ->
          JS.includes "Result: " (before ++ "Result:") = false ->
          (forall t, In t line_terminators -> JS.includes t reason = false) ->
          rest = "" \/ (exists t, In t line_terminators /\ String.prefix t rest = true) ->
          message r = "CLI Error: " ++ reason)
    /\ (JS.includes "Result: " output = false ->
        message r
        = "CLI Error: "
            ++ (if String.eqb (output ++ default "null" (stderr ran)) ""
                then "Verification failed (CLI)"
                else output ++ default "null" (stderr ran))).
Proof.
  intros tempFilePath args written Hwritable Hspawn Hremovable Hexit Hout.
  unfold verifyWithCli. fold tempFilePath.
  rewrite (verifyWithCli_try_ran binaryPath response wax expectedRootHash tempFilePath
             disk after ran Hwritable Hspawn Hremovable).
  rewrite bool_decide_eq_false_2 by exact Hexit. rewrite Hout.
  eexists _, _. split; [reflexivity |]. cbn [valid signatureVerified identityVerified message].
  repeat (split; [reflexivity |]). split.
  - intros before reason rest -> Hfirst Hfree Hrest. unfold resultMatch.
    rewrite (after_first_app "Result: " "Result:" " " before (reason ++ rest) eq_refl Hfirst).
    cbn [fmap option_fmap option_map]. rewrite (up_to_line_end_app reason rest Hfree Hrest).
    reflexivity.
  - intros Hnone. unfold resultMatch. rewrite (after_first_none _ _ Hnone). reflexivity.
Qed.

(** X24.  What cannot be run is reported, not thrown: when the process
    could not be started, so that there is no output, the result is invalid
    with both flags false and the message "CLI Spawn Error: " followed by the
    message of the [TypeError] raised on reading the output; when the
    temporary file cannot be written, the binary is not run at all, the disk
    stays as it was, and the message is that of the file system's error. *)
Theorem verifyWithCli_spawn_error
    (now : Z) (binaryPath : string) (response : OpenSealResponse) (wax : string)
    (expectedRootHash : option string) (disk : Disk) :
  let tempFilePath := path_join [cwd; "temp_response_" ++ pretty now ++ ".json"] in
  let args :=
    (["verify"; "--response"; tempFilePath; "--wax"; wax]
       ++ (if JS.truthy_str expectedRootHash
           then ["--root-hash"; default "" expectedRootHash] else []))%list in
  let written :=
    mkDisk (<[tempFilePath := stringify_response response]> (files disk))
      (unwritable disk) (unremovable disk) in
  let reported (e : Error) :=
    Ok (mkResult false false false ("CLI Spawn Error: " ++ error_message e)) in
  (forall ran after,
     tempFilePath ∉ unwritable disk ->
     spawnSync binaryPath args written = (Ok ran, after) ->
     tempFilePath ∉ unremovable after ->
     stdout ran = None -> exit_status ran <> Some 0%Z ->
     fst (verifyWithCli now binaryPath response wax expectedRootHash disk)
     = reported (null_property_error "match"))
  /\ (tempFilePath ∈ unwritable disk -> existsSync tempFilePath disk = false ->
      verifyWithCli now binaryPath response wax expectedRootHash disk
      = (reported (fs_error "open" tempFilePath), disk)).
Proof.
  intros tempFilePath args written reported. split.
  - intros ran after Hwritable Hspawn Hremovable Hout Hexit.
    unfold verifyWithCli. fold tempFilePath.
    rewrite (verifyWithCli_try_ran binaryPath response wax expectedRootHash tempFilePath
               disk after ran Hwritable Hspawn Hremovable).
    rewrite bool_decide_eq_false_2 by exact Hexit. rewrite Hout.
    rewrite cleanup_removes by exact Hremovable. reflexivity.
  - intros Hlocked Hnew. unfold verifyWithCli. fold tempFilePath.
    unfold verifyWithCli_try, writeFileSync.
    rewrite bool_decide_eq_true_2 by exact Hlocked.
    unfold cleanup. rewrite Hnew. reflexivity.
Qed.

(** X25.  [verify] throws when the temporary file cannot be removed: with
    the binary installed and run, a file that is still there and resists
    removal makes the cleanup throw, in the [try] block and again in the
    [catch] block, and that error leaves [verify], even when the binary has
    accepted the seal. *)
Theorem verify_cleanup_throws
    (now : Z) (response : OpenSealResponse) (wax : string)
    (expectedRootHash : option string) (disk after : Disk) (ran : SpawnResult) :
  let binaryPath := path_join [cwd; "bin"; "openseal"] in
  let tempFilePath := path_join [cwd; "temp_response_" ++ pretty now ++ ".json"] in
  let args :=
    (["verify"; "--response"; tempFilePath; "--wax"; wax]
       ++ (if JS.truthy_str expectedRootHash
           then ["--root-hash"; default "" expectedRootHash] else []))%list in
  let written :=
    mkDisk (<[tempFilePath := stringify_response response]> (files disk))
      (unwritable disk) (unremovable disk) in
  existsSync binaryPath disk = true ->
  tempFilePath ∉ unwritable disk ->
  spawnSync binaryPath args written = (Ok ran, after) ->
  existsSync tempFilePath after = true -> tempFilePath ∈ unremovable after ->
  verify now response wax expectedRootHash disk
  = (Throw (fs_error "unlink" tempFilePath), after).
Proof.
  intros binaryPath tempFilePath args written Hbinary Hwritable Hspawn Hthere Hstuck.
  unfold verify. fold binaryPath. rewrite Hbinary. unfold verifyWithCli. fold tempFilePath.
  unfold verifyWithCli_try, writeFileSync.
  rewrite bool_decide_eq_false_2 by exact Hwritable.
  rewrite args_root_hash. fold args. fold written. rewrite Hspawn.
  unfold cleanup, unlinkSync. rewrite Hthere.
  rewrite bool_decide_eq_true_2 by exact Hstuck. cbn [orb].
  rewrite Hthere. rewrite bool_decide_eq_true_2 by exact Hstuck. reflexivity.
Qed.

(** X26.  Without the binary, [verify] is the native verifier: it returns a
    result and never throws, that result is the one of [verifyNative], no
    process is started and the disk is left as it was. *)
Theorem verify_native_fallback
    (now : Z) (response : OpenSealResponse) (wax : string)
    (expectedRootHash : option string) (disk : Disk) :
  existsSync (path_join [cwd; "bin"; "openseal"]) disk = false ->
  exists r,
    verify now response wax expectedRootHash disk = (Ok r, disk)
    /\ outcome (verifyNative response wax expectedRootHash) = Ok r.
Proof.
  intros Hbinary. unfold verify. rewrite Hbinary.
  unfold verifyNative, outcome.
  destruct (verifyNative_try response wax expectedRootHash) as [t [v | e]]; cbn; eauto.
Qed.

End CliExtras.

(** ** The CLI verifier on a sample installation *)

Section CliFixtures.
Import OpensealVerifier OpensealCli.

Lemma sample_paths (spawn : string -> list string -> Disk -> Exc SpawnResult * Disk) :
  path_join (Host := Fixture.host spawn)
    [cwd (Host := Fixture.host spawn); "temp_response_" ++ pretty 1700000000000%Z ++ ".json"]
  = Fixture.temp.
Proof. vm_compute. reflexivity. Qed.

(** X22, witness: the sample binary accepts the envelope of an honest
    provider. *)
Lemma verify_cli_exit_code_decides_witness :
  let host := Fixture.host (Fixture.cli Sample.a_hash) in
  let tempFilePath :=
    path_join (Host := host)
      [cwd (Host := host); "temp_response_" ++ pretty 1700000000000%Z ++ ".json"] in
  let after :=
    mkDisk (<[Fixture.temp := stringify_response (Host := host) (Sample.sealed (JStr "42"))]>
              (files Fixture.installed)) ∅ ∅ in
  let ran :=
    mkSpawnResult
      (Some ("Signature Valid: ✅" ++ Fixture.nl ++ "Identity Valid:  ✅" ++ Fixture.nl
             ++ "Result: SEAL VALID" ++ Fixture.nl))
      (Some "") (Some 0%Z) in
  exists r final,
    verify (host := host) (noble := Standin.noble) (codec := Fixture.json)
      1700000000000 (Sample.sealed (JStr "42")) Sample.wax (Some Sample.root)
      Fixture.installed = (Ok r, final)
    /\ (valid r = true <-> exit_status ran = Some 0%Z)
    /\ (valid r = true -> r = mkResult true true true "✅ SEAL VALID (CLI Verified)")
    /\ existsSync tempFilePath final = false
    /\ files final = delete tempFilePath (files after).
Proof.
  cbv zeta.
  apply (verify_cli_exit_code_decides
           (host := Fixture.host (Fixture.cli Sample.a_hash)) (noble := Standin.noble)
           (codec := Fixture.json) 1700000000000 (Sample.sealed (JStr "42")) Sample.wax
           (Some Sample.root) Fixture.installed).
  - vm_compute. reflexivity.
  - rewrite sample_paths. apply not_elem_of_empty.
  - vm_compute. reflexivity.
  - rewrite sample_paths. apply not_elem_of_empty.
Defined.

(** X23, witness: the sample binary turns down an envelope that reports
    another identity. *)
Lemma verifyWithCli_rejection_report_witness :
  let host := Fixture.host (Fixture.cli Sample.a_hash) in
  let forged :=
    mkResponse (Some (JStr "42"))
      (Some (mkOpenSeal (Some "5e41") (Some Sample.pub_key) (Some "f00d") (Some "b0b0"))) in
  exists r final,
    verifyWithCli (host := host) 1700000000000 "/srv/highstation/bin/openseal" forged
      Sample.wax (Some Sample.root) Fixture.installed = (Ok r, final)
    /\ valid r = false /\ signatureVerified r = true /\ identityVerified r = false
    /\ message r = "CLI Error: Identity Mismatch".
Proof.
  cbv zeta.
  destruct (verifyWithCli_rejection_report
              (host := Fixture.host (Fixture.cli Sample.a_hash))
              1700000000000 "/srv/highstation/bin/openseal"
              (mkResponse (Some (JStr "42"))
                 (Some (mkOpenSeal (Some "5e41") (Some Sample.pub_key) (Some "f00d")
                          (Some "b0b0"))))
              Sample.wax (Some Sample.root) Fixture.installed
              (mkDisk (<[Fixture.temp :=
                           stringify_response
                             (Host := Fixture.host (Fixture.cli Sample.a_hash))
                             (mkResponse (Some (JStr "42"))
                                (Some (mkOpenSeal (Some "5e41") (Some Sample.pub_key)
                                         (Some "f00d") (Some "b0b0"))))]>
                         (files Fixture.installed)) ∅ ∅)
              (mkSpawnResult
                 (Some ("Signature Valid: ✅" ++ Fixture.nl ++ "Identity Valid:  ❌"
                        ++ Fixture.nl ++ "Result: Identity Mismatch" ++ Fixture.nl))
                 (Some "") (Some 1%Z))
              ("Signature Valid: ✅" ++ Fixture.nl ++ "Identity Valid:  ❌"
               ++ Fixture.nl ++ "Result: Identity Mismatch" ++ Fixture.nl))
    as (r & final & Hrun & Hvalid & Hsig & Hid & Hreason & _).
  - rewrite sample_paths. apply not_elem_of_empty.
  - vm_compute. reflexivity.
  - rewrite sample_paths. apply not_elem_of_empty.
  - discriminate.
  - reflexivity.
  - exists r, final. split; [exact Hrun |]. split; [exact Hvalid |].
    split; [rewrite Hsig; vm_compute; reflexivity |].
    split; [rewrite Hid; vm_compute; reflexivity |].
    apply (Hreason ("Signature Valid: ✅" ++ Fixture.nl ++ "Identity Valid:  ❌" ++ Fixture.nl)
             "Identity Mismatch" Fixture.nl).
    + vm_compute. reflexivity.
    + vm_compute. reflexivity.
    + intros t Ht. apply terminator_cases in Ht.
      destruct Ht as [-> | [-> | [-> | ->]]]; vm_compute; reflexivity.
    + right. exists Fixture.nl. split; [left; reflexivity | reflexivity].
Defined.

(** X24, witness: a file in place of the binary that cannot be executed,
    and a working directory that takes no file. *)
Lemma verifyWithCli_spawn_error_witness :
  fst (verifyWithCli (host := Fixture.host Fixture.not_executable) 1700000000000
         "/srv/highstation/bin/openseal" (Sample.sealed (JStr "42")) Sample.wax
         (Some Sample.root) Fixture.installed)
  = Ok (mkResult false false false
          "CLI Spawn Error: Cannot read properties of undefined (reading 'match')")
  /\ verifyWithCli (host := Fixture.host (Fixture.cli Sample.a_hash)) 1700000000000
       "/srv/highstation/bin/openseal" (Sample.sealed (JStr "42")) Sample.wax
       (Some Sample.root) Fixture.full
     = (Ok (mkResult false false false
              ("CLI Spawn Error: EACCES: permission denied, open '" ++ Fixture.temp ++ "'")),
        Fixture.full).
Proof.
  split.
  - apply (proj1 (verifyWithCli_spawn_error
                    (host := Fixture.host Fixture.not_executable) 1700000000000
                    "/srv/highstation/bin/openseal" (Sample.sealed (JStr "42")) Sample.wax
                    (Some Sample.root) Fixture.installed)
             (mkSpawnResult None None None)
             (mkDisk (<[Fixture.temp :=
                          stringify_response (Host := Fixture.host Fixture.not_executable)
                            (Sample.sealed (JStr "42"))]> (files Fixture.installed)) ∅ ∅)).
    + rewrite sample_paths. apply not_elem_of_empty.
    + vm_compute. reflexivity.
    + rewrite sample_paths. apply not_elem_of_empty.
    + reflexivity.
    + discriminate.
  - apply (proj2 (verifyWithCli_spawn_error
                    (host := Fixture.host (Fixture.cli Sample.a_hash)) 1700000000000
                    "/srv/highstation/bin/openseal" (Sample.sealed (JStr "42")) Sample.wax
                    (Some Sample.root) Fixture.full)).
    + rewrite sample_paths. unfold Fixture.full. cbn [unwritable].
      apply elem_of_singleton_2. reflexivity.
    + vm_compute. reflexivity.
Defined.

(** X25, witness: the binary accepts the envelope, and the temporary file
    cannot be removed. *)
Lemma verify_cleanup_throws_witness :
  let host := Fixture.host (Fixture.cli Sample.a_hash) in
  let tempFilePath :=
    path_join (Host := host)
      [cwd (Host := host); "temp_response_" ++ pretty 1700000000000%Z ++ ".json"] in
  let after :=
    mkDisk (<[Fixture.temp := stringify_response (Host := host) (Sample.sealed (JStr "42"))]>
              (files Fixture.sticky)) ∅ {[ Fixture.temp ]} in
  verify (host := host) (noble := Standin.noble) (codec := Fixture.json)
    1700000000000 (Sample.sealed (JStr "42")) Sample.wax (Some Sample.root) Fixture.sticky
  = (Throw (fs_error (Host := host) "unlink" tempFilePath), after).
Proof.
  cbv zeta.
  apply (verify_cleanup_throws
           (host := Fixture.host (Fixture.cli Sample.a_hash)) (noble := Standin.noble)
           (codec := Fixture.json) 1700000000000 (Sample.sealed (JStr "42")) Sample.wax
           (Some Sample.root) Fixture.sticky _
           (mkSpawnResult
              (Some ("Signature Valid: ✅" ++ Fixture.nl ++ "Identity Valid:  ✅" ++ Fixture.nl
                     ++ "Result: SEAL VALID" ++ Fixture.nl))
              (Some "") (Some 0%Z))).
  - vm_compute. reflexivity.
  - rewrite sample_paths. apply not_elem_of_empty.
  - vm_compute. reflexivity.
  - vm_compute. reflexivity.
  - rewrite sample_paths. cbn [unremovable]. apply elem_of_singleton_2. reflexivity.
Defined.

(** X26, witness: no binary on the disk; the native verifier accepts the
    honest envelope. *)
Lemma verify_native_fallback_witness :
  let bare := mkDisk ∅ ∅ ∅ in
  exists r,
    verify (host := Fixture.host (Fixture.cli Sample.a_hash)) (noble := Standin.noble)
      (codec := Standin.codec) 1700000000000 (Sample.sealed (JStr "42")) Sample.wax
      (Some Sample.root) bare = (Ok r, bare)
    /\ outcome (verifyNative (noble := Standin.noble) (codec := Standin.codec)
                  (Sample.sealed (JStr "42")) Sample.wax (Some Sample.root)) = Ok r.
Proof.
  cbv zeta.
  apply (verify_native_fallback
           (host := Fixture.host (Fixture.cli Sample.a_hash)) (noble := Standin.noble)
           (codec := Standin.codec) 1700000000000 (Sample.sealed (JStr "42")) Sample.wax
           (Some Sample.root) (mkDisk ∅ ∅ ∅)).
  vm_compute. reflexivity.
Defined.

End CliFixtures.

(** ** The update handler: what reaches the statement *)

Section UpdateExtras.
Import ServiceUpdate.
Context {backend : Backend}.

Lemma allowed_In (k : string) : allowed k = true -> In k allowedKeys.
Proof.
  unfold allowed. intros Hk. apply existsb_exists in Hk as (k' & Hin & Heq).
  apply String.eqb_eq in Heq. subst k'. exact Hin.
Qed.

Lemma own_In (key : string) (o : Object) (v : JSON) :
  own key o = Some v -> In (key, Some v) o.
Proof.
  induction o as [| [k w] rest IH]; [discriminate |].
  cbn [own]. destruct (String.eqb_spec k key) as [-> | _].
  - intros ->. left. reflexivity.
  - intros Hrest. right. apply IH, Hrest.
Qed.

Lemma assign_Forall (P : string * option JSON -> Prop) (key : string)
    (value : option JSON) (o : Object) :
  Forall P o -> P (key, value) -> Forall P (assign key value o).
Proof.
  intros Ho Hnew. induction Ho as [| [k v] rest Hkv Hrest IH]; cbn [assign].
  - constructor; [exact Hnew | constructor].
  - destruct (String.eqb_spec k key) as [-> | _]; constructor; assumption.
Qed.

Lemma assign_nonempty (key : string) (value : option JSON) (o : Object) :
  assign key value o <> [].
Proof. destruct o as [| [k v] rest]; cbn; [| destruct (String.eqb k key)]; discriminate. Qed.

(** The entries copied from the body. *)
Lemma sanitized_entries (updates : JSON) (keys : list string) :
  Forall (fun entry : string * option JSON =>
            In (fst entry) allowedKeys /\ snd entry = JS.get (fst entry) updates)
    (omap (λ k, if allowed k then Some (k, JS.get k updates) else None) keys).
Proof.
  induction keys as [| k keys IH]; [constructor |].
  cbn [omap list_omap]. destruct (allowed k) eqn:Hk; [| exact IH].
  constructor; [| exact IH]. split; [apply allowed_In, Hk | reflexivity].
Qed.


Lemma own_assign_ne (key key' : string) (value : option JSON) (o : Object) :
  key <> key' -> own key (assign key' value o) = own key o.
Proof.
  intros Hne. induction o as [| [k v] rest IH]; cbn [assign own].
  - destruct (String.eqb_spec key' key); [congruence | reflexivity].
  - destruct (String.eqb_spec k key') as [-> | Hk]; cbn [own].
    + destruct (String.eqb_spec key' key); [congruence | reflexivity].
    + destruct (String.eqb k key); [reflexivity | exact IH].
Qed.

(** The statement of [patch_try]: built from the entries of the sanitised
    object, each of which is a copy of an allowed key of the body, the root
    hash the identity service returned, or the grade read from the
    requirements. *)
Lemma patch_try_statement (id userId : string) (updates : JSON) (keys : list string)
    (statement : Query) :
  In statement (fst (patch_try id userId updates keys)) ->
  exists entries : Object,
    entries <> []
    /\ fst (patch_try id userId updates keys) = [statement]
    /\ statement
       = mkQuery (update_sql (String.concat ", " (assignments 0 (fst <$> entries))))
           (Some (JStr id) :: Some (JStr userId) :: (snd <$> entries))
    /\ Forall (fun entry : string * option JSON =>
                 (In (fst entry) allowedKeys /\ snd entry = JS.get (fst entry) updates)
                 \/ (fst entry = "openseal_root_hash"
                     /\ exists url osResult service,
                          JS.get "openseal_repo_url" updates = Some url
                          /\ JS.truthy url = true
                          /\ registerIdentity id userId url = Ok osResult
                          /\ JS.get "service" osResult = Some service
                          /\ snd entry = JS.get "openseal_root_hash" service)
                 \/ (fst entry = "min_grade"
                     /\ exists grade,
                          JS.get "access_requirements" updates ≫= JS.get "min_grade"
                          = Some (JStr grade)
                          /\ snd entry = Some (JStr grade)))
         entries.
Proof.
  unfold patch_try.
  set (copied := omap (λ k, if allowed k then Some (k, JS.get k updates) else None) keys).
  pose proof (sanitized_entries updates keys) as Hcopied. fold copied in Hcopied.
  assert (Hown : forall key v, own key copied = Some v -> JS.get key updates = Some v).
  { intros key v Hv. apply own_In in Hv.
    rewrite List.Forall_forall in Hcopied.
    destruct (Hcopied _ Hv) as [_ Heq]. symmetry. exact Heq. }
  destruct (List.length copied =? 0)%nat eqn:Hlen; [intros [] |].
  set (entry_ok := fun entry : string * option JSON => _ \/ _ \/ _).
  assert (Hstart : Forall entry_ok copied).
  { eapply List.Forall_impl; [| exact Hcopied]. intros entry Hentry. left. exact Hentry. }
  assert (Hnonempty : copied <> []).
  { intros Hnil. rewrite Hnil in Hlen. discriminate. }
  (* the re-verified identity *)
  match goal with
  | |- In _ (fst match ?r with Ok _ => _ | Throw _ => _ end) -> _ =>
      assert (Hreverified : match r with
                            | Ok o => o <> [] /\ Forall entry_ok o
                                      /\ own "access_requirements" o
                                         = own "access_requirements" copied
                            | Throw _ => True
                            end);
      [| destruct r as [reverified | osErr]; [| intros []] ]
  end.
  { destruct (JS.truthy_opt (own "openseal_repo_url" copied)) eqn:Hrepo; [| auto].
    destruct (own "openseal_repo_url" copied) as [url |] eqn:Hurl; [| discriminate].
    cbn [default from_option Datatypes.id].
    destruct (registerIdentity id userId url) as [osResult |] eqn:Hregister; [| exact I].
    unfold service_root_hash.
    destruct (JS.get "service" osResult) as [service |] eqn:Hservice;
      [| destruct osResult; exact I].
    assert (Hentry : entry_ok ("openseal_root_hash", JS.get "openseal_root_hash" service)).
    { right. left. split; [reflexivity |]. exists url, osResult, service.
      repeat split; auto. }
    destruct osResult; try exact I; destruct service; try exact I;
      (split; [apply assign_nonempty |]);
      (split; [apply assign_Forall; auto | apply own_assign_ne; discriminate]). }
  destruct Hreverified as (Hsome & Hok & Hreqs).
  (* the grade *)
  match goal with
  | |- context [List.length (fst <$> ?o)] =>
      assert (Hfinal : o <> [] /\ Forall entry_ok o); [| set (entries := o) in * ]
  end.
  { destruct (JS.truthy_opt (own "access_requirements" reverified)); [| auto].
    rewrite Hreqs.
    destruct (own "access_requirements" copied) as [reqs |] eqn:Hrequirements; [| auto].
    cbn [mbind option_bind].
    destruct (JS.get "min_grade" reqs) as [[| | | grade | |] |] eqn:Hgrade; auto.
    split; [apply assign_nonempty |]. apply assign_Forall; auto.
    right. right. split; [reflexivity |]. exists grade.
    rewrite (Hown _ _ Hrequirements). cbn [mbind option_bind]. rewrite Hgrade. auto. }
  destruct Hfinal as [Hentries Hall]. cbv zeta.
  destruct (List.length (fst <$> entries) =? 0)%nat eqn:Hnone; [intros [] |].
  intros Hin. exists entries.
  split; [exact Hentries |].
  assert (Hone : forall reply, In statement (fst ([mkQuery
             (update_sql (String.concat ", " (assignments 0 (fst <$> entries))))
             (Some (JStr id) :: Some (JStr userId) :: (snd <$> entries))], reply : Reply)) ->
           statement = mkQuery
             (update_sql (String.concat ", " (assignments 0 (fst <$> entries))))
             (Some (JStr id) :: Some (JStr userId) :: (snd <$> entries))).
  { intros reply [<- | []]. reflexivity. }
  destruct (query _) as [[| data rows] | e];
    apply Hone in Hin; subst statement; auto.
Qed.


Lemma assignments_lookup (index : nat) (finalKeys : list string) (i : nat) (key : string) :
  finalKeys !! i = Some key ->
  assignments index finalKeys !! i = Some (key ++ " = $" ++ pretty (index + i + 3)%nat).
Proof.
  revert index i. induction finalKeys as [| k rest IH]; intros index i; [discriminate |].
  destruct i as [| i]; cbn [assignments lookup list_lookup].
  - intros [= ->]. rewrite Nat.add_0_r. reflexivity.
  - intros Hkey. replace (index + S i + 3)%nat with (S index + i + 3)%nat by lia.
    exact (IH (S index) i Hkey).
Qed.

(** X27.  The one statement the update handler ever issues is an UPDATE of
    the row with the given id and the authenticated user as provider.  Its
    SET clause names only columns from the fixed list of allowed keys, plus
    openseal_root_hash and min_grade; the column at position i is bound to
    placeholder $(i+3), whose parameter is the body's value for an allowed
    key, the root hash returned by the identity service for the body's
    repository URL, or the string min_grade of the body's access
    requirements.  No other text of the request reaches the statement. *)
Theorem patch_statement (id : string) (userId : option string) (updates : JSON)
    (statement : Query) :
  In statement (fst (patch id userId updates)) ->
  exists user columns,
    userId = Some user /\ user <> ""
    /\ fst (patch id userId updates) = [statement]
    /\ columns <> []
    /\ sql statement = update_sql (String.concat ", " (assignments 0 columns))
    /\ List.length (values statement) = (List.length columns + 2)%nat
    /\ values statement !! 0%nat = Some (Some (JStr id))
    /\ values statement !! 1%nat = Some (Some (JStr user))
    /\ forall i column,
         columns !! i = Some column ->
         assignments 0 columns !! i = Some (column ++ " = $" ++ pretty (i + 3)%nat)
         /\ exists value,
              values statement !! (i + 2)%nat = Some value
              /\ ((In column allowedKeys /\ value = JS.get column updates)
                  \/ (column = "openseal_root_hash"
                      /\ exists url osResult service,
                           JS.get "openseal_repo_url" updates = Some url
                           /\ JS.truthy url = true
                           /\ registerIdentity id user url = Ok osResult
                           /\ JS.get "service" osResult = Some service
                           /\ value = JS.get "openseal_root_hash" service)
                  \/ (column = "min_grade"
                      /\ exists grade,
                           JS.get "access_requirements" updates ≫= JS.get "min_grade"
                           = Some (JStr grade)
                           /\ value = Some (JStr grade))).
Proof.
  unfold patch.
  destruct userId as [user |]; cbn [JS.truthy_str]; [| intros []].
  destruct (String.eqb_spec user "") as [-> | Huser]; cbn [negb]; [intros [] |].
  destruct (Object_keys updates) as [keys |]; [| intros []].
  destruct (List.length keys =? 0)%nat; [intros [] |].
  cbn [default from_option Datatypes.id]. intros Hin.
  destruct (patch_try_statement id user updates keys statement Hin)
    as (entries & Hentries & Hone & -> & Hall).
  exists user, (fst <$> entries).
  split; [reflexivity |]. split; [exact Huser |]. split; [exact Hone |].
  split; [intros Hnil; apply fmap_nil_inv in Hnil; contradiction |].
  split; [reflexivity |]. cbn [values sql].
  split; [cbn [List.length]; rewrite !length_fmap; lia |].
  split; [reflexivity |]. split; [reflexivity |].
  intros i column Hcolumn.
  split; [apply (assignments_lookup 0 _ i column Hcolumn) |].
  rewrite list_lookup_fmap in Hcolumn.
  apply fmap_Some in Hcolumn as ([k value] & Hentry & ->). cbn [fst].
  exists value. split.
  - replace (i + 2)%nat with (S (S i)) by lia.
    change ((snd <$> entries) !! i = Some value).
    rewrite list_lookup_fmap, Hentry. reflexivity.
  - rewrite List.Forall_forall in Hall.
    apply (Hall (k, value)). apply list_elem_of_In.
    apply (list_elem_of_lookup_2 _ i). exact Hentry.
Qed.

(** X28.  A body none of whose keys is an allowed one changes nothing: the
    handler answers 400 and issues no statement.  That covers a body naming
    only openseal_root_hash, min_grade, id or provider_id, and a body that is
    an array or a string, whose keys are indices. *)
Theorem patch_refuses_without_allowed_key
    (id : string) (userId : option string) (updates : JSON) (keys : list string) :
  JS.truthy_str userId = true ->
  Object_keys updates = Ok keys ->
  (forall k, In k keys -> allowed k = false) ->
  fst (patch id userId updates) = []
  /\ snd (patch id userId updates)
     = Refused 400 (if (List.length keys =? 0)%nat then "No updates provided"
                    else "No valid updates provided") None.
Proof.
  intros Huser Hkeys Hnone. unfold patch. rewrite Huser, Hkeys. cbn [negb].
  destruct (List.length keys =? 0)%nat; [split; reflexivity |].
  unfold patch_try.
  replace (omap (λ k, if allowed k then Some (k, JS.get k updates) else None) keys)
    with (@nil (string * option JSON)); [split; reflexivity |].
  symmetry. clear Hkeys. induction keys as [| k keys IH]; [reflexivity |].
  cbn [omap list_omap]. rewrite (Hnone k (or_introl eq_refl)).
  apply IH. intros k' Hk'. apply Hnone. right. exact Hk'.
Qed.

(** X29.  An update that names a repository is all or nothing: when the
    identity service rejects the repository URL, the handler answers 400
    "OpenSeal Verification Failed" with the service's message and issues no
    statement, so that the other columns of the body are not written
    either. *)
Theorem patch_identity_failure
    (id user : string) (fields : list (string * JSON)) (url : JSON) (osErr : Error) :
  user <> "" ->
  JS.get "openseal_repo_url" (JObj fields) = Some url -> JS.truthy url = true ->
  registerIdentity id user url = Throw osErr ->
  patch id (Some user) (JObj fields)
  = ([], Refused 400 "OpenSeal Verification Failed" (Some (error_message osErr))).
Proof.
  intros Huser Hurl Htruthy Hregister. unfold patch.
  rewrite (truthy_str_Some user Huser). cbn [negb Object_keys].
  assert (Hown : own "openseal_repo_url"
                   (omap (λ k, if allowed k then Some (k, JS.get k (JObj fields)) else None)
                      (fst <$> fields)) = Some url).
  { cbn [JS.get] in Hurl |- *.
    assert (Hgen : forall all, JS.assoc "openseal_repo_url" fields = Some url ->
              JS.assoc "openseal_repo_url" all = Some url ->
              own "openseal_repo_url"
                (omap (λ k, if allowed k then Some (k, JS.assoc k all) else None)
                   (fst <$> fields)) = Some url).
    { intros all. induction fields as [| [k v] rest IH]; [discriminate |].
      cbn [JS.assoc fmap list_fmap omap list_omap fst].
      destruct (String.eqb_spec k "openseal_repo_url") as [-> | Hk].
      - intros _ Hall. cbn [allowed allowedKeys existsb String.eqb Ascii.eqb Bool.eqb orb].
        cbn. rewrite Hall. reflexivity.
      - intros Hrest Hall. destruct (allowed k); [| apply IH; assumption].
        cbn [own]. destruct (String.eqb_spec k "openseal_repo_url"); [contradiction |].
        apply IH; assumption. }
    apply Hgen; exact Hurl. }
  assert (Hkeys : (List.length (fst <$> fields) =? 0)%nat = false).
  { destruct fields; [discriminate | reflexivity]. }
  cbn [Object_keys]. rewrite Hkeys. cbn [default from_option Datatypes.id].
  unfold patch_try.
  destruct (List.length (omap _ _) =? 0)%nat eqn:Hlen.
  { apply Nat.eqb_eq in Hlen. apply List.length_zero_iff_nil in Hlen.
    rewrite Hlen in Hown. discriminate. }
  rewrite Hown. cbn [JS.truthy_opt]. rewrite Htruthy.
  cbn [default from_option Datatypes.id]. rewrite Hregister. reflexivity.
Qed.

(** X30.  The status of a service is among the columns its provider may
    write: a body that names only [status] makes the handler issue the UPDATE
    with SET status = $3 and the given value as third parameter, whatever the
    value is and without a call to the identity service. *)
Theorem patch_status (id user : string) (status : JSON) :
  user <> "" ->
  let statement :=
    mkQuery (update_sql "status = $3") [Some (JStr id); Some (JStr user); Some status] in
  patch id (Some user) (JObj [("status", status)])
  = ([statement],
     match query statement with
     | Throw _ => Refused 500 "Database error during update" None
     | Ok [] => Refused 404 "Service not found or unauthorized" None
     | Ok (data :: _) => Updated data
     end).
Proof.
  intros Huser statement. unfold patch.
  rewrite (truthy_str_Some user Huser). cbn [negb Object_keys].
  cbn [fmap list_fmap List.length Nat.eqb default from_option Datatypes.id fst].
  unfold patch_try.
  change (omap _ ["status"]) with [("status", Some status)].
  cbn [List.length Nat.eqb own String.eqb Ascii.eqb Bool.eqb JS.truthy_opt andb].
  change (update_sql (String.concat ", " (assignments 0 (fst <$> [("status", Some status)]))))
    with (update_sql "status = $3").
  change (Some (JStr id) :: Some (JStr user) :: (snd <$> [("status", Some status)]))
    with [Some (JStr id); Some (JStr user); Some status].
  fold statement. destruct (query statement) as [[| data rows] |]; reflexivity.
Qed.

End UpdateExtras.

(** ** The update handler on a sample body *)

Section UpdateFixtures.
Import ServiceUpdate.

(** X27, witness: a body that renames the service, names a repository and
    requirements, and tries to set the provider and the root hash itself. *)
Lemma patch_statement_witness :
  let backend := Fixture.backend Fixture.identity_known in
  let statement := Fixture.update_statement in
  let id := "svc-1" in
  let updates := Fixture.update_body in
  exists user columns,
    Some "user-1" = Some user /\ user <> ""
    /\ fst (patch (backend := backend) id (Some "user-1") updates) = [statement]
    /\ columns <> []
    /\ sql statement = update_sql (String.concat ", " (assignments 0 columns))
    /\ List.length (values statement) = (List.length columns + 2)%nat
    /\ values statement !! 0%nat = Some (Some (JStr id))
    /\ values statement !! 1%nat = Some (Some (JStr user))
    /\ forall i column,
         columns !! i = Some column ->
         assignments 0 columns !! i = Some (column ++ " = $" ++ pretty (i + 3)%nat)
         /\ exists value,
              values statement !! (i + 2)%nat = Some value
              /\ ((In column allowedKeys /\ value = JS.get column updates)
                  \/ (column = "openseal_root_hash"
                      /\ exists url osResult service,
                           JS.get "openseal_repo_url" updates = Some url
                           /\ JS.truthy url = true
                           /\ registerIdentity (Backend := backend) id user url = Ok osResult
                           /\ JS.get "service" osResult = Some service
                           /\ value = JS.get "openseal_root_hash" service)
                  \/ (column = "min_grade"
                      /\ exists grade,
                           JS.get "access_requirements" updates ≫= JS.get "min_grade"
                           = Some (JStr grade)
                           /\ value = Some (JStr grade))).
Proof.
  cbv zeta.
  apply (patch_statement (backend := Fixture.backend Fixture.identity_known)
           "svc-1" (Some "user-1") Fixture.update_body Fixture.update_statement).
  vm_compute. left. reflexivity.
Defined.

(** X28, witness: a body that tries to set the provider and the root
    hash, and nothing that is allowed. *)
Lemma patch_refuses_without_allowed_key_witness :
  let updates :=
    JObj [("provider_id", JStr "someone-else"); ("openseal_root_hash", JStr "f00d")] in
  fst (patch (backend := Fixture.backend Fixture.identity_known) "svc-1" (Some "user-1")
         updates) = []
  /\ snd (patch (backend := Fixture.backend Fixture.identity_known) "svc-1" (Some "user-1")
            updates)
     = Refused 400 "No valid updates provided" None.
Proof.
  cbv zeta.
  apply (patch_refuses_without_allowed_key
           (backend := Fixture.backend Fixture.identity_known) "svc-1" (Some "user-1")
           (JObj [("provider_id", JStr "someone-else"); ("openseal_root_hash", JStr "f00d")])
           ["provider_id"; "openseal_root_hash"]).
  - reflexivity.
  - reflexivity.
  - intros k [<- | [<- | []]]; reflexivity.
Defined.

(** X29, witness: the sample body when the repository is not known. *)
Lemma patch_identity_failure_witness :
  patch (backend := Fixture.backend Fixture.identity_unknown) "svc-1" (Some "user-1")
    Fixture.update_body
  = ([], Refused 400 "OpenSeal Verification Failed" (Some "Manifest not found")).
Proof.
  apply (patch_identity_failure (backend := Fixture.backend Fixture.identity_unknown)
           "svc-1" "user-1" _ (JStr "https://github.com/acme/weather")
           (mkError "Manifest not found")).
  - discriminate.
  - reflexivity.
  - reflexivity.
  - reflexivity.
Defined.

(** X30, witness: a provider marks its own service as verified. *)
Lemma patch_status_witness :
  patch (backend := Fixture.backend Fixture.identity_unknown) "svc-1" (Some "user-1")
    (JObj [("status", JStr "verified")])
  = ([mkQuery (update_sql "status = $3")
        [Some (JStr "svc-1"); Some (JStr "user-1"); Some (JStr "verified")]],
     Updated (JObj [("id", JStr "svc-1")])).
Proof.
  apply (patch_status (backend := Fixture.backend Fixture.identity_unknown)
           "svc-1" "user-1" (JStr "verified")).
  discriminate.
Defined.

End UpdateFixtures.
